(** * Order lifecycle and payment settlement core of the e-commerce storefront

    A shallow embedding of [apps/orders/models.py], [apps/orders/signals.py],
    [apps/orders/services.py], [apps/payments/models.py],
    [apps/payments/registry.py] and [apps/payments/services.py], followed by
    the properties of the order state machine, the totals computation and the
    payment orchestration service. *)

From Stdlib Require Import ZArith QArith Qpower Lia.
From stdpp Require Import gmap strings list pretty.

Local Open Scope Z_scope.

(** ** Python's [decimal.Decimal] under the default context

    A finite decimal is a signed coefficient and an exponent; its value is
    [coeff * 10 ^ exponent].  Every arithmetic result is the exact result
    rounded to the context precision (28 significant digits, round half
    even); comparisons are exact.  The exponent limits of the context
    (Emax/Emin at 999999) are never approached and are left out. *)

Module Decimal.

Record t : Type := mk { coeff : Z; exponent : Z }.

Definition prec : Z := 28.

Fixpoint ndigits_fuel (fuel : nat) (n : Z) : Z :=
  match fuel with
  | O => 1
  | S fuel' => if n <? 10 then 1 else 1 + ndigits_fuel fuel' (n / 10)
  end.

(** [len(str(abs(n)))] *)
Definition ndigits (n : Z) : Z :=
  ndigits_fuel (S (Z.to_nat (Z.log2 (Z.abs n)))) (Z.abs n).

(** [Decimal._fix]: coefficients of at most [prec] digits are kept as they
    are; longer ones lose their low digits, rounding half to even. *)
Definition fix_ (d : t) : t :=
  let a := Z.abs (coeff d) in
  if a <? 10 ^ prec then d
  else
    let k := ndigits a - prec in
    let q := a / 10 ^ k in
    let r := a mod 10 ^ k in
    let up := (10 ^ k <? 2 * r) || ((10 ^ k =? 2 * r) && Z.odd q) in
    let q' := if up then q + 1 else q in
    if q' =? 10 ^ prec
    then mk (Z.sgn (coeff d) * 10 ^ (prec - 1)) (exponent d + k + 1)
    else mk (Z.sgn (coeff d) * q') (exponent d + k).

(** The coefficient of [d] once its exponent is lowered to [e]. *)
Definition coeff_at (e : Z) (d : t) : Z := coeff d * 10 ^ (exponent d - e).

Definition add (a b : t) : t :=
  let e := Z.min (exponent a) (exponent b) in
  fix_ (mk (coeff_at e a + coeff_at e b) e).

Definition neg (a : t) : t := mk (- coeff a) (exponent a).

Definition sub (a b : t) : t := add a (neg b).

Definition mul (a b : t) : t :=
  fix_ (mk (coeff a * coeff b) (exponent a + exponent b)).

Definition compare (a b : t) : comparison :=
  let e := Z.min (exponent a) (exponent b) in
  Z.compare (coeff_at e a) (coeff_at e b).

Definition leb (a b : t) : bool :=
  match compare a b with Gt => false | _ => true end.

Definition geb (a b : t) : bool := leb b a.

Definition ltb (a b : t) : bool :=
  match compare a b with Lt => true | _ => false end.

Definition eqb (a b : t) : bool :=
  match compare a b with Eq => true | _ => false end.

(** Truthiness: a [Decimal] is falsy exactly when it is zero. *)
Definition truthy (a : t) : bool := negb (coeff a =? 0).

(** [Decimal(n)] for an [int] *)
Definition of_int (n : Z) : t := mk n 0.

(** [Decimal('x.yz')], given in hundredths *)
Definition cents (n : Z) : t := mk n (-2).

(** The rational number a decimal denotes. *)
Definition value (d : t) : Q := inject_Z (coeff d) * (10 # 1) ^ exponent d.

(** [sum(xs)]: Python starts from the [int] 0 and adds from the left. *)
Definition sum (xs : list t) : t := fold_left add xs (of_int 0).

End Decimal.

Abbreviation decimal := Decimal.t.

(** A value as a [DecimalField(max_digits=10, decimal_places=2)] column
    returns it: two decimal places, at most ten digits. *)
Definition money_field (d : decimal) : Prop :=
  Decimal.exponent d = -2 /\ Z.abs (Decimal.coeff d) < 10 ^ 10.

(** ** Data model *)

(** [Order.STATUS_CHOICES] *)
Module OrderStatus.
Inductive t : Set :=
  draft | pending_payment | paid | processing | shipped | delivered
| canceled | refunded.

#[global] Instance eq_dec : EqDecision t.
Proof. solve_decision. Defined.

(** The stored string of each choice. *)
Definition str (s : t) : string :=
  match s with
  | draft => "draft" | pending_payment => "pending_payment" | paid => "paid"
  | processing => "processing" | shipped => "shipped"
  | delivered => "delivered" | canceled => "canceled"
  | refunded => "refunded"
  end.
End OrderStatus.

(** [Payment.STATUS_CHOICES] *)
Module PaymentStatus.
Inductive t : Set :=
  pending | authorized | captured | completed | failed | canceled
| refunded | partially_refunded.

#[global] Instance eq_dec : EqDecision t.
Proof. solve_decision. Defined.
End PaymentStatus.

(** [Transaction.TYPE_CHOICES] *)
Module TransactionType.
Inductive t : Set := authorize | capture | sale | refund | void | webhook.

#[global] Instance eq_dec : EqDecision t.
Proof. solve_decision. Defined.
End TransactionType.

(** Primary keys are UUIDs (or integers) in their textual form; timestamps
    are readings of the clock. *)
Abbreviation pk := string.
Abbreviation datetime := Z.

(** Opaque JSON blobs ([raw_request], [raw_response], [raw_data]). *)
Abbreviation json := (list (string * string)).

(** The columns of [Order] that the lifecycle reads or writes; the address
    snapshot, owner, notes and newsletter columns are carried by no
    operation below and are left out. *)
Module Order.
Record t : Type := mk {
  id : pk;
  number : string;
  status : OrderStatus.t;
  currency : string;
  subtotal : decimal;
  tax_total : decimal;
  shipping_total : decimal;
  discount_total : decimal;
  grand_total : decimal;
  terms_accepted : bool;
  paid_at : option datetime;
  shipped_at : option datetime;
  delivered_at : option datetime
}.

Definition set_status (s : OrderStatus.t) (o : t) : t :=
  mk (id o) (number o) s (currency o) (subtotal o) (tax_total o)
     (shipping_total o) (discount_total o) (grand_total o)
     (terms_accepted o) (paid_at o) (shipped_at o) (delivered_at o).

Definition set_number (n : string) (o : t) : t :=
  mk (id o) n (status o) (currency o) (subtotal o) (tax_total o)
     (shipping_total o) (discount_total o) (grand_total o)
     (terms_accepted o) (paid_at o) (shipped_at o) (delivered_at o).

Definition set_totals (sub tax ship grand : decimal) (o : t) : t :=
  mk (id o) (number o) (status o) (currency o) sub tax ship
     (discount_total o) grand
     (terms_accepted o) (paid_at o) (shipped_at o) (delivered_at o).

Definition set_paid_at (ts : datetime) (o : t) : t :=
  mk (id o) (number o) (status o) (currency o) (subtotal o) (tax_total o)
     (shipping_total o) (discount_total o) (grand_total o)
     (terms_accepted o) (Some ts) (shipped_at o) (delivered_at o).

Definition set_shipped_at (ts : datetime) (o : t) : t :=
  mk (id o) (number o) (status o) (currency o) (subtotal o) (tax_total o)
     (shipping_total o) (discount_total o) (grand_total o)
     (terms_accepted o) (paid_at o) (Some ts) (delivered_at o).

Definition set_delivered_at (ts : datetime) (o : t) : t :=
  mk (id o) (number o) (status o) (currency o) (subtotal o) (tax_total o)
     (shipping_total o) (discount_total o) (grand_total o)
     (terms_accepted o) (paid_at o) (shipped_at o) (Some ts).
End Order.

Module OrderItem.
Record t : Type := mk {
  order_id : pk;
  product_id : pk;
  quantity : Z;
  unit_price : decimal;
  line_total : decimal
}.
End OrderItem.

(** The two columns of [catalog.Product] the stock side effect touches. *)
Module Product.
Record t : Type := mk {
  stock_quantity : Z;
  track_inventory : bool
}.

Definition set_stock_quantity (n : Z) (p : t) : t := mk n (track_inventory p).
End Product.

Module OrderStatusHistory.
Record t : Type := mk {
  order_id : pk;
  from_status : option OrderStatus.t;
  to_status : OrderStatus.t;
  reason : string
}.
End OrderStatusHistory.

Module Payment.
Record t : Type := mk {
  id : pk;
  order_id : pk;
  provider_code : string;
  external_id : string;
  amount : decimal;
  currency : string;
  status : PaymentStatus.t;
  raw_response : option json;
  failure_reason : string;
  authorized_at : option datetime;
  captured_at : option datetime;
  failed_at : option datetime
}.

Definition set_status (s : PaymentStatus.t) (p : t) : t :=
  mk (id p) (order_id p) (provider_code p) (external_id p) (amount p)
     (currency p) s (raw_response p) (failure_reason p)
     (authorized_at p) (captured_at p) (failed_at p).

Definition set_external_id (e : string) (p : t) : t :=
  mk (id p) (order_id p) (provider_code p) e (amount p)
     (currency p) (status p) (raw_response p) (failure_reason p)
     (authorized_at p) (captured_at p) (failed_at p).

Definition set_raw_response (r : json) (p : t) : t :=
  mk (id p) (order_id p) (provider_code p) (external_id p) (amount p)
     (currency p) (status p) (Some r) (failure_reason p)
     (authorized_at p) (captured_at p) (failed_at p).

Definition set_failure_reason (r : string) (p : t) : t :=
  mk (id p) (order_id p) (provider_code p) (external_id p) (amount p)
     (currency p) (status p) (raw_response p) r
     (authorized_at p) (captured_at p) (failed_at p).

Definition set_authorized_at (ts : datetime) (p : t) : t :=
  mk (id p) (order_id p) (provider_code p) (external_id p) (amount p)
     (currency p) (status p) (raw_response p) (failure_reason p)
     (Some ts) (captured_at p) (failed_at p).

Definition set_captured_at (ts : datetime) (p : t) : t :=
  mk (id p) (order_id p) (provider_code p) (external_id p) (amount p)
     (currency p) (status p) (raw_response p) (failure_reason p)
     (authorized_at p) (Some ts) (failed_at p).

Definition set_failed_at (ts : datetime) (p : t) : t :=
  mk (id p) (order_id p) (provider_code p) (external_id p) (amount p)
     (currency p) (status p) (raw_response p) (failure_reason p)
     (authorized_at p) (captured_at p) (Some ts).

Definition is_successful (p : t) : bool :=
  bool_decide (status p ∈ [PaymentStatus.completed; PaymentStatus.captured]).

Definition can_be_captured (p : t) : bool :=
  bool_decide (status p = PaymentStatus.authorized).

Definition can_be_refunded (p : t) : bool :=
  bool_decide (status p ∈ [PaymentStatus.completed; PaymentStatus.captured]).
End Payment.

Module Transaction.
Record t : Type := mk {
  payment_id : pk;
  type : TransactionType.t;
  external_id : string;
  amount : option decimal;
  currency : string;
  success : bool;
  error_message : string;
  raw_response : option json
}.
End Transaction.

(** ** Persistent state: the relational tables

    [Payment], [Transaction] and [OrderStatusHistory] declare
    [ordering = ['-created_at']]: their tables are kept newest first, so a
    default-ordered queryset is the list as stored and [objects.create]
    adds at the head.  [OrderItem] has no declared ordering and is kept in
    insertion order.

    A row holds the values the code wrote.  A
    [DecimalField(max_digits=10, decimal_places=2)] column keeps a value of
    at most two places as it is and rounds a longer one; that rounding is
    not part of the rows below, so they are the rows of the real table when
    the amounts written have at most two places, as every amount that was
    itself read from a table has. *)
Record DB : Type := mkDB {
  orders : gmap pk Order.t;
  order_items : list OrderItem.t;
  products : gmap pk Product.t;
  status_history : list OrderStatusHistory.t;
  payments : list Payment.t;
  transactions : list Transaction.t
}.

Definition set_orders (x : gmap pk Order.t) (d : DB) : DB :=
  mkDB x (order_items d) (products d) (status_history d) (payments d)
    (transactions d).

Definition set_products (x : gmap pk Product.t) (d : DB) : DB :=
  mkDB (orders d) (order_items d) x (status_history d) (payments d)
    (transactions d).

Definition set_status_history (x : list OrderStatusHistory.t) (d : DB) : DB :=
  mkDB (orders d) (order_items d) (products d) x (payments d)
    (transactions d).

Definition set_payments (x : list Payment.t) (d : DB) : DB :=
  mkDB (orders d) (order_items d) (products d) (status_history d) x
    (transactions d).

Definition set_transactions (x : list Transaction.t) (d : DB) : DB :=
  mkDB (orders d) (order_items d) (products d) (status_history d)
    (payments d) x.

(** [order.items.all()] *)
Definition Order_items (db : DB) (o : Order.t) : list OrderItem.t :=
  filter (fun it => OrderItem.order_id it = Order.id o) (order_items db).

(** ** [Order.calculate_totals] *)
Definition tax_rate : decimal := Decimal.cents 21.

Definition calculate_totals (db : DB) (self : Order.t) : Order.t :=
  let subtotal :=
    Decimal.sum (map OrderItem.line_total (Order_items db self)) in
  let tax_total := Decimal.mul subtotal tax_rate in
  let shipping_total :=
    if Decimal.geb subtotal (Decimal.cents 5000)
    then Decimal.cents 0
    else Decimal.cents 595 in
  let grand_total :=
    Decimal.sub
      (Decimal.add (Decimal.add subtotal tax_total) shipping_total)
      (Order.discount_total self) in
  Order.set_totals subtotal tax_total shipping_total grand_total self.

(** ** Exceptions and Python values *)

Inductive exn : Type :=
| ValueError (msg : string)
| TypeError (msg : string)
| InvalidTransition (current : OrderStatus.t) (method : string)
                    (valid_sources : list OrderStatus.t)
| DoesNotExist (model : string)
| MultipleObjectsReturned (model : string)
| ValidationError (msg : string)
| IntegrityError (msg : string)
| ProviderException (msg : string).

(** [str(e)] *)
Definition str_exn (e : exn) : string :=
  match e with
  | ValueError msg | TypeError msg | ValidationError msg
  | IntegrityError msg | ProviderException msg => msg
  | InvalidTransition current method valid =>
      "Can't switch from state '" +:+ OrderStatus.str current
      +:+ "' using method '" +:+ method +:+ "'"
  | DoesNotExist model => model +:+ " matching query does not exist."
  | MultipleObjectsReturned model =>
      "get() returned more than one " +:+ model
  end.

(** The values found in the dictionaries the services return. *)
Inductive pyval : Type :=
| PyNone
| PyBool (b : bool)
| PyStr (s : string)
| PyDecimal (d : decimal)
| PyDict (d : json).

Abbreviation pydict := (gmap string pyval).

Definition py_opt_str (o : option string) : pyval :=
  match o with Some s => PyStr s | None => PyNone end.

Definition py_opt_dict (o : option json) : pyval :=
  match o with Some d => PyDict d | None => PyNone end.

Definition py_opt_decimal (o : option decimal) : pyval :=
  match o with Some d => PyDecimal d | None => PyNone end.

(** [x or default] for an [Optional[str]]: [None] and [''] are falsy. *)
Definition str_or (o : option string) (default : string) : string :=
  match o with
  | Some s => if bool_decide (s = "") then default else s
  | None => default
  end.

Definition str_truthy (o : option string) : bool :=
  match o with
  | Some s => negb (bool_decide (s = ""))
  | None => false
  end.

(** An [Optional[Dict]] is truthy when it is a non-empty dictionary. *)
Definition dict_truthy (o : option json) : bool :=
  match o with
  | Some (_ :: _) => true
  | _ => false
  end.

(** ** The payment provider contract ([apps/payments/base.py]) *)

Record PaymentInitResult : Type := mkInit {
  init_redirect_url : option string;
  init_form_data : option json;
  init_render_data : option json;
  init_success : bool;
  init_error_message : option string;
  (** not a declared field: [initiate_payment] probes it with [hasattr];
      [None] when the attribute is absent *)
  init_payment_id : option string
}.

(** [result.order_id] as [Order.objects.get(id=...)] reads it: falsy
    ([None] or ['']), a string that is no UUID (the lookup raises
    [ValidationError]), or a primary key. *)
Inductive order_ref : Type :=
| NoOrderRef
| MalformedOrderRef (raw : string)
| OrderRef (id : pk).

Record PaymentWebhookResult : Type := mkWebhook {
  wh_order_id : order_ref;
  wh_payment_id : option string;
  wh_status : string;
  wh_amount : option decimal;
  wh_currency : option string;
  wh_transaction_id : option string;
  wh_raw_data : option json;
  wh_success : bool;
  wh_error_message : option string
}.

Record PaymentOperationResult : Type := mkOperation {
  op_success : bool;
  op_transaction_id : option string;
  op_amount : option decimal;
  op_currency : option string;
  op_error_message : option string;
  op_raw_response : option json
}.

(** What a call returns: a value, or an exception raised. *)
Inductive outcome (A : Type) : Type :=
| Returned (a : A)
| Raised (e : exn).
Arguments Returned {A} a.
Arguments Raised {A} e.

(** The body of an HTTP request, opaque to the orchestration. *)
Abbreviation HttpRequest := string.

Module Provider.
(** A provider instance: each operation is a function of its arguments that
    returns or raises. *)
Record t : Type := mk {
  code : string;
  start_payment : Order.t -> string -> string -> outcome PaymentInitResult;
  handle_webhook : HttpRequest -> outcome PaymentWebhookResult;
  validate_webhook_signature : HttpRequest -> outcome bool;
  capture : Order.t -> option decimal -> outcome PaymentOperationResult;
  refund :
    Order.t -> decimal -> string -> outcome PaymentOperationResult
}.
End Provider.

(** ** The world: connection, durable rows, journal *)

(** What the code does to the outside, in the order it does it. *)
Inductive event : Type :=
| AtomicEnter
| AtomicCommit
| AtomicRollback
| OrderSaved (id : pk) (status : OrderStatus.t)
| ProductStockSaved (id : pk) (stock_quantity : Z)
| HistoryCreated (row : OrderStatusHistory.t)
| PaymentCreated (id : pk)
| PaymentSaved (id : pk) (status : PaymentStatus.t)
| TransactionCreated (type : TransactionType.t) (success : bool)
| ProviderCalled (code : string) (operation : string).

(** A call to the external provider, with the rows that were durable and
    the rows the open transaction saw when it was made. *)
Record ProviderCall : Type := mkCall {
  call_code : string;
  call_operation : string;
  durable_at_call : DB;
  visible_at_call : DB
}.

Record World : Type := mkWorld {
  (** the rows as the connection sees them, uncommitted writes included *)
  db : DB;
  (** the rows a crash would leave *)
  committed : DB;
  (** nesting depth of [transaction.atomic] blocks *)
  atomic_depth : nat;
  journal : list event;
  provider_calls : list ProviderCall;
  (** [timezone.now()] *)
  clock : datetime;
  (** [uuid.uuid4()] draws *)
  uuid_counter : N;
  (** [get_provider(code)] of [apps/payments/registry.py] with the default
      configuration: the instance of the class registered under the code,
      absent when no class is registered or its constructor raises *)
  registry : gmap string Provider.t;
  (** [Order.generate_order_number()]: a read of the orders table and of
      the clock followed by string formatting, taken as given *)
  generate_order_number : DB -> string
}.

Definition with_db (f : DB -> DB) (w : World) : World :=
  let d := f (db w) in
  mkWorld d
    (match atomic_depth w with O => d | _ => committed w end)
    (atomic_depth w) (journal w) (provider_calls w)
    (clock w) (uuid_counter w) (registry w) (generate_order_number w).

Definition with_journal (ev : event) (w : World) : World :=
  mkWorld (db w) (committed w) (atomic_depth w) (journal w ++ [ev])
    (provider_calls w) (clock w) (uuid_counter w) (registry w)
    (generate_order_number w).

(** ** The monad of service code: state and exceptions *)

Definition M (A : Type) : Type := World -> outcome A * World.

Definition ret {A} (a : A) : M A := fun w => (Returned a, w).

Definition raise {A} (e : exn) : M A := fun w => (Raised e, w).

Definition bind {A B} (m : M A) (k : A -> M B) : M B :=
  fun w =>
    match m w with
    | (Returned a, w') => k a w'
    | (Raised e, w') => (Raised e, w')
    end.

Notation "x <- m ;; k" := (bind m (fun x => k))
  (at level 100, m at next level, right associativity,
   format "'[v' x  <-  m  ;;  '/' k ']'").
Notation "m ;;; k" := (bind m (fun _ => k))
  (at level 100, right associativity,
   format "'[v' m  ;;;  '/' k ']'").

(** [try: body  except Exception as e: handler(e)]: what the body wrote
    before raising stays written. *)
Definition try_except {A} (body : M A) (handler : exn -> M A) : M A :=
  fun w =>
    match body w with
    | (Returned a, w') => (Returned a, w')
    | (Raised e, w') => handler e w'
    end.

Definition get_db : M DB := fun w => (Returned (db w), w).

(** One write: the rows change and the journal records it.  Outside any
    atomic block the connection autocommits. *)
Definition write (f : DB -> DB) (ev : event) : M unit :=
  fun w => (Returned tt, with_journal ev (with_db f w)).

Definition log (ev : event) : M unit :=
  fun w => (Returned tt, with_journal ev w).

Definition set_depth (n : nat) (w : World) : World :=
  mkWorld (db w) (committed w) n (journal w) (provider_calls w)
    (clock w) (uuid_counter w) (registry w) (generate_order_number w).

Definition set_rows (visible durable : DB) (w : World) : World :=
  mkWorld visible durable (atomic_depth w) (journal w) (provider_calls w)
    (clock w) (uuid_counter w) (registry w) (generate_order_number w).

(** [@transaction.atomic]: the writes of the block become durable when the
    outermost block returns; a block left by an exception rolls the rows
    back to what they were on entry (a savepoint when nested) and re-raises.
    Journal and provider calls are not rows and are not rolled back. *)
Definition atomic {A} (body : M A) : M A :=
  fun w =>
    let depth := atomic_depth w in
    let saved := db w in
    match body (set_depth (S depth) (with_journal AtomicEnter w)) with
    | (Returned a, w') =>
        let w'' := set_depth depth (with_journal AtomicCommit w') in
        (Returned a,
         match depth with
         | O => set_rows (db w'') (db w'') w''
         | _ => w''
         end)
    | (Raised e, w') =>
        let w'' := set_depth depth (with_journal AtomicRollback w') in
        (Raised e, set_rows saved (committed w'') w'')
    end.

(** [timezone.now()] *)
Definition timezone_now : M datetime := fun w => (Returned (clock w), w).

(** [uuid.uuid4()] *)
Definition uuid4 : M pk :=
  fun w =>
    (Returned ("uuid-" +:+ pretty (uuid_counter w)),
     mkWorld (db w) (committed w) (atomic_depth w) (journal w)
       (provider_calls w) (clock w) (N.succ (uuid_counter w)) (registry w)
       (generate_order_number w)).

(** [get_provider(code)] *)
Definition get_provider (code : string) : M (option Provider.t) :=
  fun w => (Returned (registry w !! code), w).

(** A call into a provider instance: the journal and the call log record
    it, then its outcome is returned or raised. *)
Definition call_provider {A} (code operation : string) (result : outcome A)
  : M A :=
  fun w =>
    let w' :=
      mkWorld (db w) (committed w) (atomic_depth w)
        (journal w ++ [ProviderCalled code operation])
        (provider_calls w ++ [mkCall code operation (committed w) (db w)])
        (clock w) (uuid_counter w) (registry w) (generate_order_number w) in
    (match result with Returned a => Returned a | Raised e => Raised e end,
     w').

(** [for x in xs: body(x)] *)
Fixpoint for_each {X} (xs : list X) (body : X -> M unit) : M unit :=
  match xs with
  | [] => ret tt
  | x :: xs' => body x ;;; for_each xs' body
  end.

(** ** [Order]: persistence, status history, transitions *)

(** [Order.save()]: a blank number is generated first. *)
Definition Order_save (self : Order.t) : M Order.t :=
  fun w =>
    let self' :=
      if bool_decide (Order.number self = "")
      then Order.set_number (generate_order_number w (db w)) self
      else self in
    (x <- write (fun d => set_orders (<[Order.id self' := self']> (orders d)) d)
               (OrderSaved (Order.id self') (Order.status self')) ;;
     ret self') w.

(** [signals.track_order_status_change], the function [signals.py]
    declares as receiver of [post_transition] for sender [Order]: what it
    does when it is called. *)
Definition track_order_status_change
    (instance : Order.t) (name : string) (source target : OrderStatus.t)
  : M unit :=
  let row :=
    OrderStatusHistory.mk (Order.id instance) (Some source) target
      ("Status changed via " +:+ name +:+ " transition") in
  write (fun d => set_status_history (row :: status_history d) d)
        (HistoryCreated row).

(** The [@transition(field=status, source=..., target=...)] declarations
    of [Order]. *)
Module Transition.
Inductive t : Set :=
  submit | mark_as_paid | start_processing | ship | deliver | cancel | refund.

#[global] Instance eq_dec : EqDecision t.
Proof. solve_decision. Defined.

Definition name (tr : t) : string :=
  match tr with
  | submit => "submit" | mark_as_paid => "mark_as_paid"
  | start_processing => "start_processing" | ship => "ship"
  | deliver => "deliver" | cancel => "cancel" | refund => "refund"
  end.

Definition source (tr : t) : list OrderStatus.t :=
  match tr with
  | submit => [OrderStatus.draft]
  | mark_as_paid => [OrderStatus.pending_payment]
  | start_processing => [OrderStatus.paid]
  | ship => [OrderStatus.processing]
  | deliver => [OrderStatus.shipped]
  | cancel => [OrderStatus.draft; OrderStatus.pending_payment;
               OrderStatus.paid; OrderStatus.processing]
  | refund => [OrderStatus.paid]
  end.

Definition target (tr : t) : OrderStatus.t :=
  match tr with
  | submit => OrderStatus.pending_payment
  | mark_as_paid => OrderStatus.paid
  | start_processing => OrderStatus.processing
  | ship => OrderStatus.shipped
  | deliver => OrderStatus.delivered
  | cancel => OrderStatus.canceled
  | refund => OrderStatus.refunded
  end.

Definition all : list t :=
  [submit; mark_as_paid; start_processing; ship; deliver; cancel; refund].
End Transition.

(** The receivers connected to the [post_transition] signal for sender
    [Order].  [track_order_status_change] is connected by its [@receiver]
    decorator when the module [apps.orders.signals] is imported, and no
    module of the application imports it: the orders app declares no
    [AppConfig] whose [ready] would, the settings list the app by its plain
    label, and neither the models nor the services, views, API or admin of
    the app refer to the module.  The signal is therefore sent with no
    receiver connected. *)
Definition post_transition_receivers
  : list (Order.t -> string -> OrderStatus.t -> OrderStatus.t -> M unit) :=
  [].

(** Modelled from the spec: the [transition] decorator and the
    [post_transition] signal of the [django_fsm] package, which the
    repository imports but does not contain.  A method called from a status
    outside its declared sources fails with an invalid-transition error that
    identifies the current status, the attempted transition and the valid
    sources, and nothing changes.  Otherwise the method body runs; if it
    raises, the exception propagates and the status stays; if it returns,
    the status field takes the target and the post-transition signal is
    sent once, with the prior and the new status, to the receivers
    connected to it. *)
Definition transition
    (tr : Transition.t) (body : Order.t -> M Order.t) (self : Order.t)
  : M Order.t :=
  let current := Order.status self in
  if bool_decide (current ∈ Transition.source tr) then
    self' <- body self ;;
    let self'' := Order.set_status (Transition.target tr) self' in
    x <- for_each post_transition_receivers
           (fun receiver =>
              receiver self'' (Transition.name tr) current
                (Transition.target tr)) ;;
    ret self''
  else
    raise (InvalidTransition current (Transition.name tr)
             (Transition.source tr)).

(** [self.items.exists()] *)
Definition items_exist (d : DB) (self : Order.t) : bool :=
  match Order_items d self with [] => false | _ => true end.

Definition submit : Order.t -> M Order.t :=
  transition Transition.submit (fun self =>
    if negb (Order.terms_accepted self)
    then raise (ValueError "Terms must be accepted")
    else
      d <- get_db ;;
      if negb (items_exist d self)
      then raise (ValueError "Order must have items")
      else ret (calculate_totals d self)).

Definition mark_as_paid : Order.t -> M Order.t :=
  transition Transition.mark_as_paid (fun self =>
    ts <- timezone_now ;;
    ret (Order.set_paid_at ts self)).

Definition start_processing : Order.t -> M Order.t :=
  transition Transition.start_processing (fun self => ret self).

Definition ship : Order.t -> M Order.t :=
  transition Transition.ship (fun self =>
    ts <- timezone_now ;;
    ret (Order.set_shipped_at ts self)).

Definition deliver : Order.t -> M Order.t :=
  transition Transition.deliver (fun self =>
    ts <- timezone_now ;;
    ret (Order.set_delivered_at ts self)).

Definition cancel : Order.t -> M Order.t :=
  transition Transition.cancel (fun self => ret self).

Definition refund : Order.t -> M Order.t :=
  transition Transition.refund (fun self => ret self).

(** The transition method of each declaration. *)
Definition method (tr : Transition.t) : Order.t -> M Order.t :=
  match tr with
  | Transition.submit => submit
  | Transition.mark_as_paid => mark_as_paid
  | Transition.start_processing => start_processing
  | Transition.ship => ship
  | Transition.deliver => deliver
  | Transition.cancel => cancel
  | Transition.refund => refund
  end.

(** ** [OrderService] ([apps/orders/services.py]) *)

(** [order.items.select_related('product')]: one query, evaluated when the
    loop starts; every item comes with its own copy of its product row. *)
Definition items_select_related_product (d : DB) (o : Order.t)
  : list (OrderItem.t * Product.t) :=
  omap (fun it =>
          match products d !! OrderItem.product_id it with
          | Some p => Some (it, p)
          | None => None
          end)
       (Order_items d o).

(** [product.save(update_fields=['stock_quantity'])] *)
Definition Product_save_stock (id : pk) (p : Product.t) : M unit :=
  write (fun d =>
           set_products
             (alter (Product.set_stock_quantity (Product.stock_quantity p))
                    id (products d)) d)
        (ProductStockSaved id (Product.stock_quantity p)).

Module OrderService.

Definition process_payment_success (order : Order.t) : M Order.t :=
  atomic (
    if negb (bool_decide (Order.status order = OrderStatus.pending_payment))
    then raise (ValueError ("Order " +:+ Order.number order
                            +:+ " is not in pending_payment status"))
    else
      order <- mark_as_paid order ;;
      order <- Order_save order ;;
      d <- get_db ;;
      x <- for_each (items_select_related_product d order)
             (fun '(item, product) =>
                if Product.track_inventory product then
                  if Product.stock_quantity product >=? OrderItem.quantity item
                  then
                    Product_save_stock (OrderItem.product_id item)
                      (Product.set_stock_quantity
                         (Product.stock_quantity product
                          - OrderItem.quantity item) product)
                  else ret tt
                else ret tt) ;;
      ret order).

Definition cancel_order (order : Order.t) (reason : string) : M Order.t :=
  atomic (
    if negb (bool_decide (Order.status order ∈
               [OrderStatus.draft; OrderStatus.pending_payment;
                OrderStatus.paid; OrderStatus.processing]))
    then raise (ValueError ("Order " +:+ Order.number order
                            +:+ " cannot be canceled from status "
                            +:+ OrderStatus.str (Order.status order)))
    else
      x <- (if bool_decide (Order.status order ∈
                  [OrderStatus.paid; OrderStatus.processing])
            then
              d <- get_db ;;
              for_each (items_select_related_product d order)
                (fun '(item, product) =>
                   if Product.track_inventory product then
                     Product_save_stock (OrderItem.product_id item)
                       (Product.set_stock_quantity
                          (Product.stock_quantity product
                           + OrderItem.quantity item) product)
                   else ret tt)
            else ret tt) ;;
      order <- cancel order ;;
      order <- Order_save order ;;
      ret order).

End OrderService.

(** ** [Payment] and [Transaction] ([apps/payments/models.py]) *)

(** [Payment.save()]: the row with this primary key is replaced, or the row
    is inserted when there is none. *)
Definition upsert_payment (self : Payment.t) (rows : list Payment.t)
  : list Payment.t :=
  let same p := bool_decide (Payment.id p = Payment.id self) in
  if existsb same rows
  then map (fun p => if same p then self else p) rows
  else self :: rows.

Definition Payment_save (self : Payment.t) : M unit :=
  write (fun d => set_payments (upsert_payment self (payments d)) d)
        (PaymentSaved (Payment.id self) (Payment.status self)).

(** [Payment.objects.create(order=..., provider_code=..., amount=...,
    currency=..., status=...)] *)
Definition Payment_objects_create
    (order : Order.t) (provider_code : string) (amount : decimal)
    (currency : string) (status : PaymentStatus.t) : M Payment.t :=
  id <- uuid4 ;;
  let row :=
    Payment.mk id (Order.id order) provider_code "" amount currency status
      None "" None None None in
  x <- write (fun d => set_payments (row :: payments d) d)
         (PaymentCreated id) ;;
  ret row.

(** [Transaction.create_transaction] *)
Definition create_transaction
    (payment : Payment.t) (transaction_type : TransactionType.t)
    (amount : option decimal) (external_id : string) (success : bool)
    (error_message : string) (raw_response : option json) : M unit :=
  let row :=
    Transaction.mk (Payment.id payment) transaction_type external_id amount
      (Payment.currency payment) success error_message raw_response in
  write (fun d => set_transactions (row :: transactions d) d)
        (TransactionCreated transaction_type success).

(** The [external_id] and [raw_response] keyword arguments of the
    [mark_as_*] methods overwrite the columns only when truthy. *)
Definition apply_optional (external_id : string) (raw_response : option json)
    (p : Payment.t) : Payment.t :=
  let p := if bool_decide (external_id = "") then p
           else Payment.set_external_id external_id p in
  match raw_response with
  | Some (x :: r) => Payment.set_raw_response (x :: r) p
  | _ => p
  end.

Definition mark_as_authorized
    (self : Payment.t) (external_id : string) (raw_response : option json)
  : M Payment.t :=
  ts <- timezone_now ;;
  let self :=
    apply_optional external_id raw_response
      (Payment.set_authorized_at ts
         (Payment.set_status PaymentStatus.authorized self)) in
  x <- Payment_save self ;;
  ret self.

Definition mark_as_captured
    (self : Payment.t) (external_id : string) (raw_response : option json)
  : M Payment.t :=
  ts <- timezone_now ;;
  let self :=
    apply_optional external_id raw_response
      (Payment.set_captured_at ts
         (Payment.set_status PaymentStatus.captured self)) in
  x <- Payment_save self ;;
  ret self.

Definition mark_as_completed
    (self : Payment.t) (external_id : string) (raw_response : option json)
  : M Payment.t :=
  ts <- timezone_now ;;
  let self :=
    apply_optional external_id raw_response
      (Payment.set_captured_at ts
         (Payment.set_status PaymentStatus.completed self)) in
  x <- Payment_save self ;;
  ret self.

Definition mark_as_failed
    (self : Payment.t) (reason : string) (raw_response : option json)
  : M Payment.t :=
  ts <- timezone_now ;;
  let self :=
    apply_optional "" raw_response
      (Payment.set_failure_reason reason
         (Payment.set_failed_at ts
            (Payment.set_status PaymentStatus.failed self))) in
  x <- Payment_save self ;;
  ret self.

(** [self.transactions.filter(type='refund', success=True)] *)
Definition successful_refunds (d : DB) (self : Payment.t)
  : list Transaction.t :=
  filter (fun tx =>
            Transaction.payment_id tx = Payment.id self
            /\ Transaction.type tx = TransactionType.refund
            /\ Transaction.success tx = true)
         (transactions d).

(** [sum(amounts)] over nullable amounts: adding [None] is a [TypeError]. *)
Fixpoint sum_amounts (acc : decimal) (xs : list (option decimal))
  : outcome decimal :=
  match xs with
  | [] => Returned acc
  | Some a :: xs' => sum_amounts (Decimal.add acc a) xs'
  | None :: _ => Raised (TypeError "unsupported operand type(s) for +")
  end.

(** [Payment.refunded_amount] *)
Definition refunded_amount (self : Payment.t) : M decimal :=
  d <- get_db ;;
  match sum_amounts (Decimal.of_int 0)
          (map Transaction.amount (successful_refunds d self)) with
  | Returned total => ret total
  | Raised e => raise e
  end.

(** [Payment.refundable_amount] *)
Definition refundable_amount (self : Payment.t) : M decimal :=
  if negb (Payment.can_be_refunded self) then ret (Decimal.cents 0)
  else
    refunded <- refunded_amount self ;;
    ret (Decimal.sub (Payment.amount self) refunded).

(** [payment.order]: the row the foreign key points at. *)
Definition Payment_order (self : Payment.t) : M Order.t :=
  d <- get_db ;;
  match orders d !! Payment.order_id self with
  | Some o => ret o
  | None => raise (DoesNotExist "Order")
  end.

(** ** [PaymentService] ([apps/payments/services.py]) *)

(** A dictionary literal. *)
Definition dict (items : list (string * pyval)) : pydict := list_to_map items.

Definition init_result_dict (r : PaymentInitResult) : json :=
  [("success", if init_success r then "True" else "False");
   ("error_message", str_or (init_error_message r) "")].

(** [Payment.objects.get(external_id=...)], with [Payment.DoesNotExist]
    caught and passed over by the caller. *)
Definition Payment_get_by_external_id (external_id : string)
  : M (option Payment.t) :=
  d <- get_db ;;
  match filter (fun p => Payment.external_id p = external_id) (payments d)
  with
  | [] => ret None
  | [p] => ret (Some p)
  | _ => raise (MultipleObjectsReturned "Payment")
  end.

(** [Order.objects.get(id=result.order_id)] followed by
    [order.payments.filter(provider_code=..., status__in=['pending',
    'authorized']).first()], with [Order.DoesNotExist] caught and passed
    over. *)
Definition Payment_first_open_for_order
    (ref : order_ref) (provider_code : string) : M (option Payment.t) :=
  match ref with
  | NoOrderRef => ret None
  | MalformedOrderRef raw =>
      raise (ValidationError ("'" +:+ raw +:+ "' is not a valid UUID."))
  | OrderRef id =>
      d <- get_db ;;
      match orders d !! id with
      | None => ret None
      | Some order =>
          ret (head (filter
                       (fun p =>
                          Payment.order_id p = Order.id order
                          /\ Payment.provider_code p = provider_code
                          /\ Payment.status p ∈
                               [PaymentStatus.pending;
                                PaymentStatus.authorized])
                       (payments d)))
      end
  end.

(** The block of [process_webhook] that finds the payment a notification
    is about: by external id when the notification carries a payment id,
    and, when that finds nothing, among the open payments of the order it
    names. *)
Definition locate_payment
    (result : PaymentWebhookResult) (provider_code : string)
  : M (option Payment.t) :=
  payment <- (if str_truthy (wh_payment_id result)
              then Payment_get_by_external_id
                     (str_or (wh_payment_id result) "")
              else ret None) ;;
  match payment with
  | Some p => ret (Some p)
  | None =>
      Payment_first_open_for_order (wh_order_id result) provider_code
  end.

Module PaymentService.

Definition initiate_payment
    (order : Order.t) (provider_code return_url notify_url : string)
  : M pydict :=
  atomic (
    if negb (bool_decide (Order.status order = OrderStatus.pending_payment))
    then raise (ValueError ("Order " +:+ Order.number order
                            +:+ " is not ready for payment"))
    else
      provider <- get_provider provider_code ;;
      match provider with
      | None =>
          raise (ValueError ("Payment provider " +:+ provider_code
                             +:+ " not available"))
      | Some provider =>
          payment <- Payment_objects_create order provider_code
                       (Order.grand_total order) (Order.currency order)
                       PaymentStatus.pending ;;
          try_except
            (result <- call_provider provider_code "start_payment"
                         (Provider.start_payment provider order return_url
                            notify_url) ;;
             x <- create_transaction payment TransactionType.authorize
                    (Some (Order.grand_total order)) ""
                    (init_success result)
                    (str_or (init_error_message result) "")
                    (Some (init_result_dict result)) ;;
             if negb (init_success result) then
               p <- mark_as_failed payment
                      (str_or (init_error_message result) "Unknown error")
                      None ;;
               ret (dict [("success", PyBool false);
                          ("error", py_opt_str (init_error_message result));
                          ("payment_id", PyStr (Payment.id payment))])
             else
               x <- (if str_truthy (init_payment_id result) then
                       Payment_save
                         (Payment.set_external_id
                            (str_or (init_payment_id result) "") payment)
                     else ret tt) ;;
               ret (dict [("success", PyBool true);
                          ("payment_id", PyStr (Payment.id payment));
                          ("redirect_url",
                           py_opt_str (init_redirect_url result));
                          ("form_data", py_opt_dict (init_form_data result));
                          ("render_data",
                           py_opt_dict (init_render_data result))]))
            (fun e =>
               p <- mark_as_failed payment (str_exn e) None ;;
               ret (dict [("success", PyBool false);
                          ("error", PyStr (str_exn e));
                          ("payment_id", PyStr (Payment.id payment))]))
      end).

Definition process_webhook (provider_code : string) (request : HttpRequest)
  : M pydict :=
  atomic (
    provider <- get_provider provider_code ;;
    match provider with
    | None =>
        raise (ValueError ("Payment provider " +:+ provider_code
                           +:+ " not available"))
    | Some provider =>
        valid <- call_provider provider_code "validate_webhook_signature"
                   (Provider.validate_webhook_signature provider request) ;;
        if negb valid then
          ret (dict [("success", PyBool false);
                     ("error", PyStr "Invalid signature")])
        else
          try_except
            (result <- call_provider provider_code "handle_webhook"
                         (Provider.handle_webhook provider request) ;;
             if negb (wh_success result) then
               ret (dict [("success", PyBool false);
                          ("error", py_opt_str (wh_error_message result))])
             else
               payment <- locate_payment result provider_code ;;
               match payment with
               | None =>
                   ret (dict [("success", PyBool false);
                              ("error", PyStr "Payment not found")])
               | Some payment =>
                   x <- create_transaction payment TransactionType.webhook
                          (wh_amount result)
                          (str_or (wh_transaction_id result) "") true ""
                          (wh_raw_data result) ;;
                   x <- (if bool_decide (wh_status result = "completed") then
                           payment <- mark_as_completed payment
                                        (str_or (wh_payment_id result)
                                           (Payment.external_id payment))
                                        (wh_raw_data result) ;;
                           order <- Payment_order payment ;;
                           o <- OrderService.process_payment_success order ;;
                           ret tt
                         else if bool_decide (wh_status result = "failed") then
                           p <- mark_as_failed payment
                                  (str_or (wh_error_message result)
                                     "Payment failed")
                                  (wh_raw_data result) ;;
                           ret tt
                         else if bool_decide (wh_status result = "authorized")
                         then
                           p <- mark_as_authorized payment
                                  (str_or (wh_payment_id result)
                                     (Payment.external_id payment))
                                  (wh_raw_data result) ;;
                           ret tt
                         else ret tt) ;;
                   ret (dict [("success", PyBool true);
                              ("payment_id", PyStr (Payment.id payment));
                              ("status", PyStr (wh_status result))])
               end)
            (fun e =>
               ret (dict [("success", PyBool false);
                          ("error", PyStr (str_exn e))]))
    end).

Definition refund_payment
    (payment : Payment.t) (amount : option decimal) (reason : string)
  : M pydict :=
  atomic (
    if negb (Payment.can_be_refunded payment)
    then raise (ValueError ("Payment " +:+ Payment.id payment
                            +:+ " cannot be refunded"))
    else
      refund_amount <- match amount with
                       | Some a =>
                           if Decimal.truthy a then ret a
                           else refundable_amount payment
                       | None => refundable_amount payment
                       end ;;
      if Decimal.leb refund_amount (Decimal.of_int 0)
      then raise (ValueError "Refund amount must be greater than zero")
      else
        refundable <- refundable_amount payment ;;
        if Decimal.ltb refundable refund_amount
        then raise (ValueError "Refund amount exceeds refundable amount")
        else
          provider <- get_provider (Payment.provider_code payment) ;;
          match provider with
          | None =>
              raise (ValueError ("Payment provider "
                                 +:+ Payment.provider_code payment
                                 +:+ " not available"))
          | Some provider =>
              try_except
                (order <- Payment_order payment ;;
                 result <- call_provider (Payment.provider_code payment)
                             "refund"
                             (Provider.refund provider order refund_amount
                                reason) ;;
                 x <- create_transaction payment TransactionType.refund
                        (op_amount result)
                        (str_or (op_transaction_id result) "")
                        (op_success result)
                        (str_or (op_error_message result) "")
                        (op_raw_response result) ;;
                 x <- (if op_success result then
                         let payment :=
                           if Decimal.geb refund_amount
                                (Payment.amount payment)
                           then Payment.set_status PaymentStatus.refunded
                                  payment
                           else Payment.set_status
                                  PaymentStatus.partially_refunded payment in
                         x <- Payment_save payment ;;
                         if bool_decide (Payment.status payment
                                         = PaymentStatus.refunded)
                         then
                           order <- refund order ;;
                           order <- Order_save order ;;
                           ret tt
                         else ret tt
                       else ret tt) ;;
                 ret (dict [("success", PyBool (op_success result));
                            ("error",
                             py_opt_str (op_error_message result));
                            ("transaction_id",
                             py_opt_str (op_transaction_id result));
                            ("amount", py_opt_decimal (op_amount result))]))
                (fun e =>
                   ret (dict [("success", PyBool false);
                              ("error", PyStr (str_exn e))]))
          end).

End PaymentService.

(** ** Vocabulary of the statements *)

(** The sum of the coefficients of a list of decimals. *)
Definition coeff_total (xs : list decimal) : Z :=
  fold_right (fun d acc => Decimal.coeff d + acc) 0 xs.

(** The sum of a list of rationals. *)
Definition Qsum (xs : list Q) : Q := fold_right Qplus 0%Q xs.

(** A service response that reports failure: [{'success': False,
    'error': ...}], possibly with further keys. *)
Definition failure_response (d : pydict) : Prop :=
  d !! "success" = Some (PyBool false) /\ is_Some (d !! "error").

Definition success_response (d : pydict) : Prop :=
  d !! "success" = Some (PyBool true).

(** Whatever [m] returns satisfies [P], in every world; [m] may raise. *)
Definition returns_only {A} (m : M A) (P : A -> Prop) : Prop :=
  forall w, match fst (m w) with Returned a => P a | Raised _ => True end.

(** An order line joined with its product row. *)
Abbreviation line := (OrderItem.t * Product.t)%type.

Definition line_product_id (ip : line) : pk := OrderItem.product_id ip.1.

(** The lines whose product tracks inventory. *)
Definition tracked (lines : list line) : list line :=
  filter (fun ip => Product.track_inventory ip.2 = true) lines.

(** The product row of a line with the ordered quantity added back. *)
Definition restocked (ip : line) : Product.t :=
  Product.set_stock_quantity
    (Product.stock_quantity ip.2 + OrderItem.quantity ip.1) ip.2.

(** The product row of a line with the ordered quantity taken out. *)
Definition destocked (ip : line) : Product.t :=
  Product.set_stock_quantity
    (Product.stock_quantity ip.2 - OrderItem.quantity ip.1) ip.2.

(** The product of the line tracks inventory and its stock covers the
    ordered quantity. *)
Definition covers (ip : line) : bool :=
  Product.track_inventory ip.2
  && (Product.stock_quantity ip.2 >=? OrderItem.quantity ip.1).

Definition covered (lines : list line) : list line :=
  filter (fun ip => covers ip = true) lines.

(** The stock column of a product row is overwritten. *)
Definition store_stock (rows : gmap pk Product.t) (id : pk) (p : Product.t)
  : gmap pk Product.t :=
  alter (Product.set_stock_quantity (Product.stock_quantity p)) id rows.

(** Every order row sits under its own primary key. *)
Definition keyed_by_id (d : DB) : Prop :=
  forall k o, orders d !! k = Some o -> Order.id o = k.

(** The stock writes of a stretch of journal, in order. *)
Definition stock_writes (j : list event) : list (pk * Z) :=
  omap (fun ev => match ev with
                  | ProductStockSaved id n => Some (id, n)
                  | _ => None
                  end) j.

(** The status transitions recorded in a stretch of journal, in order. *)
Definition transitions_recorded (j : list event)
  : list OrderStatusHistory.t :=
  omap (fun ev => match ev with
                  | HistoryCreated row => Some row
                  | _ => None
                  end) j.

(** The order saves of a stretch of journal, in order: which order row was
    written, and with which status. *)
Definition order_saves (j : list event) : list (pk * OrderStatus.t) :=
  omap (fun ev => match ev with
                  | OrderSaved id status => Some (id, status)
                  | _ => None
                  end) j.

(** ** Fixtures: one order of two products

    The cart of the specification's round trip: two units of product A at
    10.00 and one unit of product B at 5.00. *)

(** A provider in the manner of [providers/dummy.py] with a success rate of
    100: [start_payment] redirects to the return URL, [capture] and [refund]
    succeed for the amount asked, every signature is accepted; what
    [handle_webhook] parses out of a notification is given. *)
Definition example_provider (hook : outcome PaymentWebhookResult)
  : Provider.t :=
  Provider.mk "dummy"
    (fun order return_url notify_url =>
       Returned
         (mkInit
            (Some (return_url +:+ "?status=success&order_id="
                   +:+ Order.id order))
            None None true None None))
    (fun request => hook)
    (fun request => Returned true)
    (fun order amount =>
       Returned
         (mkOperation true (Some "capture_1")
            (Some (match amount with
                   | Some a => if Decimal.truthy a then a
                               else Order.grand_total order
                   | None => Order.grand_total order
                   end))
            (Some (Order.currency order)) None None))
    (fun order amount reason =>
       Returned
         (mkOperation true (Some "refund_1")
            (Some (if Decimal.truthy amount then amount
                   else Order.grand_total order))
            (Some (Order.currency order)) None None)).

Definition example_order (status : OrderStatus.t) : Order.t :=
  Order.mk "o-1" "ORD-202401-0001" status "EUR"
    (Decimal.cents 2500) (Decimal.mk 52500 (-4)) (Decimal.cents 595)
    (Decimal.cents 0) (Decimal.mk 362000 (-4))
    true None None None.

Definition example_items : list OrderItem.t :=
  [OrderItem.mk "o-1" "p-A" 2 (Decimal.cents 1000) (Decimal.cents 2000);
   OrderItem.mk "o-1" "p-B" 1 (Decimal.cents 500) (Decimal.cents 500)].

Definition example_products : gmap pk Product.t :=
  <["p-A" := Product.mk 10 true]>
    (<["p-B" := Product.mk 3 true]>
       (<["p-C" := Product.mk 7 true]> ∅)).

Definition example_payment (status : PaymentStatus.t) : Payment.t :=
  Payment.mk "pay-1" "o-1" "dummy" "" (Decimal.cents 3620) "EUR" status
    None "" None None None.

Definition example_db (status : OrderStatus.t) (rows : list Payment.t) : DB :=
  mkDB {[ "o-1" := example_order status ]} example_items example_products
    [] rows [].

Definition example_world
    (status : OrderStatus.t) (rows : list Payment.t)
    (hook : outcome PaymentWebhookResult) : World :=
  mkWorld (example_db status rows) (example_db status rows) 0 [] []
    1700000000 1 {[ "dummy" := example_provider hook ]}
    (fun _ => "ORD-202401-0002").

(** The notification of a completed payment for the example order. *)
Definition completed_hook : PaymentWebhookResult :=
  mkWebhook (OrderRef "o-1") (Some "dummy_1") "completed" None None
    (Some "txn_dummy_1") None true None.

(** The example order as a query returns it: every total at the two places
    of its column. *)
Definition example_order_row (status : OrderStatus.t) : Order.t :=
  Order.mk "o-1" "ORD-202401-0001" status "EUR"
    (Decimal.cents 2500) (Decimal.cents 525) (Decimal.cents 595)
    (Decimal.cents 0) (Decimal.cents 3620)
    true None None None.

(** The example world with product A down to one unit in stock, one less
    than the order asks for; the order awaits payment. *)
Definition scarce_world
    (rows : list Payment.t) (hook : outcome PaymentWebhookResult) : World :=
  let d :=
    set_products (<["p-A" := Product.mk 1 true]> example_products)
      (example_db OrderStatus.pending_payment rows) in
  mkWorld d d 0 [] [] 1700000000 1 {[ "dummy" := example_provider hook ]}
    (fun _ => "ORD-202401-0002").

(** ** Further vocabulary: the lifecycle as a forward order *)

(** How far along the lifecycle a status is: the happy path counts up from
    [draft] to [delivered]; [canceled] and [refunded] come after every
    status they can be reached from. *)
Definition lifecycle_rank (s : OrderStatus.t) : nat :=
  match s with
  | OrderStatus.draft => 0
  | OrderStatus.pending_payment => 1
  | OrderStatus.paid => 2
  | OrderStatus.processing => 3
  | OrderStatus.shipped => 4
  | OrderStatus.delivered => 5
  | OrderStatus.canceled => 6
  | OrderStatus.refunded => 6
  end.

(** The stock a product is left with when an order line is paid for and the
    order is then canceled. *)
Definition stock_after_pay_and_cancel (ip : line) : Z :=
  if Product.track_inventory ip.2 then
    if Product.stock_quantity ip.2 >=? OrderItem.quantity ip.1
    then Product.stock_quantity ip.2
    else Product.stock_quantity ip.2 + OrderItem.quantity ip.1
  else Product.stock_quantity ip.2.

(** ** [Payment]: the remaining status properties *)

(** [Payment.is_pending] *)
Definition is_pending (p : Payment.t) : bool :=
  bool_decide (Payment.status p = PaymentStatus.pending).

(** [Payment.is_failed] *)
Definition is_failed (p : Payment.t) : bool :=
  bool_decide (Payment.status p ∈ [PaymentStatus.failed;
                                   PaymentStatus.canceled]).

(** ** [PaymentProvider]: the default operations of the base class
    ([apps/payments/base.py]) *)

(** [PaymentProvider.capture], as inherited by a provider that does not
    override it. *)
Definition PaymentProvider_capture (code : string) (supports_capture : bool)
    (order : Order.t) (amount : option decimal)
  : outcome PaymentOperationResult :=
  if negb supports_capture then
    Returned (mkOperation false None None None
                (Some ("Provider " +:+ code +:+ " does not support capture"))
                None)
  else
    Returned (mkOperation false None None None
                (Some "Capture not implemented") None).

(** [PaymentProvider.refund], as inherited. *)
Definition PaymentProvider_refund (code : string) (supports_refund : bool)
    (order : Order.t) (amount : decimal) (reason : string)
  : outcome PaymentOperationResult :=
  if negb supports_refund then
    Returned (mkOperation false None None None
                (Some ("Provider " +:+ code +:+ " does not support refunds"))
                None)
  else
    Returned (mkOperation false None None None
                (Some "Refund not implemented") None).

(** [PaymentProvider.validate_webhook_signature], as inherited. *)
Definition PaymentProvider_validate_webhook_signature
    (request : HttpRequest) : outcome bool :=
  Returned true.

(** ** [PaymentService.capture_payment] *)

(** [payment.order] is fetched once and kept on the payment object: the
    order handed to the provider is the one whose status is read after the
    capture. *)
Definition capture_payment (payment : Payment.t) (amount : option decimal)
  : M pydict :=
  atomic (
    if negb (Payment.can_be_captured payment)
    then raise (ValueError ("Payment " +:+ Payment.id payment
                            +:+ " cannot be captured"))
    else
      provider <- get_provider (Payment.provider_code payment) ;;
      match provider with
      | None =>
          raise (ValueError ("Payment provider "
                             +:+ Payment.provider_code payment
                             +:+ " not available"))
      | Some provider =>
          try_except
            (order <- Payment_order payment ;;
             result <- call_provider (Payment.provider_code payment)
                         "capture"
                         (Provider.capture provider order amount) ;;
             x <- create_transaction payment TransactionType.capture
                    (op_amount result)
                    (str_or (op_transaction_id result) "")
                    (op_success result)
                    (str_or (op_error_message result) "")
                    (op_raw_response result) ;;
             x <- (if op_success result then
                     p <- mark_as_captured payment ""
                            (op_raw_response result) ;;
                     if negb (bool_decide (Order.status order
                                           = OrderStatus.paid))
                     then
                       o <- OrderService.process_payment_success order ;;
                       ret tt
                     else ret tt
                   else ret tt) ;;
             ret (dict [("success", PyBool (op_success result));
                        ("error", py_opt_str (op_error_message result));
                        ("transaction_id",
                         py_opt_str (op_transaction_id result));
                        ("amount", py_opt_decimal (op_amount result))]))
            (fun e =>
               ret (dict [("success", PyBool false);
                          ("error", PyStr (str_exn e))]))
      end).

(** ** The webhook endpoint ([apps/payments/views.py]) *)

(** Truthiness of a dictionary value. *)
Definition pyval_truthy (v : pyval) : bool :=
  match v with
  | PyNone => false
  | PyBool b => b
  | PyStr s => negb (bool_decide (s = ""))
  | PyDecimal d => Decimal.truthy d
  | PyDict d => match d with [] => false | _ => true end
  end.

Record HttpResponse : Type := mkResponse {
  content : string;
  status_code : Z
}.

(** [PaymentWebhookView.post]; [get] delegates to it.  A response
    dictionary without the key ['success'] makes [result['success']] raise
    [KeyError], which the handler answers like any other exception. *)
Definition PaymentWebhookView_post
    (provider_code : string) (request : HttpRequest) : M HttpResponse :=
  try_except
    (result <- PaymentService.process_webhook provider_code request ;;
     match result !! "success" with
     | Some success =>
         if pyval_truthy success
         then ret (mkResponse "OK" 200)
         else ret (mkResponse "Error" 400)
     | None => ret (mkResponse "Error" 500)
     end)
    (fun e => ret (mkResponse "Error" 500)).

(** ** Amounts in provider format ([apps/payments/base.py]) *)

(** [int(d)] for a [Decimal]: the integral part, truncated toward zero. *)
Definition Decimal_to_int (d : decimal) : Z :=
  if 0 <=? Decimal.exponent d
  then Decimal.coeff d * 10 ^ Decimal.exponent d
  else Z.quot (Decimal.coeff d) (10 ^ (- Decimal.exponent d)).

(** The loop of [Decimal.__truediv__] that brings an exact quotient as
    close to the ideal exponent as it can:
    [while exp < ideal_exp and coeff % 10 == 0: coeff //= 10; exp += 1]. *)
Fixpoint strip_zeros (fuel : nat) (coeff exp ideal_exp : Z) : Z * Z :=
  match fuel with
  | O => (coeff, exp)
  | S fuel' =>
      if (exp <? ideal_exp) && (coeff mod 10 =? 0)
      then strip_zeros fuel' (coeff / 10) (exp + 1) ideal_exp
      else (coeff, exp)
  end.

(** [a / b] under the default context; [None] stands for the
    [DivisionByZero] and [DivisionUndefined] signals, which raise. *)
Definition Decimal_div (a b : decimal) : option decimal :=
  if Decimal.coeff b =? 0 then None
  else if Decimal.coeff a =? 0
  then Some (Decimal.fix_
               (Decimal.mk 0 (Decimal.exponent a - Decimal.exponent b)))
  else
    let sign := Z.sgn (Decimal.coeff a) * Z.sgn (Decimal.coeff b) in
    let op1 := Z.abs (Decimal.coeff a) in
    let op2 := Z.abs (Decimal.coeff b) in
    let ideal_exp := Decimal.exponent a - Decimal.exponent b in
    let shift :=
      Decimal.ndigits (Decimal.coeff b) - Decimal.ndigits (Decimal.coeff a)
      + Decimal.prec + 1 in
    let exp := ideal_exp - shift in
    let num := if 0 <=? shift then op1 * 10 ^ shift else op1 in
    let den := if 0 <=? shift then op2 else op2 * 10 ^ (- shift) in
    let coeff := num / den in
    let remainder := num mod den in
    let '(coeff, exp) :=
      if remainder =? 0
      then strip_zeros (Z.to_nat (ideal_exp - exp)) coeff exp ideal_exp
      else (if coeff mod 5 =? 0 then coeff + 1 else coeff, exp) in
    Some (Decimal.fix_ (Decimal.mk (sign * coeff) exp)).

Section ProviderAmounts.

(** Python's [str.upper], taken as given. *)
Variable upper : string -> string.

(** [PaymentProvider.format_amount] *)
Definition format_amount (amount : decimal) (currency : string) : Z :=
  if bool_decide (upper currency ∈ ["EUR"; "USD"; "GBP"])
  then Decimal_to_int (Decimal.mul amount (Decimal.of_int 100))
  else Decimal_to_int amount.

(** [PaymentProvider.parse_amount]; [Decimal(str(amount))] of an [int] is
    the integer as a decimal of exponent 0. *)
Definition parse_amount (amount : Z) (currency : string) : option decimal :=
  if bool_decide (upper currency ∈ ["EUR"; "USD"; "GBP"])
  then Decimal_div (Decimal.of_int amount) (Decimal.of_int 100)
  else Some (Decimal.of_int amount).

End ProviderAmounts.

(** ** The provider registry ([apps/payments/registry.py]) *)

Module Registry.

(** A provider class: its [code] attribute and its constructor, which is
    given the configuration and may raise. *)
Record ProviderClass : Type := mkClass {
  class_code : string;
  construct : option json -> outcome Provider.t
}.

(** [PaymentProviderRegistry]: the registered classes by code, the cached
    instances by cache key, and whether the settings have been read. *)
Record t : Type := mk {
  _providers : gmap string ProviderClass;
  _instances : gmap string Provider.t;
  _loaded : bool
}.

(** [PaymentProviderRegistry()] *)
Definition init : t := mk ∅ ∅ false.

Section Environment.

(** [settings.PAYMENT_PROVIDERS] *)
Variable PAYMENT_PROVIDERS : list string.

(** What a dotted path resolves to: the [PaymentProvider] subclass it
    names, or the exception raised while splitting the path, importing the
    module, reading the attribute or checking the subclass relation. *)
Variable import_class : string -> outcome ProviderClass.

(** [hash(str(sorted((config or {}).items())))], taken as given. *)
Variable config_hash : option json -> Z.

(** [_load_provider_class]: the exception is logged and re-raised. *)
Definition _load_provider_class (provider_path : string) (self : t)
  : outcome unit * t :=
  match import_class provider_path with
  | Raised e => (Raised e, self)
  | Returned provider_class =>
      if bool_decide (class_code provider_class = "")
      then (Raised (ValueError (provider_path
                                +:+ " must define a 'code' attribute")),
            self)
      else (Returned tt,
            mk (<[class_code provider_class := provider_class]>
                  (_providers self))
               (_instances self) (_loaded self))
  end.

(** [load_providers]: a path that fails to load is logged and skipped. *)
Definition load_providers (self : t) : t :=
  if _loaded self then self
  else
    let self' :=
      fold_left (fun self provider_path =>
                   (_load_provider_class provider_path self).2)
        PAYMENT_PROVIDERS self in
    mk (_providers self') (_instances self') true.

Definition cache_key (code : string) (config : option json) : string :=
  code +:+ "_" +:+ pretty (config_hash config).

(** [get_provider_class] *)
Definition get_provider_class (code : string) (self : t)
  : option ProviderClass * t :=
  let self := load_providers self in
  (_providers self !! code, self).

(** [get_provider]: an instance is built at most once per cache key; a
    constructor that raises is logged and gives [None]. *)
Definition get_provider (code : string) (config : option json) (self : t)
  : option Provider.t * t :=
  let self := load_providers self in
  match _instances self !! cache_key code config with
  | Some instance => (Some instance, self)
  | None =>
      match _providers self !! code with
      | None => (None, self)
      | Some provider_class =>
          match construct provider_class config with
          | Returned instance =>
              (Some instance,
               mk (_providers self)
                  (<[cache_key code config := instance]> (_instances self))
                  (_loaded self))
          | Raised _ => (None, self)
          end
      end
  end.

(** [is_provider_available] *)
Definition is_provider_available (code : string) (self : t) : bool * t :=
  let self := load_providers self in
  (bool_decide (is_Some (_providers self !! code)), self).

(** [register_provider]; every [ProviderClass] is a [PaymentProvider]
    subclass. *)
Definition register_provider (provider_class : ProviderClass) (self : t)
  : outcome unit * t :=
  if bool_decide (class_code provider_class = "")
  then (Raised (ValueError "Provider must define a 'code' attribute"), self)
  else (Returned tt,
        mk (<[class_code provider_class := provider_class]>
              (_providers self))
           (_instances self) (_loaded self)).

(** [unregister_provider]: the class goes, and with it every cached
    instance whose key starts with the code and an underscore. *)
Definition unregister_provider (code : string) (self : t) : t :=
  mk (delete code (_providers self))
     (filter (fun kv => String.prefix (code +:+ "_") kv.1 = false)
        (_instances self))
     (_loaded self).

(** [clear_cache] *)
Definition clear_cache (self : t) : t :=
  mk (_providers self) ∅ (_loaded self).

(** [reload] *)
Definition reload (self : t) : t := load_providers (mk ∅ ∅ false).

End Environment.

End Registry.

(** ** [OrderItem]: creation ([apps/orders/models.py]) *)

Definition set_order_items (x : list OrderItem.t) (d : DB) : DB :=
  mkDB (orders d) x (products d) (status_history d) (payments d)
    (transactions d).

(** [OrderItem.objects.create(order=..., product=..., quantity=...,
    unit_price=..., line_total=...)]: the instance is built from the
    arguments and saved; [OrderItem.save] recomputes the line total as
    [quantity * unit_price] before the row is inserted.  The table is
    [unique_together] on (order, product): when the order already has a
    line for the product the insert fails with [IntegrityError], whose
    message is the database's, and no row is written.  The journal has no
    entry for order lines. *)
Definition OrderItem_objects_create
    (order_id product_id : pk) (quantity : Z) (unit_price line_total : decimal)
  : M OrderItem.t :=
  let self := OrderItem.mk order_id product_id quantity unit_price line_total in
  let self :=
    OrderItem.mk (OrderItem.order_id self) (OrderItem.product_id self)
      (OrderItem.quantity self) (OrderItem.unit_price self)
      (Decimal.mul (Decimal.of_int (OrderItem.quantity self))
         (OrderItem.unit_price self)) in
  d <- get_db ;;
  if bool_decide
       (OrderItem.product_id self
        ∈ map OrderItem.product_id
            (filter (fun it => OrderItem.order_id it = OrderItem.order_id self)
               (order_items d)))
  then
    raise (IntegrityError
             ("UNIQUE constraint failed: orders_orderitem.order_id, "
              +:+ "orders_orderitem.product_id"))
  else
    fun w =>
      (Returned self,
       with_db (fun d => set_order_items (order_items d ++ [self]) d) w).

(** ** [OrderService]: validation and summary ([apps/orders/services.py]) *)

Definition required_billing_fields : list string :=
  ["first_name"; "last_name"; "address_line_1"; "city"; "state";
   "postal_code"].

Definition required_shipping_fields : list string :=
  ["first_name"; "last_name"; "address_line_1"; "city"; "state";
   "postal_code"].

(** [not data.get(field)] *)
Definition field_blank (data : pydict) (field : string) : bool :=
  match data !! field with
  | Some value => negb (pyval_truthy value)
  | None => true
  end.

(** [OrderService.validate_order_data] *)
Definition validate_order_data (billing_data shipping_data : pydict)
  : gmap string string :=
  let errors : gmap string string := ∅ in
  let errors :=
    fold_left (fun errors field =>
                 if field_blank billing_data field
                 then <["billing_" +:+ field := "Este campo es obligatorio"]>
                        errors
                 else errors)
      required_billing_fields errors in
  let errors :=
    fold_left (fun errors field =>
                 if field_blank shipping_data field
                 then <["shipping_" +:+ field := "Este campo es obligatorio"]>
                        errors
                 else errors)
      required_shipping_fields errors in
  errors.

(** The dictionary [get_order_summary] returns. *)
Record OrderSummary : Type := mkSummary {
  summary_order : Order.t;
  summary_items : list (OrderItem.t * Product.t);
  summary_subtotal : decimal;
  summary_tax_total : decimal;
  summary_shipping_total : decimal;
  summary_discount_total : decimal;
  summary_grand_total : decimal;
  summary_total_items : Z;
  summary_can_be_canceled : bool;
  summary_can_be_paid : bool
}.

(** [OrderService.get_order_summary] *)
Definition get_order_summary (order : Order.t) : M OrderSummary :=
  d <- get_db ;;
  let items := items_select_related_product d order in
  ret (mkSummary order items
         (Order.subtotal order) (Order.tax_total order)
         (Order.shipping_total order) (Order.discount_total order)
         (Order.grand_total order)
         (fold_left Z.add (map (fun item => OrderItem.quantity item.1) items) 0)
         (bool_decide (Order.status order ∈
                         [OrderStatus.draft; OrderStatus.pending_payment;
                          OrderStatus.paid]))
         (bool_decide (Order.status order = OrderStatus.pending_payment))).

(** ** Further fixtures *)

(** A provider that declines every payment and inherits [capture],
    [refund] and the signature check from the base class. *)
Definition declining_provider (hook : outcome PaymentWebhookResult)
  : Provider.t :=
  Provider.mk "dummy"
    (fun order return_url notify_url =>
       Returned (mkInit None None None false (Some "Card declined") None))
    (fun request => hook)
    PaymentProvider_validate_webhook_signature
    (PaymentProvider_capture "dummy" true)
    (PaymentProvider_refund "dummy" true).

(** The example world with a given provider registered as 'dummy' and a
    given ledger. *)
Definition example_world_with
    (provider : Provider.t) (status : OrderStatus.t)
    (rows : list Payment.t) (ledger : list Transaction.t) : World :=
  let d := set_transactions ledger (example_db status rows) in
  mkWorld d d 0 [] [] 1700000000 1 {[ "dummy" := provider ]}
    (fun _ => "ORD-202401-0002").

(** A successful refund of the example payment, as the ledger holds it. *)
Definition example_refund (amount : option decimal) : Transaction.t :=
  Transaction.mk "pay-1" TransactionType.refund "refund_1" amount "EUR"
    true "" None.

(** The notification of a failed payment for the example order. *)
Definition failed_hook : PaymentWebhookResult :=
  mkWebhook (OrderRef "o-1") None "failed" None None (Some "txn_dummy_2")
    None true (Some "Card declined").

(** [str.upper] on ASCII text. *)
Fixpoint ascii_upper (s : string) : string :=
  match s with
  | EmptyString => EmptyString
  | String c s' =>
      let n := Ascii.nat_of_ascii c in
      String (if ((97 <=? n) && (n <=? 122))%nat
              then Ascii.ascii_of_nat (n - 32) else c)
        (ascii_upper s')
  end.

(** The example order as a draft whose terms have not been accepted. *)
Definition unaccepted_draft : Order.t :=
  Order.mk "o-1" "ORD-202401-0001" OrderStatus.draft "EUR"
    (Decimal.cents 0) (Decimal.cents 0) (Decimal.cents 0)
    (Decimal.cents 0) (Decimal.cents 0)
    false None None None.

(** The settings of a deployment that lists the dummy provider and a path
    that does not import. *)
Definition example_settings : list string :=
  ["apps.payments.providers.dummy.DummyProvider";
   "apps.payments.providers.missing.MissingProvider"].

Definition example_class : Registry.ProviderClass :=
  Registry.mkClass "dummy"
    (fun config => Returned (example_provider (Returned completed_hook))).

Definition example_replacement_class : Registry.ProviderClass :=
  Registry.mkClass "dummy"
    (fun config => Returned (declining_provider (Returned completed_hook))).

Definition example_import (path : string) : outcome Registry.ProviderClass :=
  if bool_decide (path = "apps.payments.providers.dummy.DummyProvider")
  then Returned example_class
  else Raised (ProviderException ("No module named " +:+ path)).

(** * Properties *)

(** ** Decimal arithmetic is exact below the context precision *)

Lemma fix_small (d : decimal) :
  Z.abs (Decimal.coeff d) < 10 ^ Decimal.prec -> Decimal.fix_ d = d.
Proof.
  intros H. unfold Decimal.fix_.
  destruct (Z.ltb_spec (Z.abs (Decimal.coeff d)) (10 ^ Decimal.prec)); [done|lia].
Qed.

Lemma add_same_exponent (a b e : Z) :
  Z.abs (a + b) < 10 ^ Decimal.prec ->
  Decimal.add (Decimal.mk a e) (Decimal.mk b e) = Decimal.mk (a + b) e.
Proof.
  intros H. unfold Decimal.add, Decimal.coeff_at. simpl.
  rewrite Z.min_id, Z.sub_diag. simpl. rewrite !Z.mul_1_r.
  apply fix_small. exact H.
Qed.

Lemma add_lower_exponent (a b e k : Z) :
  0 <= k ->
  Z.abs (a * 10 ^ k + b) < 10 ^ Decimal.prec ->
  Decimal.add (Decimal.mk a (e + k)) (Decimal.mk b e)
  = Decimal.mk (a * 10 ^ k + b) e.
Proof.
  intros Hk H. unfold Decimal.add, Decimal.coeff_at. simpl.
  rewrite Z.min_r by lia.
  replace (e + k - e) with k by lia. rewrite Z.sub_diag. simpl.
  rewrite Z.mul_1_r. apply fix_small. exact H.
Qed.

Lemma add_higher_exponent (a b e k : Z) :
  0 <= k ->
  Z.abs (a + b * 10 ^ k) < 10 ^ Decimal.prec ->
  Decimal.add (Decimal.mk a e) (Decimal.mk b (e + k))
  = Decimal.mk (a + b * 10 ^ k) e.
Proof.
  intros Hk H. unfold Decimal.add, Decimal.coeff_at. simpl.
  rewrite Z.min_l by lia.
  replace (e + k - e) with k by lia. rewrite Z.sub_diag. simpl.
  rewrite Z.mul_1_r. apply fix_small. exact H.
Qed.

Lemma mul_exact (a b ea eb : Z) :
  Z.abs (a * b) < 10 ^ Decimal.prec ->
  Decimal.mul (Decimal.mk a ea) (Decimal.mk b eb) = Decimal.mk (a * b) (ea + eb).
Proof. intros H. unfold Decimal.mul. simpl. apply fix_small. exact H. Qed.

Lemma compare_same_exponent (a b e : Z) :
  Decimal.compare (Decimal.mk a e) (Decimal.mk b e) = (a ?= b).
Proof.
  unfold Decimal.compare, Decimal.coeff_at. cbn [Decimal.coeff Decimal.exponent].
  rewrite Z.min_id, Z.sub_diag, Z.pow_0_r, !Z.mul_1_r. reflexivity.
Qed.

Lemma value_exp0 (c : Z) : (Decimal.value (Decimal.mk c 0) == inject_Z c)%Q.
Proof. unfold Decimal.value. simpl. ring. Qed.

Lemma value_exp2 (c : Z) : (Decimal.value (Decimal.mk c (-2)) == c # 100)%Q.
Proof. unfold Decimal.value, Qeq. simpl. lia. Qed.

Lemma value_exp4 (c : Z) : (Decimal.value (Decimal.mk c (-4)) == c # 10000)%Q.
Proof. unfold Decimal.value, Qeq. simpl. lia. Qed.

Lemma coeff_total_bound (xs : list decimal) :
  Forall money_field xs ->
  Z.abs (coeff_total xs) <= Z.of_nat (length xs) * 10 ^ 10.
Proof.
  induction 1 as [|x xs [_ Hx] _ IH]; simpl coeff_total; simpl length.
  - simpl. lia.
  - rewrite Nat2Z.inj_succ. lia.
Qed.

Lemma fold_add_money (xs : list decimal) (c : Z) :
  Forall money_field xs ->
  Z.abs c + Z.of_nat (length xs) * 10 ^ 10 < 10 ^ Decimal.prec ->
  fold_left Decimal.add xs (Decimal.mk c (-2))
  = Decimal.mk (c + coeff_total xs) (-2).
Proof.
  intros Hxs. revert c.
  induction Hxs as [|[cx ex] xs [Hex Hcx] _ IH]; intros c Hc; simpl in *.
  - f_equal. lia.
  - subst ex. rewrite Nat2Z.inj_succ in Hc.
    rewrite add_same_exponent by lia.
    rewrite IH by lia. f_equal. lia.
Qed.

Lemma sum_money (xs : list decimal) :
  Forall money_field xs ->
  Z.of_nat (length xs) <= 10 ^ 15 ->
  Decimal.sum xs
  = Decimal.mk (coeff_total xs) (match xs with [] => 0 | _ => -2 end).
Proof.
  intros Hxs Hlen. unfold Decimal.sum.
  destruct Hxs as [|[cx ex] xs [Hex Hcx] Hxs]; [reflexivity|].
  simpl in *. subst ex. rewrite Nat2Z.inj_succ in Hlen.
  change (Decimal.of_int 0) with (Decimal.mk 0 (-2 + 2)).
  rewrite add_lower_exponent; [|lia|unfold Decimal.prec; lia].
  rewrite fold_add_money; [f_equal; lia|exact Hxs|].
  unfold Decimal.prec. lia.
Qed.

Lemma Qsum_money (xs : list decimal) :
  Forall money_field xs ->
  (Qsum (map Decimal.value xs) == coeff_total xs # 100)%Q.
Proof.
  induction 1 as [|[cx ex] xs [Hex _] _ IH]; simpl in *.
  - reflexivity.
  - subst ex. rewrite IH, value_exp2. unfold Qeq, Qplus. simpl. lia.
Qed.

(** ** Totals *)

(** C1. [calculate_totals] sets [subtotal] to the sum of the items'
    [line_total]s, [tax_total] to [subtotal * 0.21], [shipping_total] to 0.00
    when [subtotal >= 50.00] and to 5.95 when [subtotal < 50.00], and
    [grand_total] to [subtotal + tax_total + shipping_total - discount_total],
    each as an exact rational identity on the decimals computed; a subtotal
    of exactly 50.00 ships free and one of 49.99 pays 5.95.  The order's
    items and discount are values of [DecimalField(max_digits=10,
    decimal_places=2)] columns, and there are at most 10^15 items. *)
Theorem calculate_totals_exact (db : DB) (o : Order.t) :
  let lines := map OrderItem.line_total (Order_items db o) in
  let o' := calculate_totals db o in
  Forall money_field lines ->
  Z.of_nat (length lines) <= 10 ^ 15 ->
  money_field (Order.discount_total o) ->
  (Decimal.value (Order.subtotal o') == Qsum (map Decimal.value lines))%Q /\
  (Decimal.value (Order.tax_total o')
   == Decimal.value (Order.subtotal o') * (21 # 100))%Q /\
  ((50 <= Decimal.value (Order.subtotal o'))%Q ->
   Order.shipping_total o' = Decimal.cents 0) /\
  ((Decimal.value (Order.subtotal o') < 50)%Q ->
   Order.shipping_total o' = Decimal.cents 595) /\
  (Decimal.value (Order.grand_total o')
   == Decimal.value (Order.subtotal o') + Decimal.value (Order.tax_total o')
      + Decimal.value (Order.shipping_total o')
      - Decimal.value (Order.discount_total o))%Q /\
  ((Decimal.value (Order.subtotal o') == 50)%Q ->
   Order.shipping_total o' = Decimal.cents 0) /\
  ((Decimal.value (Order.subtotal o') == 4999 # 100)%Q ->
   Order.shipping_total o' = Decimal.cents 595) /\
  Order.discount_total o' = Order.discount_total o /\
  Order.status o' = Order.status o.
Proof.
  intros lines o' Hlines Hlen Hdisc.
  pose proof (sum_money lines Hlines Hlen) as Hsum.
  pose proof (coeff_total_bound lines Hlines) as Hbound.
  pose proof (Qsum_money lines Hlines) as HQ.
  destruct (Order.discount_total o) as [cd ed] eqn:Ed.
  destruct Hdisc as [Hed Hcd]. simpl in Hed, Hcd. subst ed.
  set (S := coeff_total lines) in *.
  assert (Hsub : Order.subtotal o' = Decimal.sum lines) by reflexivity.
  assert (Htax : Order.tax_total o'
                 = Decimal.mul (Decimal.sum lines) tax_rate) by reflexivity.
  assert (Hship : Order.shipping_total o'
                  = if Decimal.geb (Decimal.sum lines) (Decimal.cents 5000)
                    then Decimal.cents 0 else Decimal.cents 595)
    by reflexivity.
  assert (Hgrand : Order.grand_total o'
                   = Decimal.sub
                       (Decimal.add
                          (Decimal.add (Order.subtotal o') (Order.tax_total o'))
                          (Order.shipping_total o'))
                       (Decimal.mk cd (-2))).
  { unfold o', calculate_totals. simpl. rewrite Ed. reflexivity. }
  assert (Hsmall : Z.abs S <= 10 ^ 25) by lia.
  destruct lines as [|l0 lines'] eqn:El.
  - (* no items: the subtotal is the int 0 *)
    assert (S = 0) by reflexivity.
    rewrite Hsum in *. clear Hsum.
    assert (Ht : Order.tax_total o' = Decimal.mk 0 (-2)) by (rewrite Htax; reflexivity).
    assert (Hs : Order.shipping_total o' = Decimal.cents 595) by (rewrite Hship; reflexivity).
    rewrite Hsub, Ht, Hs in Hgrand.
    assert (Hg : Order.grand_total o' = Decimal.mk (595 - cd) (-2)).
    { rewrite Hgrand. unfold Decimal.sub, Decimal.neg. simpl Decimal.coeff.
      simpl Decimal.exponent.
      change (Decimal.mk S 0) with (Decimal.mk S (-2 + 2)).
      rewrite add_lower_exponent by (unfold Decimal.prec; lia).
      unfold Decimal.cents.
      rewrite !add_same_exponent by (unfold Decimal.prec; lia).
      f_equal; lia. }
    rewrite Hsub, Ht, Hs, Hg.
    rewrite !value_exp2, value_exp0. unfold Decimal.cents. rewrite !value_exp2.
    subst S. simpl map. simpl Qsum.
    repeat split; try reflexivity; try exact Ed; try (intros _; reflexivity);
      try (intros Hq; exfalso; revert Hq);
      unfold Qeq, Qle, Qlt, Qplus, Qminus, Qmult, Qopp; simpl; lia.
  - (* at least one item: a subtotal of exponent -2 *)
    rewrite <- El in *. rewrite Hsum in *. clear Hsum.
    assert (Ht : Order.tax_total o' = Decimal.mk (S * 21) (-4)).
    { rewrite Htax. unfold tax_rate, Decimal.cents.
      rewrite mul_exact by (unfold Decimal.prec; lia). reflexivity. }
    assert (Hs : Order.shipping_total o'
                 = if 5000 <=? S then Decimal.cents 0 else Decimal.cents 595).
    { rewrite Hship. unfold Decimal.geb, Decimal.leb, Decimal.cents.
      rewrite compare_same_exponent.
      destruct (Z.leb_spec 5000 S) as [Hle|Hlt].
      - destruct (Z.compare_spec 5000 S); try reflexivity; lia.
      - destruct (Z.compare_spec 5000 S); try reflexivity; lia. }
    set (cs := if 5000 <=? S then 0 else 595).
    assert (Hs' : Order.shipping_total o' = Decimal.mk cs (-2)).
    { rewrite Hs. unfold cs. destruct (5000 <=? S); reflexivity. }
    assert (Hcs : 0 <= cs <= 595) by (unfold cs; destruct (5000 <=? S); lia).
    rewrite Hsub, Ht, Hs' in Hgrand.
    assert (Hg : Order.grand_total o'
                 = Decimal.mk (S * 121 + cs * 100 - cd * 100) (-4)).
    { rewrite Hgrand. unfold Decimal.sub, Decimal.neg. simpl Decimal.coeff.
      simpl Decimal.exponent.
      change (-2) with (-4 + 2).
      rewrite add_lower_exponent by (unfold Decimal.prec; lia).
      rewrite !add_higher_exponent by (unfold Decimal.prec; lia).
      f_equal. lia. }
    rewrite Hsub, Ht, Hg, HQ.
    rewrite !value_exp2, !value_exp4.
    repeat split; try reflexivity; try exact Ed.
    + intros Hq. rewrite Hs.
      destruct (Z.leb_spec 5000 S); [reflexivity|].
      exfalso. revert Hq. unfold Qle. simpl. lia.
    + intros Hq. rewrite Hs.
      destruct (Z.leb_spec 5000 S); [|reflexivity].
      exfalso. revert Hq. unfold Qlt. simpl. lia.
    + rewrite Hs', value_exp2.
      unfold Qeq, Qplus, Qminus, Qmult, Qopp. simpl. lia.
    + intros Hq. rewrite Hs.
      destruct (Z.leb_spec 5000 S); [reflexivity|].
      exfalso. revert Hq. unfold Qeq. simpl. lia.
    + intros Hq. rewrite Hs.
      destruct (Z.leb_spec 5000 S); [|reflexivity].
      exfalso. revert Hq. unfold Qeq. simpl. lia.
Qed.

(** ** The order state machine *)

Lemma status_in_wider (s : OrderStatus.t) (l1 l2 : list OrderStatus.t) :
  forallb (fun x => bool_decide (x ∈ l2)) l1 = true -> s ∈ l1 -> s ∈ l2.
Proof.
  intros Hall Hin. rewrite forallb_forall in Hall.
  apply (bool_decide_eq_true_1 _). apply Hall. apply list_elem_of_In. exact Hin.
Qed.

Lemma status_not_in_disjoint (s : OrderStatus.t) (l1 l2 : list OrderStatus.t) :
  forallb (fun x => negb (bool_decide (x ∈ l2))) l1 = true ->
  s ∈ l1 -> s ∉ l2.
Proof.
  intros Hall Hin. rewrite forallb_forall in Hall.
  apply list_elem_of_In, Hall in Hin.
  apply negb_true_iff in Hin. exact (bool_decide_eq_false_1 _ Hin).
Qed.

Lemma transition_outside_sources
    (tr : Transition.t) (body : Order.t -> M Order.t) (o : Order.t) (w : World) :
  Order.status o ∉ Transition.source tr ->
  transition tr body o w
  = (Raised (InvalidTransition (Order.status o) (Transition.name tr)
               (Transition.source tr)), w).
Proof.
  intros Hout. unfold transition.
  rewrite bool_decide_eq_false_2 by exact Hout. reflexivity.
Qed.

(** C2. A transition method invoked while the order's status is not one of
    the method's source states fails with the invalid-transition error, which
    carries the current status, the name of the attempted transition and the
    valid source states; no row, journal entry or field changes, so the
    order's status is what it was. *)
Theorem invalid_transition_fails_status_unchanged
    (tr : Transition.t) (o : Order.t) (w : World) :
  Order.status o ∉ Transition.source tr ->
  method tr o w
  = (Raised (InvalidTransition (Order.status o) (Transition.name tr)
               (Transition.source tr)), w).
Proof.
  intros Hout.
  destruct tr; apply (transition_outside_sources _ _ _ _ Hout).
Qed.

Lemma transition_inside_sources
    (tr : Transition.t) (body : Order.t -> M Order.t) (o : Order.t) (w : World) :
  Order.status o ∈ Transition.source tr ->
  transition tr body o w
  = match body o w with
    | (Returned o1, w1) =>
        (Returned (Order.set_status (Transition.target tr) o1), w1)
    | (Raised e, w1) => (Raised e, w1)
    end.
Proof.
  intros Hin. unfold transition.
  rewrite bool_decide_eq_true_2 by exact Hin.
  unfold bind. destruct (body o w) as [[o1|e] w1]; reflexivity.
Qed.

Lemma transition_returned
    (tr : Transition.t) (body : Order.t -> M Order.t)
    (o o' : Order.t) (w w' : World) :
  (forall o1 w1, body o w = (Returned o1, w1) -> w1 = w) ->
  transition tr body o w = (Returned o', w') ->
  Order.status o ∈ Transition.source tr /\
  Order.status o' = Transition.target tr /\
  w' = w.
Proof.
  intros Hbody Hrun.
  destruct (decide (Order.status o ∈ Transition.source tr)) as [Hin|Hout].
  - rewrite (transition_inside_sources _ _ _ _ Hin) in Hrun.
    destruct (body o w) as [[o1|e] w1] eqn:Eb; [|discriminate].
    rewrite (Hbody o1 w1 eq_refl) in Hrun.
    injection Hrun as <- <-. auto.
  - rewrite (transition_outside_sources _ _ _ _ Hout) in Hrun. discriminate.
Qed.

(** A transition method that returns has left the world exactly as it was:
    no row is written, the status history included, and the journal gains
    no entry. *)
Lemma method_returned_same_world
    (tr : Transition.t) (o o' : Order.t) (w w' : World) :
  method tr o w = (Returned o', w') ->
  Order.status o ∈ Transition.source tr /\
  Order.status o' = Transition.target tr /\
  w' = w.
Proof.
  intros Hrun. destruct tr; simpl in Hrun;
    (eapply transition_returned; [|exact Hrun]);
    intros o1 w1; unfold bind, timezone_now, get_db, ret, raise; simpl.
  - destruct (Order.terms_accepted o); simpl; [|discriminate].
    destruct (items_exist (db w) o); simpl; [|discriminate].
    intros [= <- <-]. reflexivity.
  - intros [= <- <-]. reflexivity.
  - intros [= <- <-]. reflexivity.
  - intros [= <- <-]. reflexivity.
  - intros [= <- <-]. reflexivity.
  - intros [= <- <-]. reflexivity.
  - intros [= <- <-]. reflexivity.
Qed.

(** C3 fails in the code.  [signals.py] declares the receiver that would
    write the history row, and the receiver does write exactly the row the
    claim describes when it is called; but nothing connects it to the
    signal, so a transition method called directly writes no row at all:
    whenever one returns, the order carries the target status and the world
    is exactly what it was, with the history table and the journal
    untouched.  At the failing input, [mark_as_paid] on the example order
    awaiting payment returns the order as [paid] and the history table is
    still empty. *)
Theorem direct_transition_writes_no_history_row :
  (forall (tr : Transition.t) (o o' : Order.t) (w w' : World),
     method tr o w = (Returned o', w') ->
     Order.status o ∈ Transition.source tr /\
     Order.status o' = Transition.target tr /\
     w' = w /\
     status_history (db w') = status_history (db w) /\
     transitions_recorded (journal w') = transitions_recorded (journal w)) /\
  (forall (instance : Order.t) (name : string) (source target : OrderStatus.t)
          (w : World),
     exists w',
       track_order_status_change instance name source target w
       = (Returned tt, w') /\
       status_history (db w')
       = OrderStatusHistory.mk (Order.id instance) (Some source) target
           ("Status changed via " +:+ name +:+ " transition")
         :: status_history (db w)) /\
  (let w := example_world OrderStatus.pending_payment []
              (Returned completed_hook) in
   exists o',
     mark_as_paid (example_order OrderStatus.pending_payment) w
     = (Returned o', w) /\
     Order.status o' = OrderStatus.paid /\
     Order.paid_at o' = Some (clock w) /\
     status_history (db w) = []).
Proof.
  split; [|split].
  - intros tr o o' w w' Hrun.
    destruct (method_returned_same_world _ _ _ _ _ Hrun) as (Hin & Hst & ->).
    auto.
  - intros instance name source target w.
    eexists. split; [reflexivity|]. reflexivity.
  - eexists. split; [reflexivity|]. repeat split; reflexivity.
Qed.

(** Every transition method other than [submit] returns from each of its
    source states; [submit] returns from [draft] once the terms are accepted
    and the order has items. *)
Lemma transition_from_source_returns
    (tr : Transition.t) (o : Order.t) (w : World) :
  Order.status o ∈ Transition.source tr ->
  (tr = Transition.submit ->
   Order.terms_accepted o = true /\ items_exist (db w) o = true) ->
  exists o' w', method tr o w = (Returned o', w').
Proof.
  intros Hin Hguard.
  destruct tr;
    unfold method, submit, mark_as_paid, start_processing, ship, deliver,
      cancel, refund;
    rewrite (transition_inside_sources _ _ _ _ Hin);
    unfold bind, timezone_now, get_db, ret, raise; simpl;
    try (eexists; eexists; reflexivity).
  destruct (Hguard eq_refl) as [Hterms Hitems].
  rewrite Hterms. simpl. rewrite Hitems. simpl.
  eexists; eexists; reflexivity.
Qed.

(** ** Running the monad *)

Lemma run_bind {A B} (m : M A) (k : A -> M B) (w : World) :
  bind m k w
  = match m w with
    | (Returned a, w') => k a w'
    | (Raised e, w') => (Raised e, w')
    end.
Proof. reflexivity. Qed.

Lemma run_atomic {A} (m : M A) (w : World) :
  atomic m w
  = match m (set_depth (S (atomic_depth w)) (with_journal AtomicEnter w)) with
    | (Returned a, w') =>
        (Returned a,
         match atomic_depth w with
         | O => set_rows (db w') (db w')
                  (set_depth O (with_journal AtomicCommit w'))
         | S n => set_depth (S n) (with_journal AtomicCommit w')
         end)
    | (Raised e, w') =>
        (Raised e,
         set_rows (db w) (committed w')
           (set_depth (atomic_depth w) (with_journal AtomicRollback w')))
    end.
Proof.
  unfold atomic.
  destruct (m _) as [[a|e] w']; [|reflexivity].
  destruct (atomic_depth w); reflexivity.
Qed.

Ltac world_simpl :=
  cbn [db committed atomic_depth journal provider_calls clock uuid_counter
       registry generate_order_number set_depth with_journal with_db
       set_rows orders order_items products status_history payments
       transactions set_orders set_products set_status_history set_payments
       set_transactions].

(** ** Payment initiation *)

(** C6. When the order's status is not [pending_payment], [initiate_payment]
    raises the order-not-ready [ValueError]; when the status is right but the
    provider code resolves to no provider, it raises the
    provider-not-available [ValueError].  In both cases no [Payment] row is
    created: the visible and the durable rows are what they were, the
    provider is not called, and the journal shows an atomic block entered
    and left with nothing written in between. *)
Theorem initiate_payment_rejected
    (order : Order.t) (provider_code return_url notify_url : string)
    (w : World) :
  Order.status order <> OrderStatus.pending_payment
  \/ registry w !! provider_code = None ->
  exists w',
    PaymentService.initiate_payment order provider_code return_url notify_url w
    = (Raised
         (ValueError
            (if decide (Order.status order = OrderStatus.pending_payment)
             then "Payment provider " +:+ provider_code +:+ " not available"
             else "Order " +:+ Order.number order
                  +:+ " is not ready for payment")),
       w') /\
    db w' = db w /\
    committed w' = committed w /\
    payments (db w') = payments (db w) /\
    payments (committed w') = payments (committed w) /\
    provider_calls w' = provider_calls w /\
    journal w' = journal w ++ [AtomicEnter; AtomicRollback].
Proof.
  intros Hguard.
  unfold PaymentService.initiate_payment, atomic.
  destruct (decide (Order.status order = OrderStatus.pending_payment))
    as [Hst|Hst].
  - destruct Hguard as [Hno|Hreg]; [contradiction|].
    rewrite bool_decide_eq_true_2 by exact Hst.
    unfold bind, get_provider. simpl. rewrite Hreg. unfold raise.
    eexists. split; [reflexivity|]. simpl.
    rewrite <- app_assoc. auto 10.
  - rewrite bool_decide_eq_false_2 by exact Hst.
    unfold raise. simpl.
    eexists. split; [reflexivity|]. simpl.
    rewrite <- app_assoc. auto 10.
Qed.

Lemma upsert_payment_head (p p' : Payment.t) (rest : list Payment.t) :
  Payment.id p = Payment.id p' ->
  upsert_payment p' (p :: rest)
  = p' :: map (fun q => if bool_decide (Payment.id q = Payment.id p')
                        then p' else q) rest.
Proof.
  intros Hid. unfold upsert_payment. simpl.
  rewrite bool_decide_eq_true_2 by exact Hid. reflexivity.
Qed.



(** ** Webhook processing *)

Lemma returns_only_ret {A} (a : A) (P : A -> Prop) :
  P a -> returns_only (ret a) P.
Proof. intros H w. exact H. Qed.

Lemma returns_only_raise {A} (e : exn) (P : A -> Prop) :
  returns_only (raise e) P.
Proof. intros w. exact I. Qed.

Lemma returns_only_bind {A B} (m : M A) (k : A -> M B) (P : B -> Prop) :
  (forall a, returns_only (k a) P) -> returns_only (bind m k) P.
Proof.
  intros H w. unfold bind. destruct (m w) as [[a|e] w1]; [apply H|exact I].
Qed.

Ltac returns_only_step :=
  lazymatch goal with
  | |- returns_only (bind _ _) _ => apply returns_only_bind; intros ?
  | |- returns_only (ret _) _ => apply returns_only_ret
  | |- returns_only (raise _) _ => apply returns_only_raise
  | |- returns_only (if ?b then _ else _) _ => destruct b
  | |- returns_only (match ?x with _ => _ end) _ => destruct x
  end.

(** C9 fails as stated: for a provider code that is not registered,
    [process_webhook] raises [ValueError] to its caller instead of returning
    a failure response. *)
Lemma process_webhook_raises_for_unknown_provider :
  fst (PaymentService.process_webhook "unknown" "{}"
         (example_world OrderStatus.pending_payment []
            (Returned completed_hook)))
  = Raised (ValueError "Payment provider unknown not available").
Proof. vm_compute. reflexivity. Qed.

(** ** Stock side effects *)

Lemma select_related_lookup (d : DB) (o : Order.t) (ip : line) :
  ip ∈ items_select_related_product d o ->
  products d !! line_product_id ip = Some ip.2.
Proof.
  unfold items_select_related_product. intros Hin.
  apply list_elem_of_omap in Hin as (it & _ & Hit).
  destruct (products d !! OrderItem.product_id it) as [p|] eqn:Hp;
    [|discriminate].
  injection Hit as <-. exact Hp.
Qed.

(** The rows and journal after a loop of stock writes over [lines], each
    line writing the stock of [new ip] when [sel ip] holds. *)
Lemma stock_loop (sel : line -> bool) (new : line -> Product.t)
    (lines : list line) (w : World) :
  atomic_depth w <> O ->
  exists w1,
    for_each lines
      (fun ip => if sel ip
                 then Product_save_stock (line_product_id ip) (new ip)
                 else ret tt) w
    = (Returned tt, w1) /\
    products (db w1)
    = fold_left (fun rows ip =>
                   if sel ip then store_stock rows (line_product_id ip) (new ip)
                   else rows)
        lines (products (db w)) /\
    journal w1
    = journal w
      ++ map (fun ip => ProductStockSaved (line_product_id ip)
                          (Product.stock_quantity (new ip)))
           (filter (fun ip => sel ip = true) lines) /\
    orders (db w1) = orders (db w) /\
    order_items (db w1) = order_items (db w) /\
    status_history (db w1) = status_history (db w) /\
    payments (db w1) = payments (db w) /\
    transactions (db w1) = transactions (db w) /\
    committed w1 = committed w /\
    atomic_depth w1 = atomic_depth w /\
    provider_calls w1 = provider_calls w /\
    clock w1 = clock w /\
    uuid_counter w1 = uuid_counter w /\
    registry w1 = registry w /\
    generate_order_number w1 = generate_order_number w.
Proof.
  revert w. induction lines as [|ip lines IH]; intros w Hdepth.
  - exists w. simpl. rewrite app_nil_r. repeat split; reflexivity.
  - cbn [for_each]. rewrite run_bind.
    destruct (sel ip) eqn:Hsel.
    + unfold Product_save_stock, write. cbv beta iota.
      match goal with
      | |- context [for_each lines ?body ?w0] =>
          destruct (IH w0) as (w1 & Hrun & Hprod & Hj & Hrest)
      end.
      { simpl. exact Hdepth. }
      exists w1. split; [exact Hrun|].
      rewrite filter_cons_True by exact Hsel.
      cbn [fold_left map]. rewrite Hsel.
      split; [exact Hprod|].
      split; [rewrite Hj; simpl; rewrite <- app_assoc; reflexivity|].
      simpl in Hrest. destruct (atomic_depth w) eqn:Hd; [contradiction|].
      exact Hrest.
    + unfold ret at 1. cbv beta iota.
      destruct (IH w Hdepth) as (w1 & Hrun & Hprod & Hj & Hrest).
      exists w1. split; [exact Hrun|].
      rewrite filter_cons_False by (rewrite Hsel; discriminate).
      cbn [fold_left]. rewrite Hsel. auto.
Qed.

Lemma for_each_ext {X} (body1 body2 : X -> M unit) (xs : list X) :
  (forall x, body1 x = body2 x) -> for_each xs body1 = for_each xs body2.
Proof.
  intros Hext. induction xs as [|x xs IH]; [reflexivity|].
  cbn [for_each]. rewrite Hext, IH. reflexivity.
Qed.

Lemma fold_store_other (sel : line -> bool) (new : line -> Product.t)
    (lines : list line) (rows : gmap pk Product.t) (id : pk) :
  id ∉ map line_product_id (filter (fun ip => sel ip = true) lines) ->
  fold_left (fun rows ip =>
               if sel ip then store_stock rows (line_product_id ip) (new ip)
               else rows) lines rows !! id
  = rows !! id.
Proof.
  revert rows. induction lines as [|ip lines IH]; intros rows Hid;
    [reflexivity|].
  cbn [fold_left]. destruct (sel ip) eqn:Hsel.
  - rewrite filter_cons_True in Hid by exact Hsel.
    cbn [map] in Hid. apply not_elem_of_cons in Hid as [Hne Hid].
    rewrite IH by exact Hid. unfold store_stock.
    apply lookup_alter_ne. congruence.
  - rewrite filter_cons_False in Hid by (rewrite Hsel; discriminate).
    apply IH, Hid.
Qed.

Lemma fold_store_lookup (sel : line -> bool) (new : line -> Product.t)
    (lines : list line) (rows : gmap pk Product.t) (ip : line)
    (p0 : Product.t) :
  NoDup (map line_product_id lines) ->
  ip ∈ lines ->
  rows !! line_product_id ip = Some p0 ->
  fold_left (fun rows ip =>
               if sel ip then store_stock rows (line_product_id ip) (new ip)
               else rows) lines rows !! line_product_id ip
  = Some (if sel ip
          then Product.set_stock_quantity (Product.stock_quantity (new ip)) p0
          else p0).
Proof.
  revert rows. induction lines as [|ip' lines IH]; intros rows Hnd Hin Hrow.
  - inversion Hin.
  - cbn [map] in Hnd. apply NoDup_cons in Hnd as [Hfresh Hnd].
    cbn [fold_left].
    apply elem_of_cons in Hin as [->|Hin].
    + rewrite fold_store_other.
      * destruct (sel ip'); [|exact Hrow].
        unfold store_stock. rewrite lookup_alter_eq, Hrow. reflexivity.
      * intros Hmem. apply Hfresh.
        apply list_elem_of_fmap in Hmem as (x & Hx & Hmem).
        apply list_elem_of_filter in Hmem as [_ Hmem].
        apply list_elem_of_fmap. exists x. split; assumption.
    + apply IH; [exact Hnd|exact Hin|].
      assert (Hne : line_product_id ip' <> line_product_id ip).
      { intros Heq. apply Hfresh. rewrite Heq.
        apply list_elem_of_fmap. exists ip. split; [reflexivity|exact Hin]. }
      destruct (sel ip'); [|exact Hrow].
      unfold store_stock. rewrite lookup_alter_ne by exact Hne. exact Hrow.
Qed.

Ltac eval_bool_decide :=
  repeat match goal with
         | |- context [bool_decide ?P] =>
             let b := eval vm_compute in (bool_decide P) in
             change (bool_decide P) with b
         end.

(** C8. [cancel_order] on an order that is [paid] or [processing] writes,
    for every order line whose product tracks inventory and in the order of
    the lines, that product's stock plus the ordered quantity; only then
    does it move the order to [canceled] and save it, as the journal shows.
    With one line per product (the table's uniqueness constraint) every
    tracked product ends with exactly its former stock plus the ordered
    quantity, and every other product row is untouched.  On a [draft] (or
    [pending_payment]) order the product table is left as it is and the
    journal holds no stock write. *)
Theorem cancel_order_restores_stock
    (order : Order.t) (reason : string) (w : World) :
  let lines := items_select_related_product (db w) order in
  (Order.status order ∈ [OrderStatus.paid; OrderStatus.processing] ->
   exists order' w',
     OrderService.cancel_order order reason w = (Returned order', w') /\
     Order.status order' = OrderStatus.canceled /\
     Order.id order' = Order.id order /\
     journal w'
     = journal w ++ [AtomicEnter]
       ++ map (fun ip => ProductStockSaved (line_product_id ip)
                           (Product.stock_quantity ip.2
                            + OrderItem.quantity ip.1))
            (tracked lines)
       ++ [OrderSaved (Order.id order) OrderStatus.canceled; AtomicCommit] /\
     (NoDup (map line_product_id lines) ->
      forall ip, ip ∈ lines ->
        products (db w') !! line_product_id ip
        = Some (if Product.track_inventory ip.2 then restocked ip else ip.2)) /\
     (forall id, id ∉ map line_product_id (tracked lines) ->
        products (db w') !! id = products (db w) !! id)) /\
  (Order.status order ∈ [OrderStatus.draft; OrderStatus.pending_payment] ->
   exists order' w',
     OrderService.cancel_order order reason w = (Returned order', w') /\
     Order.status order' = OrderStatus.canceled /\
     Order.id order' = Order.id order /\
     products (db w') = products (db w) /\
     journal w'
     = journal w
       ++ [AtomicEnter; OrderSaved (Order.id order) OrderStatus.canceled;
           AtomicCommit]).
Proof.
  intros lines. split; intros Hst.
  - assert (Hsrc : Order.status order ∈ Transition.source Transition.cancel)
      by (apply (status_in_wider _ _ _) with (2 := Hst); reflexivity).
    unfold OrderService.cancel_order. rewrite run_atomic.
    rewrite (bool_decide_eq_true_2 _ Hsrc). cbn [negb].
    rewrite run_bind.
    rewrite (bool_decide_eq_true_2 _ Hst).
    rewrite run_bind. unfold get_db at 1. cbv beta iota.
    cbn [db set_depth with_journal].
    fold lines.
    rewrite (for_each_ext _
               (fun ip => if Product.track_inventory ip.2
                          then Product_save_stock (line_product_id ip)
                                 (restocked ip)
                          else ret tt))
      by (intros [item product]; reflexivity).
    match goal with
    | |- context [for_each lines ?body ?w0] =>
        destruct (stock_loop (fun ip => Product.track_inventory ip.2)
                    restocked lines w0)
          as (w1 & Hrun & Hprod & Hj & Hord & Hit & Hh & Hpay & Htx & Hcom
              & Hdep & Hcalls & Hclk & Hu & Hreg & Hgen);
        [simpl; discriminate|rewrite Hrun]
    end.
    cbv beta iota. rewrite run_bind.
    unfold cancel. rewrite (transition_inside_sources _ _ _ _ Hsrc).
    unfold ret, Order_save, bind, write. cbv beta iota zeta.
    eexists _, _. split; [reflexivity|].
    split; [destruct (bool_decide _); reflexivity|].
    split; [destruct (bool_decide _); reflexivity|].
    split.
    { destruct (atomic_depth w); simpl; rewrite Hj; simpl;
        destruct (bool_decide _); simpl;
        rewrite <- !app_assoc; reflexivity. }
    split.
    + intros Hnd ip Hip.
      assert (Hp : products
                     (db
                        (set_depth (S (atomic_depth w))
                           (with_journal AtomicEnter w)))
                   !! line_product_id ip = Some ip.2)
        by exact (select_related_lookup _ _ _ Hip).
      pose proof (fold_store_lookup (fun ip => Product.track_inventory ip.2)
                    restocked lines _ ip ip.2 Hnd Hip Hp) as Hlook.
      cbv beta in Hlook. rewrite <- Hprod in Hlook.
      destruct (atomic_depth w); simpl; rewrite Hlook;
        destruct (Product.track_inventory ip.2); reflexivity.
    + intros id Hid.
      pose proof (fold_store_other (fun ip => Product.track_inventory ip.2)
                    restocked lines
                    (products
                       (db
                          (set_depth (S (atomic_depth w))
                             (with_journal AtomicEnter w))))
                    id Hid) as Hlook.
      cbv beta in Hlook. rewrite <- Hprod in Hlook.
      destruct (atomic_depth w); simpl; rewrite Hlook; reflexivity.
  - assert (Hsrc : Order.status order ∈ Transition.source Transition.cancel)
      by (apply (status_in_wider _ _ _) with (2 := Hst); reflexivity).
    assert (Hno : Order.status order
                  ∉ [OrderStatus.paid; OrderStatus.processing])
      by (apply (status_not_in_disjoint _ _ _) with (2 := Hst); reflexivity).
    unfold OrderService.cancel_order. rewrite run_atomic.
    rewrite (bool_decide_eq_true_2 _ Hsrc). cbn [negb].
    rewrite run_bind.
    rewrite (bool_decide_eq_false_2 _ Hno).
    unfold ret at 1. cbv beta iota. rewrite run_bind.
    unfold cancel. rewrite (transition_inside_sources _ _ _ _ Hsrc).
    unfold ret, Order_save, bind, write. cbv beta iota zeta.
    eexists _, _. split; [reflexivity|].
    split; [destruct (bool_decide _); reflexivity|].
    split; [destruct (bool_decide _); reflexivity|].
    destruct (atomic_depth w); simpl;
      destruct (bool_decide _); simpl;
      rewrite <- !app_assoc; split; reflexivity.
Qed.

(** ** Refunds *)

Lemma compare_antisym (a b : decimal) :
  Decimal.compare b a = CompOpp (Decimal.compare a b).
Proof.
  unfold Decimal.compare. rewrite (Z.min_comm (Decimal.exponent b)).
  apply Z.compare_antisym.
Qed.

Lemma compare_refl (a : decimal) : Decimal.compare a a = Eq.
Proof. unfold Decimal.compare. apply Z.compare_refl. Qed.

Lemma zero_is_falsy (zero : decimal) :
  Decimal.coeff zero = 0 -> Decimal.truthy zero = false.
Proof. intros H. unfold Decimal.truthy. rewrite H. reflexivity. Qed.

Lemma positive_is_truthy (a : decimal) :
  Decimal.ltb (Decimal.of_int 0) a = true -> Decimal.truthy a = true.
Proof.
  unfold Decimal.ltb, Decimal.compare, Decimal.coeff_at, Decimal.truthy.
  cbn [Decimal.coeff Decimal.exponent Decimal.of_int].
  rewrite Z.mul_0_l. intros H.
  destruct (Z.eqb_spec (Decimal.coeff a) 0) as [Hz|]; [|reflexivity].
  rewrite Hz, Z.mul_0_l in H. discriminate.
Qed.

(** [refundable_amount] reads the rows and changes nothing. *)
Lemma refundable_amount_reads (p : Payment.t) (w : World) :
  snd (refundable_amount p w) = w.
Proof.
  unfold refundable_amount. destruct (negb _); [reflexivity|].
  unfold refunded_amount, bind, get_db. cbn [fst snd].
  destruct (sum_amounts _ _); reflexivity.
Qed.

Lemma refundable_amount_same_rows (p : Payment.t) (w1 w2 : World) :
  db w1 = db w2 ->
  fst (refundable_amount p w1) = fst (refundable_amount p w2).
Proof.
  intros Hdb. unfold refundable_amount. destruct (negb _); [reflexivity|].
  unfold refunded_amount, bind, get_db. rewrite Hdb.
  destruct (sum_amounts _ _); reflexivity.
Qed.

Lemma refundable_amount_run (p : Payment.t) (w : World) :
  refundable_amount p w = (fst (refundable_amount p w), w).
Proof.
  rewrite <- (refundable_amount_reads p w) at 3.
  destruct (refundable_amount p w); reflexivity.
Qed.

(** A negative amount, and a positive one above the refundable amount, are
    rejected before the provider is called and before anything is
    written. *)
Lemma refund_payment_rejects_out_of_range
    (payment : Payment.t) (a R : decimal) (reason : string) (w : World) :
  Payment.can_be_refunded payment = true ->
  fst (refundable_amount payment w) = Returned R ->
  Decimal.coeff a <> 0 ->
  Decimal.leb a (Decimal.of_int 0) = true \/ Decimal.ltb R a = true ->
  exists msg w',
    PaymentService.refund_payment payment (Some a) reason w
    = (Raised (ValueError msg), w') /\
    (msg = "Refund amount must be greater than zero"
     \/ msg = "Refund amount exceeds refundable amount") /\
    db w' = db w /\ committed w' = committed w /\
    provider_calls w' = provider_calls w /\
    journal w' = journal w ++ [AtomicEnter; AtomicRollback].
Proof.
  intros Hcan HR Hnz Hbad.
  unfold PaymentService.refund_payment.
  rewrite run_atomic. rewrite Hcan. cbn [negb].
  assert (Htruthy : Decimal.truthy a = true).
  { unfold Decimal.truthy. destruct (Z.eqb_spec (Decimal.coeff a) 0);
      [contradiction|reflexivity]. }
  rewrite Htruthy.
  set (w1 := set_depth (S (atomic_depth w)) (with_journal AtomicEnter w)).
  assert (HR1 : refundable_amount payment w1 = (Returned R, w1)).
  { rewrite refundable_amount_run.
    rewrite (refundable_amount_same_rows payment w1 w) by reflexivity.
    rewrite HR. reflexivity. }
  rewrite run_bind. unfold ret at 1. cbv beta iota.
  destruct (Decimal.leb a (Decimal.of_int 0)) eqn:Hle.
  - eexists _, _. split; [reflexivity|]. cbn.
    rewrite <- app_assoc. auto 10.
  - destruct Hbad as [Hbad|Hbad]; [discriminate|].
    rewrite run_bind, HR1. cbv beta iota. rewrite Hbad.
    eexists _, _. split; [reflexivity|]. cbn.
    rewrite <- app_assoc. auto 10.
Qed.

(** C7 at its failing input.  A completed payment of 36.20 on a paid order,
    nothing refunded so far; [refund_payment] is called with the amount
    [Decimal('0.00')].  The call is not rejected: the provider refunds 36.20,
    a successful refund transaction of 36.20 is recorded, the payment
    becomes [refunded] and the order is moved to [refunded]. *)
Lemma refund_payment_zero_amount_refunds_everything :
  exists d w',
    PaymentService.refund_payment (example_payment PaymentStatus.completed)
      (Some (Decimal.cents 0)) "customer request"
      (example_world OrderStatus.paid
         [example_payment PaymentStatus.completed] (Returned completed_hook))
    = (Returned d, w') /\
    d !! "success" = Some (PyBool true) /\
    d !! "amount" = Some (PyDecimal (Decimal.cents 3620)) /\
    map Payment.status (payments (db w')) = [PaymentStatus.refunded] /\
    Order.status <$> orders (db w') !! "o-1" = Some OrderStatus.refunded /\
    map (fun tx => (Transaction.type tx, Transaction.success tx,
                    Transaction.amount tx)) (transactions (db w'))
    = [(TransactionType.refund, true, Some (Decimal.cents 3620))] /\
    map call_operation (provider_calls w') = ["refund"].
Proof.
  eexists _, _. split; [vm_compute; reflexivity|].
  vm_compute. repeat split; reflexivity.
Qed.

(** ** Duplicate delivery of a completed notification *)

Lemma locate_payment_found
    (result : PaymentWebhookResult) (code : string) (w : World)
    (p : Payment.t) :
  fst (locate_payment result code w) = Returned (Some p) ->
  (str_truthy (wh_payment_id result) = true /\
   filter (fun q => Payment.external_id q = str_or (wh_payment_id result) "")
     (payments (db w)) = [p])
  \/
  ((str_truthy (wh_payment_id result) = false
    \/ filter (fun q => Payment.external_id q
                        = str_or (wh_payment_id result) "")
         (payments (db w)) = []) /\
   exists k order,
     wh_order_id result = OrderRef k /\
     orders (db w) !! k = Some order /\
     head (filter
             (fun q =>
                Payment.order_id q = Order.id order
                /\ Payment.provider_code q = code
                /\ Payment.status q ∈
                     [PaymentStatus.pending; PaymentStatus.authorized])
             (payments (db w))) = Some p).
Proof.
  unfold locate_payment. rewrite run_bind.
  destruct (str_truthy (wh_payment_id result)) eqn:Htruthy.
  - unfold Payment_get_by_external_id. rewrite run_bind.
    unfold get_db at 1. cbv beta iota.
    destruct (filter _ (payments (db w))) as [|q [|q' rest]] eqn:Hf.
    + unfold ret at 1. cbv beta iota.
      unfold Payment_first_open_for_order.
      destruct (wh_order_id result) as [|raw|k]; try (cbn; discriminate).
      rewrite run_bind. unfold get_db at 1. cbv beta iota.
      destruct (orders (db w) !! k) as [order|] eqn:Ho;
        [|cbn; discriminate].
      cbn. intros [= Hp]. right. split; [right; reflexivity|].
      exists k, order. auto.
    + cbn. intros [= ->]. left. auto.
    + cbn. discriminate.
  - unfold ret at 1. cbv beta iota.
    unfold Payment_first_open_for_order.
    destruct (wh_order_id result) as [|raw|k]; try (cbn; discriminate).
    rewrite run_bind. unfold get_db at 1. cbv beta iota.
    destruct (orders (db w) !! k) as [order|] eqn:Ho;
      [|cbn; discriminate].
    cbn. intros [= Hp]. right. split; [left; reflexivity|].
    exists k, order. auto.
Qed.

Lemma locate_payment_run
    (result : PaymentWebhookResult) (code : string) (w : World) :
  locate_payment result code w = (fst (locate_payment result code w), w).
Proof.
  unfold locate_payment, Payment_get_by_external_id,
    Payment_first_open_for_order, bind, get_db, ret, raise.
  destruct (str_truthy _); cbv beta iota.
  - destruct (filter _ _) as [|q [|q' rest]]; cbv beta iota;
      try reflexivity.
    destruct (wh_order_id result); cbv beta iota; try reflexivity.
    destruct (orders (db w) !! id); reflexivity.
  - destruct (wh_order_id result); cbv beta iota; try reflexivity.
    destruct (orders (db w) !! id); reflexivity.
Qed.

Lemma locate_payment_same_rows
    (result : PaymentWebhookResult) (code : string) (w1 w2 : World) :
  payments (db w1) = payments (db w2) ->
  orders (db w1) = orders (db w2) ->
  fst (locate_payment result code w1) = fst (locate_payment result code w2).
Proof.
  intros Hp Ho.
  unfold locate_payment, Payment_get_by_external_id,
    Payment_first_open_for_order, bind, get_db, ret, raise.
  destruct (str_truthy _); cbv beta iota.
  - rewrite Hp.
    destruct (filter _ _) as [|q [|q' rest]]; cbv beta iota;
      try reflexivity.
    destruct (wh_order_id result); cbv beta iota; try reflexivity.
    rewrite Ho, Hp. destruct (orders (db w2) !! id); reflexivity.
  - destruct (wh_order_id result); cbv beta iota; try reflexivity.
    rewrite Ho, Hp. destruct (orders (db w2) !! id); reflexivity.
Qed.

Lemma apply_optional_order_id (e : string) (r : option json) (p : Payment.t) :
  Payment.order_id (apply_optional e r p) = Payment.order_id p.
Proof.
  unfold apply_optional. destruct (bool_decide _); destruct r as [[|x r]|];
    reflexivity.
Qed.

Lemma apply_optional_id (e : string) (r : option json) (p : Payment.t) :
  Payment.id (apply_optional e r p) = Payment.id p.
Proof.
  unfold apply_optional. destruct (bool_decide _); destruct r as [[|x r]|];
    reflexivity.
Qed.

Lemma apply_optional_external_id (e : string) (r : option json)
    (p : Payment.t) :
  e <> "" -> Payment.external_id (apply_optional e r p) = e.
Proof.
  intros He. unfold apply_optional.
  rewrite bool_decide_eq_false_2 by exact He.
  destruct r as [[|x r]|]; reflexivity.
Qed.

(** A delivery whose payment, if any is found, belongs to an order that is
    not awaiting payment: it reports failure and touches neither stock nor
    orders nor the status history. *)
Lemma process_webhook_quiet
    (code : string) (request : HttpRequest) (provider : Provider.t)
    (result : PaymentWebhookResult) (w : World) :
  registry w !! code = Some provider ->
  Provider.validate_webhook_signature provider request = Returned true ->
  Provider.handle_webhook provider request = Returned result ->
  wh_success result = true ->
  wh_status result = "completed" ->
  (forall p o,
     fst (locate_payment result code w) = Returned (Some p) ->
     orders (db w) !! Payment.order_id p = Some o ->
     Order.status o <> OrderStatus.pending_payment) ->
  exists d w' j,
    PaymentService.process_webhook code request w = (Returned d, w') /\
    failure_response d /\
    products (db w') = products (db w) /\
    orders (db w') = orders (db w) /\
    status_history (db w') = status_history (db w) /\
    journal w' = journal w ++ j /\
    stock_writes j = [] /\
    order_saves j = [].
Proof.
  intros Hreg Hsig Hhook Hok Hstatus Hquiet.
  unfold PaymentService.process_webhook.
  rewrite run_atomic, run_bind. unfold get_provider at 1.
  world_simpl. rewrite Hreg.
  rewrite run_bind. unfold call_provider at 1. rewrite Hsig.
  cbn [negb]. unfold try_except. rewrite run_bind.
  unfold call_provider at 1. rewrite Hhook, Hok. cbn [negb]. world_simpl.
  rewrite run_bind, locate_payment_run.
  match goal with
  | |- context [locate_payment result code ?w2] =>
      rewrite (locate_payment_same_rows result code w2 w)
        by reflexivity
  end.
  destruct (fst (locate_payment result code w)) as [[p|]|e] eqn:Hloc.
  - rewrite run_bind. unfold create_transaction at 1, write at 1.
    world_simpl. rewrite run_bind.
    rewrite (bool_decide_eq_true_2 _ Hstatus).
    rewrite run_bind. unfold mark_as_completed at 1.
    rewrite run_bind. unfold timezone_now at 1. world_simpl.
    rewrite run_bind. unfold Payment_save at 1, write at 1. world_simpl.
    unfold ret at 1. cbv beta iota.
    rewrite run_bind. unfold Payment_order at 1.
    rewrite run_bind. unfold get_db at 1. world_simpl.
    rewrite apply_optional_order_id. cbn [Payment.order_id
      Payment.set_captured_at Payment.set_status].
    destruct (orders (db w) !! Payment.order_id p) as [o|] eqn:Ho.
    + unfold ret at 1. cbv beta iota. rewrite run_bind.
      unfold OrderService.process_payment_success. rewrite run_atomic.
      rewrite (bool_decide_eq_false_2 _ (Hquiet p o eq_refl Ho)).
      cbn [negb]. unfold raise at 1. cbv beta iota.
      unfold ret. cbv beta iota.
      destruct (atomic_depth w); eexists _, _, _;
        (split; [reflexivity|]); world_simpl;
        (split; [split; [reflexivity|eexists; reflexivity]|]);
        (split; [reflexivity|]); (split; [reflexivity|]);
        (split; [reflexivity|]);
        rewrite <- !app_assoc; (split; [reflexivity|]);
        split; reflexivity.
    + unfold raise at 1. cbv beta iota. unfold ret. cbv beta iota.
      destruct (atomic_depth w); eexists _, _, _;
        (split; [reflexivity|]); world_simpl;
        (split; [split; [reflexivity|eexists; reflexivity]|]);
        (split; [reflexivity|]); (split; [reflexivity|]);
        (split; [reflexivity|]);
        rewrite <- !app_assoc; (split; [reflexivity|]);
        split; reflexivity.
  - unfold ret. cbv beta iota.
    destruct (atomic_depth w); eexists _, _, _;
      (split; [reflexivity|]); world_simpl;
      (split; [split; [reflexivity|eexists; reflexivity]|]);
      (split; [reflexivity|]); (split; [reflexivity|]);
      (split; [reflexivity|]);
      rewrite <- !app_assoc; (split; [reflexivity|]);
      split; reflexivity.
  - unfold ret. cbv beta iota.
    destruct (atomic_depth w); eexists _, _, _;
      (split; [reflexivity|]); world_simpl;
      (split; [split; [reflexivity|eexists; reflexivity]|]);
      (split; [reflexivity|]); (split; [reflexivity|]);
      (split; [reflexivity|]);
      rewrite <- !app_assoc; (split; [reflexivity|]);
      split; reflexivity.
Qed.

Lemma select_related_same (d1 d2 : DB) (o1 o2 : Order.t) :
  order_items d1 = order_items d2 ->
  products d1 = products d2 ->
  Order.id o1 = Order.id o2 ->
  items_select_related_product d1 o1 = items_select_related_product d2 o2.
Proof.
  intros Hi Hp Hid. unfold items_select_related_product, Order_items.
  rewrite Hi, Hp, Hid. reflexivity.
Qed.

Lemma stock_writes_app (j1 j2 : list event) :
  stock_writes (j1 ++ j2) = stock_writes j1 ++ stock_writes j2.
Proof. unfold stock_writes. apply omap_app. Qed.

Lemma order_saves_app (j1 j2 : list event) :
  order_saves (j1 ++ j2) = order_saves j1 ++ order_saves j2.
Proof. unfold order_saves. apply omap_app. Qed.

Lemma stock_writes_of_saves (g : line -> pk) (h : line -> Z)
    (lines : list line) :
  stock_writes (map (fun ip => ProductStockSaved (g ip) (h ip)) lines)
  = map (fun ip => (g ip, h ip)) lines.
Proof.
  induction lines as [|ip lines IH]; [reflexivity|].
  cbn. unfold stock_writes in IH. rewrite IH. reflexivity.
Qed.

Lemma order_saves_of_stock_saves (g : line -> pk) (h : line -> Z)
    (lines : list line) :
  order_saves (map (fun ip => ProductStockSaved (g ip) (h ip)) lines) = [].
Proof. induction lines as [|ip lines IH]; [reflexivity|exact IH]. Qed.

(** [process_payment_success] on an order awaiting payment, inside an
    atomic block. *)
Lemma process_payment_success_run (order : Order.t) (w : World) :
  Order.status order = OrderStatus.pending_payment ->
  atomic_depth w <> O ->
  let lines := items_select_related_product (db w) order in
  exists order' w',
    OrderService.process_payment_success order w = (Returned order', w') /\
    Order.status order' = OrderStatus.paid /\
    Order.id order' = Order.id order /\
    orders (db w') = <[Order.id order := order']> (orders (db w)) /\
    status_history (db w') = status_history (db w) /\
    products (db w')
    = fold_left (fun rows ip =>
                   if covers ip
                   then store_stock rows (line_product_id ip) (destocked ip)
                   else rows)
        lines (products (db w)) /\
    payments (db w') = payments (db w) /\
    transactions (db w') = transactions (db w) /\
    order_items (db w') = order_items (db w) /\
    journal w'
    = journal w
      ++ [AtomicEnter; OrderSaved (Order.id order) OrderStatus.paid]
      ++ map (fun ip => ProductStockSaved (line_product_id ip)
                          (Product.stock_quantity ip.2
                           - OrderItem.quantity ip.1))
           (covered lines)
      ++ [AtomicCommit] /\
    atomic_depth w' = atomic_depth w /\
    committed w' = committed w /\
    registry w' = registry w.
Proof.
  intros Hpend Hdepth lines.
  assert (Hsrc : Order.status order
                 ∈ Transition.source Transition.mark_as_paid)
    by (rewrite Hpend; apply list_elem_of_here).
  unfold OrderService.process_payment_success. rewrite run_atomic.
  rewrite (bool_decide_eq_true_2 _ Hpend). cbn [negb].
  rewrite run_bind. unfold mark_as_paid.
  rewrite (transition_inside_sources _ _ _ _ Hsrc).
  rewrite run_bind. unfold timezone_now at 1. world_simpl.
  unfold ret at 1. cbv beta iota zeta.
  rewrite run_bind. unfold Order_save at 1.
  rewrite run_bind. unfold write at 1. unfold ret at 1. cbv beta iota.
  rewrite run_bind. unfold get_db at 1. cbv beta iota.
  rewrite run_bind.
  rewrite (for_each_ext _
             (fun ip => if covers ip
                        then Product_save_stock (line_product_id ip)
                               (destocked ip)
                        else ret tt))
    by (intros [item product]; unfold covers; cbn [fst snd];
        destruct (Product.track_inventory product);
        [destruct (_ >=? _)|]; reflexivity).
  match goal with
  | |- context [for_each ?ls ?body ?w0] =>
      assert (Hls : ls = lines);
      [|rewrite Hls;
        destruct (stock_loop covers destocked lines w0)
          as (w1 & Hrun & Hprod & Hj & Hord & Hit & Hh & Hpay & Htx & Hcom
              & Hdep & Hcalls & Hclk & Hu & Hreg & Hgen);
        [simpl; discriminate|rewrite Hrun]]
  end.
  { apply select_related_same; try reflexivity.
    simpl. destruct (bool_decide _); reflexivity. }
  unfold ret. cbv beta iota.
  simpl in Hprod, Hj, Hord, Hit, Hh, Hpay, Htx, Hcom, Hdep, Hreg.
  destruct (atomic_depth w) as [|n] eqn:Hd; [contradiction|].
  eexists _, _. split; [reflexivity|]. world_simpl.
  rewrite Hprod, Hj, Hord, Hit, Hh, Hpay, Htx, Hcom, Hreg.
  split; [destruct (bool_decide _); reflexivity|].
  split; [destruct (bool_decide _); reflexivity|].
  split; [destruct (bool_decide _); reflexivity|].
  split; [reflexivity|]. split; [reflexivity|].
  split; [reflexivity|]. split; [reflexivity|]. split; [reflexivity|].
  split; [|auto].
  destruct (bool_decide _); simpl; rewrite <- !app_assoc; reflexivity.
Qed.

(** What a delivery that reports success has done. *)
Lemma process_webhook_success
    (code : string) (request : HttpRequest) (provider : Provider.t)
    (result : PaymentWebhookResult) (w : World)
    (d1 : pydict) (w1 : World) :
  registry w !! code = Some provider ->
  Provider.validate_webhook_signature provider request = Returned true ->
  Provider.handle_webhook provider request = Returned result ->
  wh_success result = true ->
  wh_status result = "completed" ->
  PaymentService.process_webhook code request w = (Returned d1, w1) ->
  success_response d1 ->
  exists payment order order' j1,
    fst (locate_payment result code w) = Returned (Some payment) /\
    orders (db w) !! Payment.order_id payment = Some order /\
    Order.status order = OrderStatus.pending_payment /\
    Order.status order' = OrderStatus.paid /\
    Order.id order' = Order.id order /\
    registry w1 = registry w /\
    payments (db w1)
    = upsert_payment
        (apply_optional
           (str_or (wh_payment_id result) (Payment.external_id payment))
           (wh_raw_data result)
           (Payment.set_captured_at (clock w)
              (Payment.set_status PaymentStatus.completed payment)))
        (payments (db w)) /\
    orders (db w1) = <[Order.id order := order']> (orders (db w)) /\
    status_history (db w1) = status_history (db w) /\
    products (db w1)
    = fold_left (fun rows ip =>
                   if covers ip
                   then store_stock rows (line_product_id ip) (destocked ip)
                   else rows)
        (items_select_related_product (db w) order) (products (db w)) /\
    journal w1 = journal w ++ j1 /\
    order_saves j1 = [(Order.id order, OrderStatus.paid)] /\
    stock_writes j1
    = map (fun ip => (line_product_id ip,
                      Product.stock_quantity ip.2 - OrderItem.quantity ip.1))
        (covered (items_select_related_product (db w) order)).
Proof.
  intros Hreg Hsig Hhook Hok Hstatus Hrun Hsucc.
  unfold success_response in Hsucc.
  revert Hrun.
  unfold PaymentService.process_webhook.
  rewrite run_atomic, run_bind. unfold get_provider at 1.
  world_simpl. rewrite Hreg.
  rewrite run_bind. unfold call_provider at 1. rewrite Hsig.
  cbn [negb]. unfold try_except. rewrite run_bind.
  unfold call_provider at 1. rewrite Hhook, Hok. cbn [negb]. world_simpl.
  rewrite run_bind, locate_payment_run.
  match goal with
  | |- context [locate_payment result code ?w2] =>
      rewrite (locate_payment_same_rows result code w2 w)
        by reflexivity
  end.
  destruct (fst (locate_payment result code w)) as [[p|]|e] eqn:Hloc;
    [|unfold ret; cbv beta iota; intros [= <- <-]; discriminate..].
  rewrite run_bind. unfold create_transaction at 1, write at 1.
  world_simpl. rewrite run_bind.
  rewrite (bool_decide_eq_true_2 _ Hstatus).
  rewrite run_bind. unfold mark_as_completed at 1.
  rewrite run_bind. unfold timezone_now at 1. world_simpl.
  rewrite run_bind. unfold Payment_save at 1, write at 1. world_simpl.
  unfold ret at 1. cbv beta iota.
  rewrite run_bind. unfold Payment_order at 1.
  rewrite run_bind. unfold get_db at 1. world_simpl.
  rewrite apply_optional_order_id. cbn [Payment.order_id
    Payment.set_captured_at Payment.set_status].
  destruct (orders (db w) !! Payment.order_id p) as [o|] eqn:Ho;
    [|unfold raise at 1, ret; cbv beta iota; intros [= <- <-]; discriminate].
  unfold ret at 1. cbv beta iota. rewrite run_bind.
  destruct (decide (Order.status o = OrderStatus.pending_payment))
    as [Hpend|Hpend].
  2:{ unfold OrderService.process_payment_success. rewrite run_atomic.
      rewrite (bool_decide_eq_false_2 _ Hpend). cbn [negb].
      unfold raise at 1, ret. cbv beta iota. intros [= <- <-]. discriminate. }
  match goal with
  | |- context [OrderService.process_payment_success o ?wx] =>
      destruct (process_payment_success_run o wx Hpend)
        as (o' & w' & Hps & Hst' & Hid' & Hord & Hh & Hprod & Hpay & Htx
            & Hit & Hj & Hdep & Hcom & Hreg');
      [simpl; discriminate|rewrite Hps]
  end.
  unfold ret. cbv beta iota.
  simpl in Hord, Hh, Hprod, Hpay, Htx, Hit, Hj, Hdep, Hcom, Hreg'.
  intros [= <- <-].
  exists p, o, o'.
  exists ([AtomicEnter; ProviderCalled code "validate_webhook_signature";
           ProviderCalled code "handle_webhook";
           TransactionCreated TransactionType.webhook true;
           PaymentSaved (Payment.id p) PaymentStatus.completed;
           AtomicEnter;
           OrderSaved (Order.id o) OrderStatus.paid]
          ++ map (fun ip => ProductStockSaved (line_product_id ip)
                              (Product.stock_quantity ip.2
                               - OrderItem.quantity ip.1))
               (covered (items_select_related_product (db w) o))
          ++ [AtomicCommit; AtomicCommit]).
  split; [reflexivity|]. split; [first [reflexivity|exact Ho]|].
  split; [exact Hpend|]. split; [exact Hst'|]. split; [exact Hid'|].
  assert (Hpid : Payment.id
                   (apply_optional
                      (str_or (wh_payment_id result) (Payment.external_id p))
                      (wh_raw_data result)
                      (Payment.set_captured_at (clock w)
                         (Payment.set_status PaymentStatus.completed p)))
                 = Payment.id p) by (rewrite apply_optional_id; reflexivity).
  assert (Hpst : Payment.status
                   (apply_optional
                      (str_or (wh_payment_id result) (Payment.external_id p))
                      (wh_raw_data result)
                      (Payment.set_captured_at (clock w)
                         (Payment.set_status PaymentStatus.completed p)))
                 = PaymentStatus.completed).
  { unfold apply_optional. destruct (bool_decide _);
      destruct (wh_raw_data result) as [[|x r]|]; reflexivity. }
  rewrite Hpid, Hpst in Hj.
  rewrite !order_saves_app, !stock_writes_app.
  rewrite order_saves_of_stock_saves, stock_writes_of_saves.
  destruct (atomic_depth w); world_simpl;
    rewrite Hord, Hh, Hprod, Hpay, Hj, Hreg';
    (split; [reflexivity|]);
    (split; [reflexivity|]); (split; [reflexivity|]);
    (split; [reflexivity|]); (split; [reflexivity|]);
    rewrite <- !app_assoc; cbn [app]; rewrite <- ?app_assoc;
    (split; [reflexivity|]);
    (split; [reflexivity|]);
    unfold stock_writes at 1 2; cbn [omap list_omap];
    rewrite ?app_nil_r; reflexivity.
Qed.

Lemma elem_of_upsert (x p : Payment.t) (rows : list Payment.t) :
  p ∈ upsert_payment x rows -> p = x \/ p ∈ rows.
Proof.
  unfold upsert_payment. destruct (existsb _ rows).
  - intros Hin. apply list_elem_of_fmap in Hin as (q & -> & Hq).
    destruct (bool_decide _); auto.
  - intros Hin. apply elem_of_cons in Hin. exact Hin.
Qed.

Lemma upsert_elem (x : Payment.t) (rows : list Payment.t) :
  x ∈ upsert_payment x rows.
Proof.
  unfold upsert_payment.
  destruct (existsb _ rows) eqn:Hex; [|apply list_elem_of_here].
  apply existsb_exists in Hex as (q & Hq & Hsame).
  apply list_elem_of_fmap. exists q.
  rewrite Hsame. split; [reflexivity|]. apply list_elem_of_In. exact Hq.
Qed.

Lemma str_or_truthy (o : option string) (default : string) :
  str_truthy o = true -> str_or o default = str_or o "" /\ str_or o "" <> "".
Proof.
  destruct o as [s|]; [|discriminate]. cbn.
  destruct (bool_decide (s = "")) eqn:Hs; [discriminate|].
  intros _. split; [reflexivity|].
  apply bool_decide_eq_false in Hs. exact Hs.
Qed.

Lemma head_filter_holds {A} (P : A -> Prop) `{!forall x, Decision (P x)}
    (l : list A) (x : A) :
  head (filter P l) = Some x -> x ∈ l /\ P x.
Proof.
  intros Hhead. apply head_Some_elem_of in Hhead.
  apply list_elem_of_filter in Hhead as [HP Hin]. auto.
Qed.

(** After a successful delivery, whatever payment the same notification
    finds belongs to the order that has just been paid. *)
Lemma redelivery_finds_paid_order
    (result : PaymentWebhookResult) (code : string) (w w1 : World)
    (payment : Payment.t) (order order' : Order.t) :
  keyed_by_id (db w) ->
  fst (locate_payment result code w) = Returned (Some payment) ->
  orders (db w) !! Payment.order_id payment = Some order ->
  Order.status order' = OrderStatus.paid ->
  Order.id order' = Order.id order ->
  payments (db w1)
  = upsert_payment
      (apply_optional
         (str_or (wh_payment_id result) (Payment.external_id payment))
         (wh_raw_data result)
         (Payment.set_captured_at (clock w)
            (Payment.set_status PaymentStatus.completed payment)))
      (payments (db w)) ->
  orders (db w1) = <[Order.id order := order']> (orders (db w)) ->
  forall p o,
    fst (locate_payment result code w1) = Returned (Some p) ->
    orders (db w1) !! Payment.order_id p = Some o ->
    Order.status o <> OrderStatus.pending_payment.
Proof.
  intros Hkeyed Hloc Ho Hpaid Hid Hpay Hord p o Hloc1 Ho1.
  set (k := Payment.order_id payment) in *.
  assert (Hk : Order.id order = k) by exact (Hkeyed _ _ Ho).
  set (P1' := apply_optional
                (str_or (wh_payment_id result) (Payment.external_id payment))
                (wh_raw_data result)
                (Payment.set_captured_at (clock w)
                   (Payment.set_status PaymentStatus.completed payment)))
    in *.
  assert (HP1' : Payment.order_id P1' = k)
    by (unfold P1'; rewrite apply_optional_order_id; reflexivity).
  assert (Hsame : Payment.order_id p = k).
  { apply locate_payment_found in Hloc as
        [[Htr Hf]|[Hno (k0 & order0 & Href & Hord0 & Hhead)]];
      apply locate_payment_found in Hloc1 as
        [[Htr1 Hf1]|[Hno1 (k1 & order1 & Href1 & Hord1 & Hhead1)]].
    - (* both by external id *)
      assert (Hin : p ∈ filter
                      (fun q => Payment.external_id q
                                = str_or (wh_payment_id result) "")
                      (payments (db w1)))
        by (rewrite Hf1; apply list_elem_of_here).
      apply list_elem_of_filter in Hin as [Hext Hin].
      rewrite Hpay in Hin. apply elem_of_upsert in Hin as [->|Hin];
        [exact HP1'|].
      assert (Hin0 : p ∈ filter
                       (fun q => Payment.external_id q
                                 = str_or (wh_payment_id result) "")
                       (payments (db w)))
        by (apply list_elem_of_filter; split; assumption).
      rewrite Hf in Hin0. apply list_elem_of_singleton in Hin0.
      subst p. reflexivity.
    - (* first by external id, then by order: impossible *)
      exfalso. destruct Hno1 as [Hno1|Hno1]; [congruence|].
      assert (Hin : P1' ∈ filter
                      (fun q => Payment.external_id q
                                = str_or (wh_payment_id result) "")
                      (payments (db w1))).
      { apply list_elem_of_filter. split.
        - destruct (str_or_truthy _ (Payment.external_id payment) Htr)
            as [Heq Hne].
          unfold P1'. rewrite apply_optional_external_id; rewrite Heq;
            [reflexivity|exact Hne].
        - rewrite Hpay. apply upsert_elem. }
      rewrite Hno1 in Hin. inversion Hin.
    - (* first by order, then by external id *)
      assert (Hin : p ∈ filter
                      (fun q => Payment.external_id q
                                = str_or (wh_payment_id result) "")
                      (payments (db w1)))
        by (rewrite Hf1; apply list_elem_of_here).
      apply list_elem_of_filter in Hin as [Hext Hin].
      rewrite Hpay in Hin. apply elem_of_upsert in Hin as [->|Hin];
        [exact HP1'|].
      exfalso. destruct Hno as [Hno|Hno]; [congruence|].
      assert (Hin0 : p ∈ filter
                       (fun q => Payment.external_id q
                                 = str_or (wh_payment_id result) "")
                       (payments (db w)))
        by (apply list_elem_of_filter; split; assumption).
      rewrite Hno in Hin0. inversion Hin0.
    - (* both by order *)
      rewrite Href in Href1. injection Href1 as <-.
      apply head_filter_holds in Hhead as [_ (Hp0 & _)].
      apply head_filter_holds in Hhead1 as [_ (Hp1 & _)].
      assert (Hk0 : k0 = k).
      { rewrite <- (Hkeyed _ _ Hord0). symmetry. exact Hp0. }
      subst k0. rewrite Hp1.
      rewrite Hord, Hk, lookup_insert_eq in Hord1.
      injection Hord1 as <-. rewrite Hid. exact Hk. }
  rewrite Hsame, Hord, Hk, lookup_insert_eq in Ho1.
  injection Ho1 as <-. rewrite Hpaid. discriminate.
Qed.

(** C4, as the code has it.  A completed notification is delivered twice.
    When the first delivery is answered with success, it has found a payment
    whose order was awaiting payment, saved that order as [paid] exactly
    once, and written exactly one stock decrement for every order line
    whose product tracks inventory and whose stock covers the ordered
    quantity; a tracked line the stock does not cover is passed over, its
    product keeps the stock it had, and the order is paid all the same.
    The second delivery of the same notification is answered with a failure
    response and does nothing to stock or orders: its journal holds no
    stock write and no order save.  The status history is not written by
    either delivery.  Order rows are stored under their own primary
    keys. *)
Theorem duplicate_completed_webhook_applied_once
    (code : string) (request : HttpRequest) (provider : Provider.t)
    (result : PaymentWebhookResult) (w : World)
    (d1 : pydict) (w1 : World) :
  registry w !! code = Some provider ->
  Provider.validate_webhook_signature provider request = Returned true ->
  Provider.handle_webhook provider request = Returned result ->
  wh_success result = true ->
  wh_status result = "completed" ->
  keyed_by_id (db w) ->
  PaymentService.process_webhook code request w = (Returned d1, w1) ->
  success_response d1 ->
  exists payment order d2 w2 j1 j2,
    let lines := items_select_related_product (db w) order in
    orders (db w) !! Payment.order_id payment = Some order /\
    Order.status order = OrderStatus.pending_payment /\
    (* the first delivery *)
    journal w1 = journal w ++ j1 /\
    order_saves j1 = [(Order.id order, OrderStatus.paid)] /\
    stock_writes j1
    = map (fun ip => (line_product_id ip,
                      Product.stock_quantity ip.2 - OrderItem.quantity ip.1))
        (covered lines) /\
    Order.status <$> orders (db w1) !! Order.id order
    = Some OrderStatus.paid /\
    status_history (db w1) = status_history (db w) /\
    (NoDup (map line_product_id lines) ->
     forall ip, ip ∈ lines ->
       products (db w1) !! line_product_id ip
       = Some (if covers ip then destocked ip else ip.2)) /\
    (* the second delivery *)
    PaymentService.process_webhook code request w1 = (Returned d2, w2) /\
    failure_response d2 /\
    journal w2 = journal w1 ++ j2 /\
    order_saves j2 = [] /\
    stock_writes j2 = [] /\
    products (db w2) = products (db w1) /\
    orders (db w2) = orders (db w1) /\
    status_history (db w2) = status_history (db w1).
Proof.
  intros Hreg Hsig Hhook Hok Hstatus Hkeyed Hrun Hsucc.
  destruct (process_webhook_success code request provider result w d1 w1
              Hreg Hsig Hhook Hok Hstatus Hrun Hsucc)
    as (payment & order & order' & j1 & Hloc & Hord0 & Hpend & Hpaid & Hid
        & Hreg1 & Hpay1 & Hord1 & Hhist1 & Hprod1 & Hj1 & Htr1 & Hst1).
  assert (Hreg1' : registry w1 !! code = Some provider)
    by (rewrite Hreg1; exact Hreg).
  destruct (process_webhook_quiet code request provider result w1
              Hreg1' Hsig Hhook Hok Hstatus
              (redelivery_finds_paid_order result code w w1 payment order
                 order' Hkeyed Hloc Hord0 Hpaid Hid Hpay1 Hord1))
    as (d2 & w2 & j2 & Hrun2 & Hfail2 & Hprod2 & Hord2 & Hhist2 & Hj2
        & Hst2 & Htr2).
  exists payment, order, d2, w2, j1, j2. cbv zeta.
  split; [exact Hord0|]. split; [exact Hpend|].
  split; [exact Hj1|]. split; [exact Htr1|]. split; [exact Hst1|].
  split; [rewrite Hord1, lookup_insert_eq; cbn; rewrite Hpaid; reflexivity|].
  split; [exact Hhist1|].
  split.
  { intros Hnd ip Hip. rewrite Hprod1.
    pose proof (fold_store_lookup covers destocked _ (products (db w)) ip
                  ip.2 Hnd Hip (select_related_lookup _ _ _ Hip)) as Hlook.
    cbv beta in Hlook. rewrite Hlook.
    destruct (covers ip); reflexivity. }
  split; [exact Hrun2|]. split; [exact Hfail2|]. split; [exact Hj2|].
  split; [exact Htr2|]. split; [exact Hst2|]. auto.
Qed.

(** C4 fails as stated: a tracked line gets no decrement when the stock
    does not cover it.  Product A tracks inventory and has one unit in
    stock; the order asks for two.  The completed notification is answered
    with success and the order is paid, yet the only stock write is that of
    product B: product A, though tracked, is not decremented and keeps its
    one unit. *)
Lemma completed_webhook_skips_uncovered_tracked_line :
  let w := scarce_world [example_payment PaymentStatus.pending]
             (Returned completed_hook) in
  let order := example_order OrderStatus.pending_payment in
  exists d w1,
    PaymentService.process_webhook "dummy" "{}" w = (Returned d, w1) /\
    d !! "success" = Some (PyBool true) /\
    Order.status <$> orders (db w1) !! "o-1" = Some OrderStatus.paid /\
    map line_product_id (tracked (items_select_related_product (db w) order))
    = ["p-A"; "p-B"] /\
    stock_writes (journal w1) = [("p-B", 2)] /\
    products (db w1) !! "p-A" = Some (Product.mk 1 true).
Proof.
  eexists _, _. split; [vm_compute; reflexivity|].
  vm_compute. repeat split; reflexivity.
Qed.

(** ** The statements at the fixtures *)

(** The specification's round trip: items of 20.00 and 5.00 give a subtotal
    of 25.00, tax 5.25, shipping 5.95 and a grand total of 36.20. *)
Lemma calculate_totals_exact_witness :
  Forall money_field
    (map OrderItem.line_total
       (Order_items (example_db OrderStatus.draft [])
          (example_order OrderStatus.draft))) /\
  money_field (Order.discount_total (example_order OrderStatus.draft)) /\
  (Decimal.value
     (Order.subtotal
        (calculate_totals (example_db OrderStatus.draft [])
           (example_order OrderStatus.draft))) == 25)%Q /\
  (Decimal.value
     (Order.tax_total
        (calculate_totals (example_db OrderStatus.draft [])
           (example_order OrderStatus.draft))) == 525 # 100)%Q /\
  Order.shipping_total
    (calculate_totals (example_db OrderStatus.draft [])
       (example_order OrderStatus.draft)) = Decimal.cents 595 /\
  (Decimal.value
     (Order.grand_total
        (calculate_totals (example_db OrderStatus.draft [])
           (example_order OrderStatus.draft))) == 3620 # 100)%Q.
Proof.
  assert (H1 : Forall money_field
                 (map OrderItem.line_total
                    (Order_items (example_db OrderStatus.draft [])
                       (example_order OrderStatus.draft)))).
  { repeat constructor. }
  assert (H2 : Z.of_nat
                 (length
                    (map OrderItem.line_total
                       (Order_items (example_db OrderStatus.draft [])
                          (example_order OrderStatus.draft))))
               <= 10 ^ 15).
  { apply Z.leb_le. reflexivity. }
  assert (H3 : money_field
                 (Order.discount_total (example_order OrderStatus.draft))).
  { repeat constructor. }
  destruct (calculate_totals_exact (example_db OrderStatus.draft [])
              (example_order OrderStatus.draft) H1 H2 H3)
    as (Hsub & Htax & _ & Hship & Hgrand & _).
  split; [exact H1|]. split; [exact H3|].
  split; [rewrite Hsub; vm_compute; reflexivity|].
  split; [rewrite Htax, Hsub; vm_compute; reflexivity|].
  split; [apply Hship; rewrite Hsub; vm_compute; reflexivity|].
  rewrite Hgrand, Htax, Hsub.
  rewrite (Hship ltac:(rewrite Hsub; vm_compute; reflexivity)).
  vm_compute. reflexivity.
Defined.

(** Shipping an order that is still a draft. *)
Lemma invalid_transition_witness :
  (Order.status (example_order OrderStatus.draft)
   ∉ Transition.source Transition.ship) /\
  method Transition.ship (example_order OrderStatus.draft)
    (example_world OrderStatus.draft [] (Returned completed_hook))
  = (Raised (InvalidTransition OrderStatus.draft "ship"
               [OrderStatus.processing]),
     example_world OrderStatus.draft [] (Returned completed_hook)).
Proof.
  assert (H : Order.status (example_order OrderStatus.draft)
              ∉ Transition.source Transition.ship)
    by (apply (bool_decide_eq_false_1 _); reflexivity).
  split; [exact H|].
  exact (invalid_transition_fails_status_unchanged Transition.ship
           (example_order OrderStatus.draft) _ H).
Defined.


(** Initiating a payment for the example order while it is a draft. *)
Lemma initiate_payment_rejected_witness :
  exists w',
    PaymentService.initiate_payment (example_order OrderStatus.draft) "dummy"
      "https://shop.example/return/" "https://shop.example/notify/"
      (example_world OrderStatus.draft [] (Returned completed_hook))
    = (Raised (ValueError "Order ORD-202401-0001 is not ready for payment"),
       w') /\
    payments (db w') = [].
Proof.
  destruct (initiate_payment_rejected (example_order OrderStatus.draft)
              "dummy" "https://shop.example/return/"
              "https://shop.example/notify/"
              (example_world OrderStatus.draft [] (Returned completed_hook)))
    as (w' & Hrun & _ & _ & Hpay & _).
  - left. discriminate.
  - exists w'. split; [exact Hrun|]. rewrite Hpay. reflexivity.
Defined.

(** Canceling the example order once it is paid: the stock of product A
    goes from 10 to 12, that of product B from 3 to 4, product C stays. *)
Lemma cancel_order_witness :
  exists o' w',
    OrderService.cancel_order (example_order OrderStatus.paid) "changed mind"
      (example_world OrderStatus.paid [] (Returned completed_hook))
    = (Returned o', w') /\
    Order.status o' = OrderStatus.canceled /\
    products (db w') !! "p-A" = Some (Product.mk 12 true) /\
    products (db w') !! "p-B" = Some (Product.mk 4 true) /\
    products (db w') !! "p-C" = Some (Product.mk 7 true).
Proof.
  destruct (cancel_order_restores_stock (example_order OrderStatus.paid)
              "changed mind"
              (example_world OrderStatus.paid [] (Returned completed_hook)))
    as [Hpaid _].
  destruct Hpaid as (o' & w' & Hrun & Hst & _ & _ & Hlines & Hother).
  - apply (bool_decide_eq_true_1 _). reflexivity.
  - exists o', w'. split; [exact Hrun|]. split; [exact Hst|].
    assert (Hl : items_select_related_product
                   (db (example_world OrderStatus.paid []
                          (Returned completed_hook)))
                   (example_order OrderStatus.paid)
                 = [(OrderItem.mk "o-1" "p-A" 2 (Decimal.cents 1000)
                       (Decimal.cents 2000), Product.mk 10 true);
                    (OrderItem.mk "o-1" "p-B" 1 (Decimal.cents 500)
                       (Decimal.cents 500), Product.mk 3 true)])
      by reflexivity.
    assert (Hnd : NoDup
                    (map line_product_id
                       (items_select_related_product
                          (db (example_world OrderStatus.paid []
                                 (Returned completed_hook)))
                          (example_order OrderStatus.paid)))).
    { rewrite Hl. apply (bool_decide_eq_true_1 _). reflexivity. }
    split.
    { apply (Hlines Hnd
               (OrderItem.mk "o-1" "p-A" 2 (Decimal.cents 1000)
                  (Decimal.cents 2000), Product.mk 10 true)).
      rewrite Hl. apply list_elem_of_here. }
    split.
    { apply (Hlines Hnd
               (OrderItem.mk "o-1" "p-B" 1 (Decimal.cents 500)
                  (Decimal.cents 500), Product.mk 3 true)).
      rewrite Hl. apply list_elem_of_further, list_elem_of_here. }
    rewrite (Hother "p-C"); [reflexivity|].
    unfold tracked. rewrite Hl.
    apply (bool_decide_eq_false_1 _). reflexivity.
Defined.

(** The completed notification for the example order, delivered twice: the
    first delivery takes the stock of product A from 10 to 8 and that of
    product B from 3 to 2 and pays the order; the second changes nothing. *)
Lemma duplicate_webhook_witness :
  exists d1 w1 d2 w2,
    PaymentService.process_webhook "dummy" "{}"
      (example_world OrderStatus.pending_payment
         [example_payment PaymentStatus.pending] (Returned completed_hook))
    = (Returned d1, w1) /\
    success_response d1 /\
    PaymentService.process_webhook "dummy" "{}" w1 = (Returned d2, w2) /\
    failure_response d2 /\
    products (db w2) = products (db w1) /\
    orders (db w2) = orders (db w1) /\
    status_history (db w2) = status_history (db w1) /\
    status_history (db w2) = [] /\
    products (db w1) !! "p-A" = Some (Product.mk 8 true) /\
    products (db w1) !! "p-B" = Some (Product.mk 2 true).
Proof.
  destruct (PaymentService.process_webhook "dummy" "{}"
              (example_world OrderStatus.pending_payment
                 [example_payment PaymentStatus.pending]
                 (Returned completed_hook)))
    as [r1 w1] eqn:Hrun.
  assert (Hr1 : r1 = Returned (dict [("success", PyBool true);
                                     ("payment_id", PyStr "pay-1");
                                     ("status", PyStr "completed")])).
  { change r1 with (fst (r1, w1)). rewrite <- Hrun. vm_compute. reflexivity. }
  subst r1.
  assert (Hkeyed : keyed_by_id
                     (db (example_world OrderStatus.pending_payment
                            [example_payment PaymentStatus.pending]
                            (Returned completed_hook)))).
  { intros k o Hko.
    change (({[ "o-1" := example_order OrderStatus.pending_payment ]}
             : gmap pk Order.t) !! k = Some o) in Hko.
    apply lookup_singleton_Some in Hko as [<- <-]. reflexivity. }
  destruct (duplicate_completed_webhook_applied_once "dummy" "{}"
              (example_provider (Returned completed_hook)) completed_hook
              (example_world OrderStatus.pending_payment
                 [example_payment PaymentStatus.pending]
                 (Returned completed_hook))
              _ w1 eq_refl eq_refl eq_refl eq_refl eq_refl Hkeyed Hrun
              eq_refl)
    as (payment & order & d2 & w2 & j1 & j2 & Hord & Hpend & Hj1 & Htr1
        & Hst1 & Hpaid & Hh1 & Hlines & Hrun2 & Hfail & Hj2 & Htr2 & Hst2
        & Hprod & Hords & Hh2).
  eexists _, w1, d2, w2.
  split; [reflexivity|]. split; [reflexivity|].
  split; [exact Hrun2|]. split; [exact Hfail|]. split; [exact Hprod|].
  split; [exact Hords|]. split; [exact Hh2|].
  split; [rewrite Hh2, Hh1; reflexivity|].
  assert (Hw1 : products (db w1)
                = products (db (snd (PaymentService.process_webhook "dummy"
                     "{}"
                     (example_world OrderStatus.pending_payment
                        [example_payment PaymentStatus.pending]
                        (Returned completed_hook))))))
    by (rewrite Hrun; reflexivity).
  rewrite Hw1. split; vm_compute; reflexivity.
Defined.

(** ** The lifecycle only moves forward *)

Lemma transition_returned_status
    (tr : Transition.t) (body : Order.t -> M Order.t)
    (o o' : Order.t) (w w' : World) :
  transition tr body o w = (Returned o', w') ->
  Order.status o ∈ Transition.source tr /\
  Order.status o' = Transition.target tr.
Proof.
  intros Hrun.
  destruct (decide (Order.status o ∈ Transition.source tr)) as [Hin|Hout].
  - split; [exact Hin|].
    rewrite (transition_inside_sources _ _ _ _ Hin) in Hrun.
    destruct (body o w) as [[o1|e] w1]; [|discriminate].
    injection Hrun as <- _. reflexivity.
  - rewrite (transition_outside_sources _ _ _ _ Hout) in Hrun. discriminate.
Qed.

Lemma method_returned_status
    (tr : Transition.t) (o o' : Order.t) (w w' : World) :
  method tr o w = (Returned o', w') ->
  Order.status o ∈ Transition.source tr /\
  Order.status o' = Transition.target tr.
Proof.
  destruct tr; apply transition_returned_status.
Qed.

(** X1. Whenever a transition method returns, the order has moved strictly
    forward in the lifecycle, and it did not start from [delivered],
    [canceled] or [refunded]: no sequence of transitions ever brings an order
    back to a status it has left, and those three statuses are final. *)
Theorem transitions_only_move_forward
    (tr : Transition.t) (o o' : Order.t) (w w' : World) :
  method tr o w = (Returned o', w') ->
  (lifecycle_rank (Order.status o) < lifecycle_rank (Order.status o'))%nat /\
  Order.status o
  ∉ [OrderStatus.delivered; OrderStatus.canceled; OrderStatus.refunded].
Proof.
  intros Hrun.
  destruct (method_returned_status _ _ _ _ _ Hrun) as [Hin Htgt].
  rewrite Htgt. clear Hrun Htgt.
  apply list_elem_of_In in Hin.
  split.
  - destruct tr; simpl in Hin; intuition (subst; simpl; try lia);
      match goal with H : _ = Order.status o |- _ => rewrite <- H end;
      simpl; lia.
  - intros Hbad. apply list_elem_of_In in Hbad.
    destruct tr; simpl in Hin, Hbad; intuition congruence.
Qed.
(** X2. [submit] on a draft whose terms are not accepted raises
    [ValueError('Terms must be accepted')]; with the terms accepted but no
    items it raises [ValueError('Order must have items')].  The terms are
    checked first.  In both cases nothing is written: the order stays a
    draft and no history row is recorded. *)
Theorem submit_rejects_unready_draft (o : Order.t) (w : World) :
  Order.status o = OrderStatus.draft ->
  Order.terms_accepted o = false \/ items_exist (db w) o = false ->
  submit o w
  = (Raised (ValueError (if Order.terms_accepted o
                         then "Order must have items"
                         else "Terms must be accepted")), w).
Proof.
  intros Hst Hbad.
  assert (Hin : Order.status o ∈ Transition.source Transition.submit)
    by (rewrite Hst; apply list_elem_of_here).
  unfold submit. rewrite (transition_inside_sources _ _ _ _ Hin).
  destruct (Order.terms_accepted o) eqn:Hterms; cbn [negb].
  - destruct Hbad as [Hbad|Hbad]; [discriminate|].
    rewrite run_bind. unfold get_db at 1. cbv beta iota.
    rewrite Hbad. reflexivity.
  - reflexivity.
Qed.

Lemma transition_rows
    (tr : Transition.t) (body : Order.t -> M Order.t)
    (o o' : Order.t) (w w' : World) :
  (forall o1 w1, body o w = (Returned o1, w1) ->
                 w1 = w /\ Order.id o1 = Order.id o) ->
  transition tr body o w = (Returned o', w') ->
  Order.id o' = Order.id o /\
  orders (db w') = orders (db w) /\
  order_items (db w') = order_items (db w) /\
  products (db w') = products (db w) /\
  payments (db w') = payments (db w) /\
  transactions (db w') = transactions (db w) /\
  status_history (db w') = status_history (db w).
Proof.
  intros Hbody Hrun.
  destruct (decide (Order.status o ∈ Transition.source tr)) as [Hin|Hout].
  - rewrite (transition_inside_sources _ _ _ _ Hin) in Hrun.
    destruct (body o w) as [[o1|e] w1] eqn:Eb; [|discriminate].
    destruct (Hbody o1 w1 eq_refl) as [-> Hid].
    injection Hrun as <- <-. simpl. auto 10.
  - rewrite (transition_outside_sources _ _ _ _ Hout) in Hrun. discriminate.
Qed.

(** X3. A transition method does not persist the order.  When it returns,
    the orders table is what it was, so the stored row still carries the old
    status until the caller saves the returned order; items, products,
    payments, transactions and the status history are untouched as well. *)
Theorem transition_leaves_order_row_unsaved
    (tr : Transition.t) (o o' : Order.t) (w w' : World) :
  method tr o w = (Returned o', w') ->
  Order.id o' = Order.id o /\
  orders (db w') = orders (db w) /\
  order_items (db w') = order_items (db w) /\
  products (db w') = products (db w) /\
  payments (db w') = payments (db w) /\
  transactions (db w') = transactions (db w) /\
  status_history (db w') = status_history (db w).
Proof.
  intros Hrun. destruct tr; simpl in Hrun;
    (eapply transition_rows; [|exact Hrun]);
    intros o1 w1; unfold bind, timezone_now, get_db, ret, raise; simpl.
  - destruct (Order.terms_accepted o); simpl; [|discriminate].
    destruct (items_exist (db w) o); simpl; [|discriminate].
    intros [= <- <-]. auto.
  - intros [= <- <-]. auto.
  - intros [= <- <-]. auto.
  - intros [= <- <-]. auto.
  - intros [= <- <-]. auto.
  - intros [= <- <-]. auto.
  - intros [= <- <-]. auto.
Qed.

(** X4. [cancel_order] refuses an order that is shipped, delivered, canceled
    or refunded: it raises the [ValueError] naming the order number and the
    status, and leaves every row, visible and durable, as it was; no stock
    is written and no provider is called. *)
Theorem cancel_order_rejects_closed_order
    (order : Order.t) (reason : string) (w : World) :
  Order.status order ∈ [OrderStatus.shipped; OrderStatus.delivered;
                        OrderStatus.canceled; OrderStatus.refunded] ->
  exists w',
    OrderService.cancel_order order reason w
    = (Raised (ValueError ("Order " +:+ Order.number order
                           +:+ " cannot be canceled from status "
                           +:+ OrderStatus.str (Order.status order))), w') /\
    db w' = db w /\
    committed w' = committed w /\
    atomic_depth w' = atomic_depth w /\
    provider_calls w' = provider_calls w /\
    journal w' = journal w ++ [AtomicEnter; AtomicRollback].
Proof.
  intros Hst.
  assert (Hno : Order.status order
                ∉ [OrderStatus.draft; OrderStatus.pending_payment;
                   OrderStatus.paid; OrderStatus.processing])
    by (apply (status_not_in_disjoint _ _ _) with (2 := Hst); reflexivity).
  unfold OrderService.cancel_order. rewrite run_atomic.
  rewrite (bool_decide_eq_false_2 _ Hno). cbn [negb].
  unfold raise at 1. cbv beta iota.
  eexists. split; [reflexivity|]. world_simpl.
  rewrite <- app_assoc. auto 10.
Qed.

(** X5. [process_payment_success] refuses an order that is not awaiting
    payment: it raises the [ValueError] naming the order number, the order
    is not marked paid, no stock is written and every row is as it was. *)
Theorem process_payment_success_rejects_unless_pending
    (order : Order.t) (w : World) :
  Order.status order <> OrderStatus.pending_payment ->
  exists w',
    OrderService.process_payment_success order w
    = (Raised (ValueError ("Order " +:+ Order.number order
                           +:+ " is not in pending_payment status")), w') /\
    db w' = db w /\
    committed w' = committed w /\
    atomic_depth w' = atomic_depth w /\
    journal w' = journal w ++ [AtomicEnter; AtomicRollback].
Proof.
  intros Hst.
  unfold OrderService.process_payment_success. rewrite run_atomic.
  rewrite (bool_decide_eq_false_2 _ Hst). cbn [negb].
  unfold raise at 1. cbv beta iota.
  eexists. split; [reflexivity|]. world_simpl.
  rewrite <- app_assoc. auto 10.
Qed.
(** ** Stock across payment and cancellation *)

(** [process_payment_success] on an order awaiting payment, at any nesting
    depth: what the rows are when it returns. *)
Lemma process_payment_success_rows (order : Order.t) (w : World) :
  Order.status order = OrderStatus.pending_payment ->
  let lines := items_select_related_product (db w) order in
  exists order' w',
    OrderService.process_payment_success order w = (Returned order', w') /\
    Order.status order' = OrderStatus.paid /\
    Order.id order' = Order.id order /\
    Order.paid_at order' = Some (clock w) /\
    orders (db w') = <[Order.id order := order']> (orders (db w)) /\
    products (db w')
    = fold_left (fun rows ip =>
                   if covers ip
                   then store_stock rows (line_product_id ip) (destocked ip)
                   else rows)
        lines (products (db w)) /\
    payments (db w') = payments (db w) /\
    transactions (db w') = transactions (db w) /\
    order_items (db w') = order_items (db w) /\
    atomic_depth w' = atomic_depth w /\
    provider_calls w' = provider_calls w /\
    status_history (db w') = status_history (db w).
Proof.
  intros Hpend lines.
  assert (Hsrc : Order.status order
                 ∈ Transition.source Transition.mark_as_paid)
    by (rewrite Hpend; apply list_elem_of_here).
  unfold OrderService.process_payment_success. rewrite run_atomic.
  rewrite (bool_decide_eq_true_2 _ Hpend). cbn [negb].
  rewrite run_bind. unfold mark_as_paid.
  rewrite (transition_inside_sources _ _ _ _ Hsrc).
  rewrite run_bind. unfold timezone_now at 1. world_simpl.
  unfold ret at 1. cbv beta iota zeta.
  rewrite run_bind. unfold Order_save at 1.
  rewrite run_bind. unfold write at 1. unfold ret at 1. cbv beta iota.
  rewrite run_bind. unfold get_db at 1. cbv beta iota.
  rewrite run_bind.
  rewrite (for_each_ext _
             (fun ip => if covers ip
                        then Product_save_stock (line_product_id ip)
                               (destocked ip)
                        else ret tt))
    by (intros [item product]; unfold covers; cbn [fst snd];
        destruct (Product.track_inventory product);
        [destruct (_ >=? _)|]; reflexivity).
  match goal with
  | |- context [for_each ?ls ?body ?w0] =>
      assert (Hls : ls = lines);
      [|rewrite Hls;
        destruct (stock_loop covers destocked lines w0)
          as (w1 & Hrun & Hprod & Hj & Hord & Hit & Hh & Hpay & Htx & Hcom
              & Hdep & Hcalls & Hclk & Hu & Hreg & Hgen);
        [simpl; discriminate|rewrite Hrun]]
  end.
  { apply select_related_same; try reflexivity.
    simpl. destruct (bool_decide _); reflexivity. }
  unfold ret. cbv beta iota.
  simpl in Hprod, Hj, Hord, Hit, Hh, Hpay, Htx, Hcom, Hdep, Hcalls.
  eexists _, _. split; [reflexivity|].
  split; [destruct (bool_decide _); reflexivity|].
  split; [destruct (bool_decide _); reflexivity|].
  split; [destruct (bool_decide _); reflexivity|].
  destruct (atomic_depth w) as [|n] eqn:Hd; world_simpl;
    rewrite Hprod, Hord, Hit, Hpay, Htx, Hcalls, Hh;
    (split; [destruct (bool_decide _); reflexivity|]);
    auto 10.
Qed.
Lemma fold_store_row (sel : line -> bool) (new : line -> Product.t)
    (lines : list line) (rows : gmap pk Product.t) (id : pk)
    (p0 : Product.t) :
  rows !! id = Some p0 ->
  exists p',
    fold_left (fun rows ip =>
                 if sel ip then store_stock rows (line_product_id ip) (new ip)
                 else rows) lines rows !! id = Some p' /\
    Product.track_inventory p' = Product.track_inventory p0 /\
    (Product.stock_quantity p' = Product.stock_quantity p0
     \/ exists ip, ip ∈ lines /\ sel ip = true /\ line_product_id ip = id /\
          Product.stock_quantity p' = Product.stock_quantity (new ip)).
Proof.
  revert rows p0. induction lines as [|ip lines IH]; intros rows p0 Hrow.
  - exists p0. cbn [fold_left]. auto.
  - cbn [fold_left]. destruct (sel ip) eqn:Hsel.
    + destruct (decide (line_product_id ip = id)) as [Heq|Hne].
      * destruct (IH (store_stock rows (line_product_id ip) (new ip))
                    (Product.set_stock_quantity
                       (Product.stock_quantity (new ip)) p0))
          as (p' & Hlook & Htrack & Hstock).
        { unfold store_stock. rewrite Heq, lookup_alter_eq, Hrow.
          reflexivity. }
        exists p'. split; [exact Hlook|]. split; [exact Htrack|].
        right. destruct Hstock as [Hstock|(ip' & Hin & Hs & Hid & Hstock)].
        -- exists ip. split; [apply list_elem_of_here|]. auto.
        -- exists ip'. split; [apply list_elem_of_further, Hin|]. auto.
      * destruct (IH (store_stock rows (line_product_id ip) (new ip)) p0)
          as (p' & Hlook & Htrack & Hstock).
        { unfold store_stock. rewrite lookup_alter_ne by exact Hne.
          exact Hrow. }
        exists p'. split; [exact Hlook|]. split; [exact Htrack|].
        destruct Hstock as [Hstock|(ip' & Hin & Hs & Hid & Hstock)];
          [left; exact Hstock|].
        right. exists ip'. split; [apply list_elem_of_further, Hin|]. auto.
    + destruct (IH rows p0 Hrow) as (p' & Hlook & Htrack & Hstock).
      exists p'. split; [exact Hlook|]. split; [exact Htrack|].
      destruct Hstock as [Hstock|(ip' & Hin & Hs & Hid & Hstock)];
        [left; exact Hstock|].
      right. exists ip'. split; [apply list_elem_of_further, Hin|]. auto.
Qed.

(** X6. [process_payment_success] on an order awaiting payment marks it paid
    at the current time and saves it, and it never oversells: every product
    row keeps its inventory flag, and its stock is either what it was or
    what it was less the quantity of one of the order's lines, and then only
    if the stock covered that quantity; a line the stock does not cover is
    passed over and the order is paid all the same.  A stock that was not
    negative is not negative afterwards. *)
Theorem process_payment_success_never_oversells
    (order : Order.t) (w : World) :
  Order.status order = OrderStatus.pending_payment ->
  exists order' w',
    OrderService.process_payment_success order w = (Returned order', w') /\
    Order.status order' = OrderStatus.paid /\
    Order.paid_at order' = Some (clock w) /\
    orders (db w') !! Order.id order = Some order' /\
    forall id p,
      products (db w) !! id = Some p ->
      exists p',
        products (db w') !! id = Some p' /\
        Product.track_inventory p' = Product.track_inventory p /\
        (0 <= Product.stock_quantity p -> 0 <= Product.stock_quantity p') /\
        (Product.stock_quantity p' = Product.stock_quantity p
         \/ exists ip,
              ip ∈ items_select_related_product (db w) order /\
              line_product_id ip = id /\
              Product.track_inventory p = true /\
              OrderItem.quantity ip.1 <= Product.stock_quantity p /\
              Product.stock_quantity p'
              = Product.stock_quantity p - OrderItem.quantity ip.1).
Proof.
  intros Hpend.
  destruct (process_payment_success_rows order w Hpend)
    as (order' & w' & Hrun & Hst & Hid & Hpaid & Hord & Hprod & _).
  exists order', w'. split; [exact Hrun|]. split; [exact Hst|].
  split; [exact Hpaid|].
  split; [rewrite Hord; apply lookup_insert_eq|].
  intros id p Hp.
  destruct (fold_store_row covers destocked
              (items_select_related_product (db w) order)
              (products (db w)) id p Hp)
    as (p' & Hlook & Htrack & Hstock).
  exists p'. rewrite Hprod. split; [exact Hlook|]. split; [exact Htrack|].
  assert (Hcases :
            Product.stock_quantity p' = Product.stock_quantity p
            \/ exists ip,
                 ip ∈ items_select_related_product (db w) order /\
                 line_product_id ip = id /\
                 Product.track_inventory p = true /\
                 OrderItem.quantity ip.1 <= Product.stock_quantity p /\
                 Product.stock_quantity p'
                 = Product.stock_quantity p - OrderItem.quantity ip.1).
  { destruct Hstock as [Hstock|(ip & Hin & Hcov & Hipid & Hstock)];
      [left; exact Hstock|].
    right. exists ip.
    pose proof (select_related_lookup _ _ _ Hin) as Hrow.
    rewrite Hipid, Hp in Hrow. injection Hrow as Hrow.
    unfold covers in Hcov. apply andb_true_iff in Hcov as [Htr Hge].
    rewrite <- Hrow in Htr, Hge. apply Z.geb_le in Hge.
    unfold destocked in Hstock. cbn [Product.set_stock_quantity
      Product.stock_quantity] in Hstock. rewrite <- Hrow in Hstock.
    auto 10. }
  split; [|exact Hcases].
  intros Hnn. destruct Hcases as [->|(ip & _ & _ & _ & Hle & ->)]; lia.
Qed.
(** [cancel_order] on a paid or processing order: what the rows are when it
    returns. *)
Lemma cancel_order_rows (order : Order.t) (reason : string) (w : World) :
  Order.status order ∈ [OrderStatus.paid; OrderStatus.processing] ->
  let lines := items_select_related_product (db w) order in
  exists order' w',
    OrderService.cancel_order order reason w = (Returned order', w') /\
    Order.status order' = OrderStatus.canceled /\
    Order.id order' = Order.id order /\
    orders (db w') = <[Order.id order := order']> (orders (db w)) /\
    products (db w')
    = fold_left (fun rows ip =>
                   if Product.track_inventory ip.2
                   then store_stock rows (line_product_id ip) (restocked ip)
                   else rows)
        lines (products (db w)).
Proof.
  intros Hst lines.
  assert (Hsrc : Order.status order ∈ Transition.source Transition.cancel)
    by (apply (status_in_wider _ _ _) with (2 := Hst); reflexivity).
  unfold OrderService.cancel_order. rewrite run_atomic.
  rewrite (bool_decide_eq_true_2 _ Hsrc). cbn [negb].
  rewrite run_bind.
  rewrite (bool_decide_eq_true_2 _ Hst).
  rewrite run_bind. unfold get_db at 1. cbv beta iota.
  cbn [db set_depth with_journal].
  fold lines.
  rewrite (for_each_ext _
             (fun ip => if Product.track_inventory ip.2
                        then Product_save_stock (line_product_id ip)
                               (restocked ip)
                        else ret tt))
    by (intros [item product]; reflexivity).
  match goal with
  | |- context [for_each lines ?body ?w0] =>
      destruct (stock_loop (fun ip => Product.track_inventory ip.2)
                  restocked lines w0)
        as (w1 & Hrun & Hprod & Hj & Hord & Hit & Hh & Hpay & Htx & Hcom
            & Hdep & Hcalls & Hclk & Hu & Hreg & Hgen);
      [simpl; discriminate|rewrite Hrun]
  end.
  cbv beta iota. rewrite run_bind.
  unfold cancel. rewrite (transition_inside_sources _ _ _ _ Hsrc).
  unfold ret, Order_save, bind, write. cbv beta iota zeta.
  simpl in Hprod, Hord.
  eexists _, _. split; [reflexivity|].
  split; [destruct (bool_decide _); reflexivity|].
  split; [destruct (bool_decide _); reflexivity|].
  destruct (atomic_depth w); world_simpl; rewrite Hprod, Hord;
    (split; [destruct (bool_decide _); reflexivity|reflexivity]).
Qed.

Lemma fold_store_none (sel : line -> bool) (new : line -> Product.t)
    (lines : list line) (rows : gmap pk Product.t) (id : pk) :
  rows !! id = None ->
  fold_left (fun rows ip =>
               if sel ip then store_stock rows (line_product_id ip) (new ip)
               else rows) lines rows !! id = None.
Proof.
  revert rows. induction lines as [|ip lines IH]; intros rows Hrow;
    [exact Hrow|].
  cbn [fold_left]. apply IH. destruct (sel ip); [|exact Hrow].
  unfold store_stock.
  destruct (decide (line_product_id ip = id)) as [->|Hne].
  - rewrite lookup_alter_eq, Hrow. reflexivity.
  - rewrite lookup_alter_ne by exact Hne. exact Hrow.
Qed.

(** The line as the cancellation finds it after the payment. *)
Lemma lines_after_payment (lines : list line) (rows : gmap pk Product.t)
    (items : list OrderItem.t) :
  NoDup (map line_product_id lines) ->
  (forall it p, it ∈ items -> rows !! OrderItem.product_id it = Some p ->
                (it, p) ∈ lines) ->
  omap (fun it =>
          match fold_left
                  (fun rows ip =>
                     if covers ip
                     then store_stock rows (line_product_id ip) (destocked ip)
                     else rows) lines rows !! OrderItem.product_id it with
          | Some p => Some (it, p)
          | None => None
          end) items
  = map (fun ip => (ip.1, if covers ip then destocked ip else ip.2))
      (omap (fun it =>
               match rows !! OrderItem.product_id it with
               | Some p => Some (it, p)
               | None => None
               end) items).
Proof.
  intros Hnd. induction items as [|it items IH]; intros Hin; [reflexivity|].
  cbn [omap list_omap].
  destruct (rows !! OrderItem.product_id it) as [p|] eqn:Hrow.
  - pose proof (fold_store_lookup covers destocked lines rows (it, p) p Hnd
                  (Hin it p (list_elem_of_here _ _) Hrow) Hrow) as Hlook.
    change (line_product_id (it, p)) with (OrderItem.product_id it) in Hlook.
    rewrite Hlook. cbn [map]. f_equal.
    apply IH. intros it' p' Hit'. apply Hin, list_elem_of_further, Hit'.
  - rewrite (fold_store_none covers destocked lines rows _ Hrow).
    apply IH. intros it' p' Hit'. apply Hin, list_elem_of_further, Hit'.
Qed.

Lemma not_in_selected (sel : line -> bool) (lines : list line) (id : pk) :
  id ∉ map line_product_id lines ->
  id ∉ map line_product_id (filter (fun ip => sel ip = true) lines).
Proof.
  intros Hout Hin. apply Hout.
  apply list_elem_of_fmap in Hin as (x & Hx & Hin).
  apply list_elem_of_filter in Hin as [_ Hin].
  apply list_elem_of_fmap. exists x. auto.
Qed.

(** X7. Paying an order and then cancelling it, with one line per product:
    a product whose stock covered its line is back at its former stock, and
    an untracked product never moved; but a tracked product whose stock did
    not cover its line was passed over at payment and is credited at
    cancellation all the same, so it ends with its former stock plus the
    ordered quantity.  Products outside the order are untouched. *)
Theorem cancel_after_payment_credits_unsold_lines
    (order : Order.t) (reason : string) (w : World) :
  Order.status order = OrderStatus.pending_payment ->
  NoDup (map line_product_id (items_select_related_product (db w) order)) ->
  exists paid w1 canceled w2,
    OrderService.process_payment_success order w = (Returned paid, w1) /\
    OrderService.cancel_order paid reason w1 = (Returned canceled, w2) /\
    Order.status canceled = OrderStatus.canceled /\
    (forall ip,
       ip ∈ items_select_related_product (db w) order ->
       products (db w2) !! line_product_id ip
       = Some (Product.set_stock_quantity (stock_after_pay_and_cancel ip)
                 ip.2)) /\
    (forall id,
       id ∉ map line_product_id (items_select_related_product (db w) order) ->
       products (db w2) !! id = products (db w) !! id).
Proof.
  intros Hpend Hnd.
  set (lines := items_select_related_product (db w) order) in *.
  destruct (process_payment_success_rows order w Hpend)
    as (paid & w1 & Hrun1 & Hst1 & Hid1 & _ & _ & Hprod1 & _ & _ & Hit1 & _).
  fold lines in Hprod1.
  assert (Hpaid : Order.status paid
                  ∈ [OrderStatus.paid; OrderStatus.processing])
    by (rewrite Hst1; apply list_elem_of_here).
  destruct (cancel_order_rows paid reason w1 Hpaid)
    as (canceled & w2 & Hrun2 & Hst2 & _ & _ & Hprod2).
  set (g := fun ip : line =>
              (ip.1, if covers ip then destocked ip else ip.2)).
  assert (Hlines2 : items_select_related_product (db w1) paid = map g lines).
  { unfold items_select_related_product at 1, Order_items.
    rewrite Hprod1, Hit1, Hid1.
    apply lines_after_payment; [exact Hnd|].
    intros it p Hit Hrow. unfold lines, items_select_related_product.
    apply list_elem_of_omap. exists it. split; [exact Hit|].
    rewrite Hrow. reflexivity. }
  rewrite Hlines2 in Hprod2.
  assert (Hids : map line_product_id (map g lines) = map line_product_id lines).
  { rewrite map_map. apply map_ext. intros [it p]. reflexivity. }
  exists paid, w1, canceled, w2.
  split; [exact Hrun1|]. split; [exact Hrun2|]. split; [exact Hst2|].
  split.
  - intros ip Hip.
    assert (Hgin : g ip ∈ map g lines)
      by (apply list_elem_of_fmap; exists ip; auto).
    assert (Hrow : products (db w1) !! line_product_id (g ip) = Some (g ip).2).
    { apply (select_related_lookup (db w1) paid). rewrite Hlines2.
      exact Hgin. }
    pose proof (fold_store_lookup (fun ip => Product.track_inventory ip.2)
                  restocked (map g lines) (products (db w1)) (g ip) (g ip).2
                  ltac:(rewrite Hids; exact Hnd) Hgin Hrow) as Hlook.
    cbv beta in Hlook. rewrite <- Hprod2 in Hlook.
    change (line_product_id (g ip)) with (line_product_id ip) in Hlook.
    rewrite Hlook. f_equal.
    destruct ip as [it [stock track]].
    unfold g, covers, stock_after_pay_and_cancel, restocked, destocked.
    cbn [fst snd Product.track_inventory Product.stock_quantity
         Product.set_stock_quantity].
    destruct track; cbn [andb]; [|reflexivity].
    destruct (stock >=? OrderItem.quantity it);
      cbv [Product.track_inventory Product.stock_quantity
           Product.set_stock_quantity]; f_equal; lia.
  - intros id Hid.
    rewrite Hprod2, fold_store_other
      by (apply not_in_selected; rewrite Hids; exact Hid).
    rewrite Hprod1. apply fold_store_other, not_in_selected, Hid.
Qed.
(** ** Refunded and refundable amounts *)

Lemma sum_amounts_all_some (xs : list decimal) (acc : decimal) :
  sum_amounts acc (map Some xs) = Returned (fold_left Decimal.add xs acc).
Proof.
  revert acc. induction xs as [|x xs IH]; intros acc; [reflexivity|].
  cbn [map sum_amounts fold_left]. apply IH.
Qed.

Lemma sum_amounts_some_none (xs : list (option decimal)) (acc : decimal) :
  None ∈ xs ->
  sum_amounts acc xs = Raised (TypeError "unsupported operand type(s) for +").
Proof.
  revert acc. induction xs as [|[x|] xs IH]; intros acc Hin.
  - inversion Hin.
  - cbn [sum_amounts]. apply IH.
    apply elem_of_cons in Hin as [Hin|Hin]; [discriminate|exact Hin].
  - reflexivity.
Qed.

Lemma all_some_map (xs : list (option decimal)) :
  None ∉ xs -> xs = map Some (omap id xs).
Proof.
  induction xs as [|[x|] xs IH]; intros Hno; [reflexivity| |].
  - cbn. f_equal. apply IH. intros Hin. apply Hno.
    apply list_elem_of_further, Hin.
  - exfalso. apply Hno, list_elem_of_here.
Qed.

Lemma refunded_amount_unfold (p : Payment.t) (w : World) :
  refunded_amount p w
  = match sum_amounts (Decimal.of_int 0)
            (map Transaction.amount (successful_refunds (db w) p)) with
    | Returned total => (Returned total, w)
    | Raised e => (Raised e, w)
    end.
Proof.
  unfold refunded_amount. rewrite run_bind. unfold get_db at 1.
  cbv beta iota. destruct (sum_amounts _ _); reflexivity.
Qed.

(** X8. [refunded_amount] is the decimal sum, from the left and starting at
    the integer 0, of the amounts of the payment's successful refund
    transactions; it raises [TypeError] exactly when one of those
    transactions has no amount, which [refund_payment] records whenever the
    provider reports a successful refund without one.  Either way it only
    reads. *)
Theorem refunded_amount_sums_or_raises (p : Payment.t) (w : World) :
  let amounts := map Transaction.amount (successful_refunds (db w) p) in
  (None ∉ amounts ->
   refunded_amount p w = (Returned (Decimal.sum (omap id amounts)), w)) /\
  (None ∈ amounts ->
   refunded_amount p w
   = (Raised (TypeError "unsupported operand type(s) for +"), w)).
Proof.
  intros amounts.
  rewrite refunded_amount_unfold. fold amounts. split; intros H.
  - assert (Hs : sum_amounts (Decimal.of_int 0) amounts
                 = Returned (Decimal.sum (omap id amounts))).
    { unfold Decimal.sum. rewrite <- sum_amounts_all_some. f_equal.
      apply all_some_map, H. }
    rewrite Hs. reflexivity.
  - rewrite (sum_amounts_some_none amounts _ H). reflexivity.
Qed.

(** X9. [refundable_amount] is 0.00 for a payment that cannot be refunded,
    whatever its transactions hold.  For one that can, with the amounts
    stored as two-place decimal columns, it is exactly the payment's amount
    less the amounts of its successful refunds, to the cent: no rounding
    occurs.  It only reads. *)
Theorem refundable_amount_exact (p : Payment.t) (w : World) :
  let refunds := successful_refunds (db w) p in
  (Payment.can_be_refunded p = false ->
   refundable_amount p w = (Returned (Decimal.cents 0), w)) /\
  (forall amounts : list decimal,
     Payment.can_be_refunded p = true ->
     money_field (Payment.amount p) ->
     map Transaction.amount refunds = map Some amounts ->
     Forall money_field amounts ->
     Z.of_nat (length amounts) <= 10 ^ 15 ->
     refundable_amount p w
     = (Returned (Decimal.mk (Decimal.coeff (Payment.amount p)
                              - coeff_total amounts) (-2)), w)).
Proof.
  intros refunds. split.
  - intros Hcan. unfold refundable_amount. rewrite Hcan. reflexivity.
  - intros amounts Hcan [Hexp Hbound] Hmap Hmoney Hlen.
    unfold refundable_amount. rewrite Hcan. cbn [negb].
    rewrite run_bind, refunded_amount_unfold. fold refunds.
    rewrite Hmap, sum_amounts_all_some.
    change (fold_left Decimal.add amounts (Decimal.of_int 0))
      with (Decimal.sum amounts).
    rewrite (sum_money amounts Hmoney Hlen).
    unfold ret. f_equal. f_equal.
    pose proof (coeff_total_bound amounts Hmoney) as Htot.
    destruct (Payment.amount p) as [c e]. cbn in Hexp, Hbound. subst e.
    cbn [Decimal.coeff]. unfold Decimal.sub, Decimal.neg.
    cbn [Decimal.coeff Decimal.exponent].
    destruct amounts as [|a amounts].
    + cbn [coeff_total fold_right].
      change 0 with (-2 + 2) at 2.
      rewrite add_higher_exponent; [f_equal; lia|lia|].
      unfold Decimal.prec. lia.
    + rewrite add_same_exponent; [f_equal; lia|].
      unfold Decimal.prec. cbn [length] in Hlen, Htot. lia.
Qed.
(** ** Capturing an authorized payment *)

(** X10. [capture_payment] refuses a payment that is not [authorized] with
    the cannot-be-captured [ValueError], and an authorized one whose
    provider code resolves to no provider with the provider-not-available
    [ValueError].  In both cases the provider is not called and every row,
    visible and durable, is as it was. *)
Theorem capture_payment_rejected
    (payment : Payment.t) (amount : option decimal) (w : World) :
  Payment.status payment <> PaymentStatus.authorized
  \/ registry w !! Payment.provider_code payment = None ->
  exists w',
    capture_payment payment amount w
    = (Raised
         (ValueError
            (if decide (Payment.status payment = PaymentStatus.authorized)
             then "Payment provider " +:+ Payment.provider_code payment
                  +:+ " not available"
             else "Payment " +:+ Payment.id payment
                  +:+ " cannot be captured")),
       w') /\
    db w' = db w /\
    committed w' = committed w /\
    provider_calls w' = provider_calls w /\
    journal w' = journal w ++ [AtomicEnter; AtomicRollback].
Proof.
  intros Hguard.
  unfold capture_payment. rewrite run_atomic. unfold Payment.can_be_captured.
  destruct (decide (Payment.status payment = PaymentStatus.authorized))
    as [Hst|Hst].
  - destruct Hguard as [Hno|Hreg]; [contradiction|].
    rewrite (bool_decide_eq_true_2 _ Hst). cbn [negb].
    rewrite run_bind. unfold get_provider at 1. world_simpl. rewrite Hreg.
    unfold raise at 1. cbv beta iota.
    eexists. split; [reflexivity|]. world_simpl.
    rewrite <- app_assoc. auto 10.
  - rewrite (bool_decide_eq_false_2 _ Hst). cbn [negb].
    unfold raise at 1. cbv beta iota.
    eexists. split; [reflexivity|]. world_simpl.
    rewrite <- app_assoc. auto 10.
Qed.

Lemma apply_optional_blank (r : option json) (p : Payment.t) :
  Payment.status (apply_optional "" r p) = Payment.status p /\
  Payment.external_id (apply_optional "" r p) = Payment.external_id p /\
  Payment.amount (apply_optional "" r p) = Payment.amount p /\
  Payment.currency (apply_optional "" r p) = Payment.currency p /\
  Payment.provider_code (apply_optional "" r p) = Payment.provider_code p /\
  Payment.captured_at (apply_optional "" r p) = Payment.captured_at p /\
  Payment.failed_at (apply_optional "" r p) = Payment.failed_at p /\
  Payment.failure_reason (apply_optional "" r p) = Payment.failure_reason p.
Proof.
  unfold apply_optional. destruct r as [[|x r]|]; cbn; auto 10.
Qed.

(** The part of [capture_payment] that runs before the order is settled,
    for a provider that reports success. *)
Lemma capture_payment_captured
    (payment : Payment.t) (amount : option decimal) (provider : Provider.t)
    (order : Order.t) (result : PaymentOperationResult) (w : World)
    (k : Payment.t -> M unit) (tail : unit -> M pydict) :
  exists w3 captured,
    captured
    = apply_optional "" (op_raw_response result)
        (Payment.set_captured_at (clock w)
           (Payment.set_status PaymentStatus.captured payment)) /\
    (x <- create_transaction payment TransactionType.capture
            (op_amount result) (str_or (op_transaction_id result) "")
            true (str_or (op_error_message result) "")
            (op_raw_response result) ;;
     x <- (p <- mark_as_captured payment "" (op_raw_response result) ;;
           k p) ;;
     tail x) w
    = (x <- k captured ;; tail x) w3 /\
    payments (db w3) = upsert_payment captured (payments (db w)) /\
    transactions (db w3)
    = Transaction.mk (Payment.id payment) TransactionType.capture
        (str_or (op_transaction_id result) "") (op_amount result)
        (Payment.currency payment) true
        (str_or (op_error_message result) "") (op_raw_response result)
      :: transactions (db w) /\
    orders (db w3) = orders (db w) /\
    order_items (db w3) = order_items (db w) /\
    products (db w3) = products (db w) /\
    status_history (db w3) = status_history (db w) /\
    atomic_depth w3 = atomic_depth w /\
    clock w3 = clock w /\
    registry w3 = registry w.
Proof.
  eexists _, _. split; [reflexivity|].
  split.
  { rewrite run_bind. unfold create_transaction at 1, write at 1.
    cbv beta iota. rewrite run_bind. rewrite run_bind.
    unfold mark_as_captured at 1. rewrite run_bind.
    unfold timezone_now at 1. cbv beta iota. rewrite run_bind.
    unfold Payment_save at 1, write at 1. cbv beta iota.
    unfold ret at 1. cbv beta iota. world_simpl.
    rewrite <- run_bind. reflexivity. }
  world_simpl. auto 10.
Qed.
Ltac world_simpl_in H :=
  cbn [db committed atomic_depth journal provider_calls clock uuid_counter
       registry generate_order_number set_depth with_journal with_db
       set_rows orders order_items products status_history payments
       transactions set_orders set_products set_status_history set_payments
       set_transactions] in H.

(** X12. Capturing an authorized payment whose order awaits payment, with a
    provider that reports success: the response repeats the provider's
    answer; a successful capture transaction is recorded; the payment is
    stored as [captured] with the capture time, its external id and amount
    untouched; and the order is settled exactly as
    [process_payment_success] settles it, saved as [paid] with the payment
    time and with the stock that function leaves. *)
Theorem capture_payment_settles_order
    (payment : Payment.t) (amount : option decimal) (provider : Provider.t)
    (order : Order.t) (result : PaymentOperationResult) (w : World) :
  Payment.status payment = PaymentStatus.authorized ->
  registry w !! Payment.provider_code payment = Some provider ->
  orders (db w) !! Payment.order_id payment = Some order ->
  Order.status order = OrderStatus.pending_payment ->
  Provider.capture provider order amount = Returned result ->
  op_success result = true ->
  exists w' captured order',
    capture_payment payment amount w
    = (Returned
         (dict [("success", PyBool true);
                ("error", py_opt_str (op_error_message result));
                ("transaction_id", py_opt_str (op_transaction_id result));
                ("amount", py_opt_decimal (op_amount result))]), w') /\
    payments (db w') = upsert_payment captured (payments (db w)) /\
    Payment.id captured = Payment.id payment /\
    Payment.status captured = PaymentStatus.captured /\
    Payment.captured_at captured = Some (clock w) /\
    Payment.external_id captured = Payment.external_id payment /\
    Payment.amount captured = Payment.amount payment /\
    transactions (db w')
    = Transaction.mk (Payment.id payment) TransactionType.capture
        (str_or (op_transaction_id result) "") (op_amount result)
        (Payment.currency payment) true
        (str_or (op_error_message result) "") (op_raw_response result)
      :: transactions (db w) /\
    orders (db w') = <[Order.id order := order']> (orders (db w)) /\
    Order.status order' = OrderStatus.paid /\
    Order.paid_at order' = Some (clock w) /\
    products (db w')
    = products (db (OrderService.process_payment_success order w).2).
Proof.
  intros Hst Hreg Ho Hpend Hcap Hok.
  destruct (process_payment_success_rows order w Hpend)
    as (paid0 & v & Hrun0 & _ & _ & _ & _ & Hprod0 & _).
  rewrite Hrun0. cbn [snd]. rewrite Hprod0. clear Hrun0 Hprod0 paid0 v.
  unfold capture_payment. rewrite run_atomic. unfold Payment.can_be_captured.
  rewrite (bool_decide_eq_true_2 _ Hst). cbn [negb].
  rewrite run_bind. unfold get_provider at 1. world_simpl. rewrite Hreg.
  unfold try_except. rewrite run_bind.
  unfold Payment_order at 1. rewrite run_bind. unfold get_db at 1.
  world_simpl. rewrite Ho.
  unfold ret at 1. cbv beta iota. rewrite run_bind.
  unfold call_provider at 1. rewrite Hcap, Hok.
  assert (Hnot : Order.status order <> OrderStatus.paid)
    by (rewrite Hpend; discriminate).
  rewrite (bool_decide_eq_false_2 _ Hnot). cbn [negb].
  match goal with
  | |- context [bind (create_transaction _ _ _ _ _ _ _) _ ?w0] =>
      destruct (capture_payment_captured payment amount provider order
                  result w0
                  (fun _ => o <- OrderService.process_payment_success order ;;
                            ret tt)
                  (fun _ =>
                     ret (dict [("success", PyBool true);
                                ("error",
                                 py_opt_str (op_error_message result));
                                ("transaction_id",
                                 py_opt_str (op_transaction_id result));
                                ("amount",
                                 py_opt_decimal (op_amount result))])))
        as (w3 & captured & Hcaptured & Hrun & Hpay & Htx & Hord & Hit
            & Hprod & Hhist & Hdepth & Hclock & Hregs)
  end.
  rewrite Hrun. clear Hrun.
  destruct (process_payment_success_rows order w3 Hpend)
    as (order' & w4 & Hrun & Hst' & Hid' & Hpaid' & Hord' & Hprod' & Hpay'
        & Htx' & Hit' & Hdepth' & Hcalls').
  rewrite !run_bind, Hrun. unfold ret. cbv beta iota.
  destruct (apply_optional_blank (op_raw_response result)
              (Payment.set_captured_at (clock w)
                 (Payment.set_status PaymentStatus.captured payment)))
    as (Hs & He & Ha & _ & _ & Hc & _).
  world_simpl_in Hpay. world_simpl_in Htx. world_simpl_in Hord.
  world_simpl_in Hprod. world_simpl_in Hclock. world_simpl_in Hit.
  world_simpl_in Hcaptured.
  assert (Hlines : items_select_related_product (db w3) order
                   = items_select_related_product (db w) order).
  { apply select_related_same; [exact Hit|exact Hprod|reflexivity]. }
  rewrite Hlines, Hprod in Hprod'.
  exists (match atomic_depth w with
          | O => set_rows (db w4) (db w4)
                   (set_depth O (with_journal AtomicCommit w4))
          | S n => set_depth (S n) (with_journal AtomicCommit w4)
          end), captured, order'.
  split; [reflexivity|].
  assert (Hdb : forall X (f : DB -> X),
             f (db (match atomic_depth w with
                    | O => set_rows (db w4) (db w4)
                             (set_depth O (with_journal AtomicCommit w4))
                    | S n => set_depth (S n) (with_journal AtomicCommit w4)
                    end)) = f (db w4))
    by (intros X f; destruct (atomic_depth w); reflexivity).
  rewrite !Hdb.
  rewrite Hpay', Hpay, Htx', Htx, Hord', Hord, Hprod', Hpaid', Hclock.
  subst captured. rewrite apply_optional_id, Hs, He, Ha, Hc.
  repeat split; try reflexivity; assumption.
Qed.
Lemma process_payment_success_not_pending (order : Order.t) (w : World) :
  Order.status order <> OrderStatus.pending_payment ->
  OrderService.process_payment_success order w
  = (Raised (ValueError ("Order " +:+ Order.number order
                         +:+ " is not in pending_payment status")),
     set_rows (db w) (committed w)
       (set_depth (atomic_depth w)
          (with_journal AtomicRollback
             (set_depth (S (atomic_depth w)) (with_journal AtomicEnter w))))).
Proof.
  intros Hst.
  unfold OrderService.process_payment_success. rewrite run_atomic.
  rewrite (bool_decide_eq_false_2 _ Hst). reflexivity.
Qed.

(** X13. Capturing an authorized payment whose order is neither awaiting
    payment nor paid (canceled, say), with a provider that reports success:
    the order cannot be settled, and the response is
    [{'success': False, 'error': ...}] with the order-not-pending message;
    yet the capture is kept: the successful capture transaction is recorded
    and the payment is stored as [captured], durably so when the call was
    made outside any atomic block.  The order row is untouched. *)
Theorem capture_payment_keeps_capture_when_order_cannot_be_settled
    (payment : Payment.t) (amount : option decimal) (provider : Provider.t)
    (order : Order.t) (result : PaymentOperationResult) (w : World) :
  Payment.status payment = PaymentStatus.authorized ->
  registry w !! Payment.provider_code payment = Some provider ->
  orders (db w) !! Payment.order_id payment = Some order ->
  Order.status order <> OrderStatus.pending_payment ->
  Order.status order <> OrderStatus.paid ->
  Provider.capture provider order amount = Returned result ->
  op_success result = true ->
  exists w' captured,
    capture_payment payment amount w
    = (Returned
         (dict [("success", PyBool false);
                ("error",
                 PyStr ("Order " +:+ Order.number order
                        +:+ " is not in pending_payment status"))]), w') /\
    payments (db w') = upsert_payment captured (payments (db w)) /\
    Payment.id captured = Payment.id payment /\
    Payment.status captured = PaymentStatus.captured /\
    transactions (db w')
    = Transaction.mk (Payment.id payment) TransactionType.capture
        (str_or (op_transaction_id result) "") (op_amount result)
        (Payment.currency payment) true
        (str_or (op_error_message result) "") (op_raw_response result)
      :: transactions (db w) /\
    orders (db w') = orders (db w) /\
    products (db w') = products (db w) /\
    status_history (db w') = status_history (db w) /\
    (atomic_depth w = O -> committed w' = db w').
Proof.
  intros Hst Hreg Ho Hpend Hpaid Hcap Hok.
  unfold capture_payment. rewrite run_atomic. unfold Payment.can_be_captured.
  rewrite (bool_decide_eq_true_2 _ Hst). cbn [negb].
  rewrite run_bind. unfold get_provider at 1. world_simpl. rewrite Hreg.
  unfold try_except. rewrite run_bind.
  unfold Payment_order at 1. rewrite run_bind. unfold get_db at 1.
  world_simpl. rewrite Ho.
  unfold ret at 1. cbv beta iota. rewrite run_bind.
  unfold call_provider at 1. rewrite Hcap, Hok.
  rewrite (bool_decide_eq_false_2 _ Hpaid). cbn [negb].
  match goal with
  | |- context [bind (create_transaction _ _ _ _ _ _ _) _ ?w0] =>
      destruct (capture_payment_captured payment amount provider order
                  result w0
                  (fun _ => o <- OrderService.process_payment_success order ;;
                            ret tt)
                  (fun _ =>
                     ret (dict [("success", PyBool true);
                                ("error",
                                 py_opt_str (op_error_message result));
                                ("transaction_id",
                                 py_opt_str (op_transaction_id result));
                                ("amount",
                                 py_opt_decimal (op_amount result))])))
        as (w3 & captured & Hcaptured & Hrun & Hpay & Htx & Hord & Hit
            & Hprod & Hhist & Hdepth & Hclock & Hregs)
  end.
  rewrite Hrun. clear Hrun.
  rewrite !run_bind, (process_payment_success_not_pending order w3 Hpend).
  unfold ret. cbv beta iota.
  destruct (apply_optional_blank (op_raw_response result)
              (Payment.set_captured_at (clock w)
                 (Payment.set_status PaymentStatus.captured payment)))
    as (Hs & _).
  world_simpl_in Hpay. world_simpl_in Htx. world_simpl_in Hord.
  world_simpl_in Hprod. world_simpl_in Hhist. world_simpl_in Hcaptured.
  eexists _, captured. split; [reflexivity|].
  destruct (atomic_depth w) eqn:Hd; world_simpl;
    rewrite Hpay, Htx, Hord, Hprod, Hhist; subst captured;
    rewrite apply_optional_id, Hs;
    repeat split; try reflexivity; intros; discriminate.
Qed.
(** ** Payment initiation that the provider declines *)

Lemma map_replace_fresh (x : Payment.t) (i : pk) (rows : list Payment.t) :
  Forall (fun q => Payment.id q <> i) rows ->
  map (fun q => if bool_decide (Payment.id q = i) then x else q) rows = rows.
Proof.
  induction 1 as [|q rows Hq _ IH]; [reflexivity|].
  cbn [map]. rewrite (bool_decide_eq_false_2 _ Hq), IH. reflexivity.
Qed.

(** X14. For a payable order whose grand total is a two-place amount (as
    every order read back from its table has it, so that the amount columns
    keep it as it is) and a registered provider, called outside any atomic
    block and drawing a fresh payment id: a [start_payment] that raises or
    answers without success leaves a durable payment row marked [failed],
    stamped with the failure time and carrying the reason: [str(e)] when the
    provider raised, the provider's error message (or 'Unknown error') when
    it declined.  The response is
    [{'success': False, 'error': ..., 'payment_id': ...}].  A decline is also
    recorded as an unsuccessful authorize transaction for the order's grand
    total; an exception leaves no transaction row. *)
Theorem initiate_payment_failure_is_recorded
    (order : Order.t) (provider_code return_url notify_url : string)
    (provider : Provider.t) (w : World) :
  Order.status order = OrderStatus.pending_payment ->
  registry w !! provider_code = Some provider ->
  money_field (Order.grand_total order) ->
  atomic_depth w = O ->
  Forall (fun q => Payment.id q <> "uuid-" +:+ pretty (uuid_counter w))
    (payments (db w)) ->
  match Provider.start_payment provider order return_url notify_url with
  | Returned result => init_success result = false
  | Raised _ => True
  end ->
  let id := "uuid-" +:+ pretty (uuid_counter w) in
  let reason :=
    match Provider.start_payment provider order return_url notify_url with
    | Returned result => str_or (init_error_message result) "Unknown error"
    | Raised e => str_exn e
    end in
  exists w',
    PaymentService.initiate_payment order provider_code return_url notify_url w
    = (Returned
         (dict [("success", PyBool false);
                ("error",
                 match Provider.start_payment provider order return_url
                         notify_url with
                 | Returned result => py_opt_str (init_error_message result)
                 | Raised e => PyStr (str_exn e)
                 end);
                ("payment_id", PyStr id)]), w') /\
    payments (db w')
    = Payment.mk id (Order.id order) provider_code ""
        (Order.grand_total order) (Order.currency order)
        PaymentStatus.failed None reason None None (Some (clock w))
      :: payments (db w) /\
    transactions (db w')
    = match Provider.start_payment provider order return_url notify_url with
      | Returned result =>
          Transaction.mk id TransactionType.authorize ""
            (Some (Order.grand_total order)) (Order.currency order) false
            (str_or (init_error_message result) "")
            (Some (init_result_dict result))
          :: transactions (db w)
      | Raised _ => transactions (db w)
      end /\
    orders (db w') = orders (db w) /\
    committed w' = db w'.
Proof.
  intros Hst Hreg Hmoney Hdepth Hfresh Hfail id reason. subst id reason.
  unfold PaymentService.initiate_payment, atomic.
  rewrite bool_decide_eq_true_2 by exact Hst.
  rewrite Hdepth.
  unfold bind at 1. unfold get_provider at 1. simpl.
  rewrite Hreg.
  unfold bind at 1. unfold Payment_objects_create, uuid4.
  unfold bind at 1. simpl.
  unfold try_except, bind at 1, call_provider. simpl.
  destruct (Provider.start_payment provider order return_url notify_url)
    as [result|e]; simpl.
  - rewrite Hfail. unfold bind at 1. simpl.
    unfold bind, mark_as_failed, timezone_now. simpl.
    rewrite !upsert_payment_head by reflexivity.
    rewrite !(map_replace_fresh _ _ _ Hfresh).
    eexists. split; [reflexivity|]. simpl.
    repeat split; reflexivity.
  - unfold bind, mark_as_failed, timezone_now. simpl.
    rewrite !upsert_payment_head by reflexivity.
    rewrite !(map_replace_fresh _ _ _ Hfresh).
    eexists. split; [reflexivity|]. simpl.
    repeat split; reflexivity.
Qed.
(** ** Notifications that do not complete a payment *)

Lemma apply_optional_fields (e : string) (r : option json) (p : Payment.t) :
  Payment.status (apply_optional e r p) = Payment.status p /\
  Payment.failure_reason (apply_optional e r p) = Payment.failure_reason p /\
  Payment.failed_at (apply_optional e r p) = Payment.failed_at p /\
  Payment.authorized_at (apply_optional e r p) = Payment.authorized_at p /\
  Payment.captured_at (apply_optional e r p) = Payment.captured_at p /\
  Payment.amount (apply_optional e r p) = Payment.amount p /\
  Payment.external_id (apply_optional e r p)
  = (if bool_decide (e = "") then Payment.external_id p else e).
Proof.
  unfold apply_optional.
  destruct (bool_decide (e = "")); destruct r as [[|x r]|]; cbn; auto 10.
Qed.

Lemma str_or_blank (o : option string) (default : string) :
  str_or o default = "" -> default = "".
Proof.
  unfold str_or. destruct o as [s|]; [|auto].
  destruct (bool_decide (s = "")) eqn:Hs; [auto|].
  intros ->. apply bool_decide_eq_false_1 in Hs. contradiction.
Qed.

(** X15. A verified notification that the provider parsed successfully,
    that names a payment the lookup finds, and whose status is not
    'completed' never touches the order, the stock or the status history,
    and is answered with [{'success': True, ...}] whatever the status says.
    One webhook transaction is recorded.  On 'failed' the payment is stored
    as [failed] with the failure time and the provider's message (or
    'Payment failed'); on 'authorized' it is stored as [authorized] with the
    authorization time and the notification's payment id when it has one;
    on any other status ('pending', 'canceled', ...) the payment row is left
    as it is. *)
Theorem process_webhook_without_completion
    (code : string) (request : HttpRequest) (provider : Provider.t)
    (result : PaymentWebhookResult) (p : Payment.t) (w : World) :
  registry w !! code = Some provider ->
  Provider.validate_webhook_signature provider request = Returned true ->
  Provider.handle_webhook provider request = Returned result ->
  wh_success result = true ->
  fst (locate_payment result code w) = Returned (Some p) ->
  wh_status result <> "completed" ->
  exists w',
    PaymentService.process_webhook code request w
    = (Returned (dict [("success", PyBool true);
                       ("payment_id", PyStr (Payment.id p));
                       ("status", PyStr (wh_status result))]), w') /\
    transactions (db w')
    = Transaction.mk (Payment.id p) TransactionType.webhook
        (str_or (wh_transaction_id result) "") (wh_amount result)
        (Payment.currency p) true "" (wh_raw_data result)
      :: transactions (db w) /\
    orders (db w') = orders (db w) /\
    products (db w') = products (db w) /\
    status_history (db w') = status_history (db w) /\
    (if bool_decide (wh_status result = "failed") then
       exists p',
         payments (db w') = upsert_payment p' (payments (db w)) /\
         Payment.id p' = Payment.id p /\
         Payment.status p' = PaymentStatus.failed /\
         Payment.failed_at p' = Some (clock w) /\
         Payment.failure_reason p'
         = str_or (wh_error_message result) "Payment failed"
     else if bool_decide (wh_status result = "authorized") then
       exists p',
         payments (db w') = upsert_payment p' (payments (db w)) /\
         Payment.id p' = Payment.id p /\
         Payment.status p' = PaymentStatus.authorized /\
         Payment.authorized_at p' = Some (clock w) /\
         Payment.external_id p'
         = str_or (wh_payment_id result) (Payment.external_id p)
     else payments (db w') = payments (db w)).
Proof.
  intros Hreg Hsig Hhook Hok Hloc Hstatus.
  unfold PaymentService.process_webhook.
  rewrite run_atomic, run_bind. unfold get_provider at 1.
  world_simpl. rewrite Hreg.
  rewrite run_bind. unfold call_provider at 1. rewrite Hsig.
  cbn [negb]. unfold try_except. rewrite run_bind.
  unfold call_provider at 1. rewrite Hhook, Hok. cbn [negb]. world_simpl.
  rewrite run_bind, locate_payment_run.
  match goal with
  | |- context [locate_payment result code ?w2] =>
      rewrite (locate_payment_same_rows result code w2 w)
        by reflexivity
  end.
  rewrite Hloc.
  rewrite run_bind. unfold create_transaction at 1, write at 1.
  world_simpl. rewrite run_bind.
  rewrite (bool_decide_eq_false_2 _ Hstatus).
  destruct (bool_decide (wh_status result = "failed")) eqn:Hfailed.
  - rewrite run_bind. unfold mark_as_failed at 1.
    rewrite run_bind. unfold timezone_now at 1. world_simpl.
    rewrite run_bind. unfold Payment_save at 1, write at 1. world_simpl.
    unfold ret. cbv beta iota.
    destruct (apply_optional_fields "" (wh_raw_data result)
                (Payment.set_failure_reason
                   (str_or (wh_error_message result) "Payment failed")
                   (Payment.set_failed_at (clock w)
                      (Payment.set_status PaymentStatus.failed p))))
      as (Hs & Hr & Hf & _).
    destruct (atomic_depth w); eexists;
      (split; [reflexivity|]); world_simpl;
      (repeat (split; [reflexivity|]));
      eexists; (split; [reflexivity|]);
      rewrite apply_optional_id, Hs, Hr, Hf; auto.
  - destruct (bool_decide (wh_status result = "authorized")) eqn:Hauth.
    + rewrite run_bind. unfold mark_as_authorized at 1.
      rewrite run_bind. unfold timezone_now at 1. world_simpl.
      rewrite run_bind. unfold Payment_save at 1, write at 1. world_simpl.
      unfold ret. cbv beta iota.
      destruct (apply_optional_fields
                  (str_or (wh_payment_id result) (Payment.external_id p))
                  (wh_raw_data result)
                  (Payment.set_authorized_at (clock w)
                     (Payment.set_status PaymentStatus.authorized p)))
        as (Hs & _ & _ & Ha & _ & _ & He).
      assert (Hext : Payment.external_id
                       (apply_optional
                          (str_or (wh_payment_id result)
                             (Payment.external_id p))
                          (wh_raw_data result)
                          (Payment.set_authorized_at (clock w)
                             (Payment.set_status PaymentStatus.authorized p)))
                     = str_or (wh_payment_id result) (Payment.external_id p)).
      { rewrite He.
        destruct (bool_decide (str_or (wh_payment_id result)
                                 (Payment.external_id p) = "")) eqn:Hb;
          [|reflexivity].
        apply bool_decide_eq_true_1 in Hb. rewrite Hb.
        apply str_or_blank in Hb. exact Hb. }
      destruct (atomic_depth w); eexists;
        (split; [reflexivity|]); world_simpl;
        (repeat (split; [reflexivity|]));
        eexists; (split; [reflexivity|]);
        rewrite apply_optional_id, Hs, Ha, Hext; auto.
    + unfold ret. cbv beta iota.
      destruct (atomic_depth w); eexists;
        (split; [reflexivity|]); world_simpl; auto 10.
Qed.
(** ** Refunds that succeed at the provider *)

(** Runs [refund_payment] up to the point where the provider has answered
    with success and the payment row has been saved with its new status. *)
Ltac run_refund_to_saved payment w R Hcan HR Htruthy Hle Hlt Hreg Ho Href Hok :=
  unfold PaymentService.refund_payment;
  rewrite run_atomic; rewrite Hcan, Htruthy; cbn [negb];
  let w1 := fresh "w1" in
  let HR1 := fresh "HR1" in
  set (w1 := set_depth (S (atomic_depth w)) (with_journal AtomicEnter w));
  assert (HR1 : refundable_amount payment w1 = (Returned R, w1))
    by (rewrite refundable_amount_run;
        rewrite (refundable_amount_same_rows payment w1 w) by reflexivity;
        rewrite HR; reflexivity);
  rewrite run_bind; unfold ret at 1; cbv beta iota;
  rewrite Hle; rewrite run_bind, HR1; cbv beta iota; rewrite Hlt;
  rewrite run_bind; unfold get_provider at 1; cbv beta iota;
  change (registry w1) with (registry w); rewrite Hreg;
  unfold try_except at 1;
  rewrite run_bind; unfold Payment_order at 1; rewrite run_bind;
  unfold get_db at 1; cbv beta iota;
  change (orders (db w1)) with (orders (db w)); rewrite Ho;
  unfold ret at 1; cbv beta iota;
  rewrite run_bind; unfold call_provider at 1; rewrite Href, Hok;
  rewrite run_bind; unfold create_transaction at 1, write at 1;
  cbv beta iota; rewrite run_bind; rewrite run_bind;
  unfold Payment_save at 1, write at 1; cbv beta iota;
  subst w1; clear HR1.

(** X16. A partial refund that the provider accepts is the last refund the
    service will make on that payment.  The refund transaction is recorded,
    the payment is stored as [partially_refunded] and the order is left as
    it is; but from then on the stored payment cannot be refunded: its
    refundable amount reads 0.00 and [refund_payment] refuses it, for any
    amount, with the cannot-be-refunded [ValueError], before any provider
    is called. *)
Theorem partial_refund_closes_payment
    (payment : Payment.t) (a R : decimal) (reason : string)
    (provider : Provider.t) (order : Order.t)
    (result : PaymentOperationResult) (w : World) :
  Payment.can_be_refunded payment = true ->
  fst (refundable_amount payment w) = Returned R ->
  Decimal.truthy a = true ->
  Decimal.leb a (Decimal.of_int 0) = false ->
  Decimal.ltb R a = false ->
  Decimal.geb a (Payment.amount payment) = false ->
  registry w !! Payment.provider_code payment = Some provider ->
  orders (db w) !! Payment.order_id payment = Some order ->
  Provider.refund provider order a reason = Returned result ->
  op_success result = true ->
  let saved := Payment.set_status PaymentStatus.partially_refunded payment in
  exists w',
    PaymentService.refund_payment payment (Some a) reason w
    = (Returned
         (dict [("success", PyBool true);
                ("error", py_opt_str (op_error_message result));
                ("transaction_id", py_opt_str (op_transaction_id result));
                ("amount", py_opt_decimal (op_amount result))]), w') /\
    payments (db w') = upsert_payment saved (payments (db w)) /\
    transactions (db w')
    = Transaction.mk (Payment.id payment) TransactionType.refund
        (str_or (op_transaction_id result) "") (op_amount result)
        (Payment.currency payment) true
        (str_or (op_error_message result) "") (op_raw_response result)
      :: transactions (db w) /\
    orders (db w') = orders (db w) /\
    status_history (db w') = status_history (db w) /\
    (forall v, refundable_amount saved v = (Returned (Decimal.cents 0), v)) /\
    (forall amount' reason' v,
       exists v',
         PaymentService.refund_payment saved amount' reason' v
         = (Raised (ValueError ("Payment " +:+ Payment.id payment
                                +:+ " cannot be refunded")), v') /\
         db v' = db v /\ provider_calls v' = provider_calls v).
Proof.
  intros Hcan HR Htruthy Hle Hlt Hpartial Hreg Ho Href Hok saved.
  run_refund_to_saved payment w R Hcan HR Htruthy Hle Hlt Hreg Ho Href Hok.
  rewrite Hpartial. fold saved.
  rewrite (bool_decide_eq_false_2
             (Payment.status saved = PaymentStatus.refunded))
    by discriminate.
  unfold ret. cbv beta iota.
  eexists. split; [reflexivity|].
  split; [destruct (atomic_depth w); reflexivity|].
  split; [destruct (atomic_depth w); reflexivity|].
  split; [destruct (atomic_depth w); reflexivity|].
  split; [destruct (atomic_depth w); reflexivity|].
  split; [intros v; reflexivity|].
  intros amount' reason' v.
  unfold PaymentService.refund_payment. rewrite run_atomic.
  change (Payment.can_be_refunded saved) with false. cbn [negb].
  unfold raise at 1. cbv beta iota.
  eexists. split; [reflexivity|]. split; reflexivity.
Qed.
(** X17. A full refund that the provider accepts, for a payment whose order
    is no longer [paid] (it is being processed, or was shipped or
    delivered): the order's [refund] transition is not allowed from that
    status, and the response is [{'success': False, 'error': ...}] with the
    invalid-transition message.  The refund itself stands: the successful
    refund transaction is recorded and the payment is stored as [refunded],
    durably so when the call was made outside any atomic block, while the
    order keeps its status and gains no history row. *)
Theorem full_refund_stands_when_order_cannot_be_refunded
    (payment : Payment.t) (a R : decimal) (reason : string)
    (provider : Provider.t) (order : Order.t)
    (result : PaymentOperationResult) (w : World) :
  Payment.can_be_refunded payment = true ->
  fst (refundable_amount payment w) = Returned R ->
  Decimal.truthy a = true ->
  Decimal.leb a (Decimal.of_int 0) = false ->
  Decimal.ltb R a = false ->
  Decimal.geb a (Payment.amount payment) = true ->
  registry w !! Payment.provider_code payment = Some provider ->
  orders (db w) !! Payment.order_id payment = Some order ->
  Order.status order <> OrderStatus.paid ->
  Provider.refund provider order a reason = Returned result ->
  op_success result = true ->
  exists w',
    PaymentService.refund_payment payment (Some a) reason w
    = (Returned
         (dict [("success", PyBool false);
                ("error",
                 PyStr (str_exn (InvalidTransition (Order.status order)
                                   "refund" [OrderStatus.paid])))]), w') /\
    payments (db w')
    = upsert_payment (Payment.set_status PaymentStatus.refunded payment)
        (payments (db w)) /\
    transactions (db w')
    = Transaction.mk (Payment.id payment) TransactionType.refund
        (str_or (op_transaction_id result) "") (op_amount result)
        (Payment.currency payment) true
        (str_or (op_error_message result) "") (op_raw_response result)
      :: transactions (db w) /\
    orders (db w') = orders (db w) /\
    status_history (db w') = status_history (db w) /\
    (atomic_depth w = O -> committed w' = db w').
Proof.
  intros Hcan HR Htruthy Hle Hlt Hfull Hreg Ho Hst Href Hok.
  run_refund_to_saved payment w R Hcan HR Htruthy Hle Hlt Hreg Ho Href Hok.
  rewrite Hfull.
  rewrite (bool_decide_eq_true_2
             (Payment.status
                (Payment.set_status PaymentStatus.refunded payment)
              = PaymentStatus.refunded)) by reflexivity.
  assert (Hout : Order.status order ∉ Transition.source Transition.refund).
  { cbn. intros Hin. apply list_elem_of_singleton in Hin. contradiction. }
  rewrite run_bind. unfold refund.
  rewrite (transition_outside_sources _ _ _ _ Hout).
  unfold ret. cbv beta iota.
  eexists. split; [reflexivity|].
  destruct (atomic_depth w); world_simpl;
    repeat split; try reflexivity; intros; discriminate.
Qed.
(** ** The webhook endpoint *)

Lemma process_webhook_cases
    (provider_code : string) (request : HttpRequest) (w : World) :
  match registry w !! provider_code with
  | None =>
      exists e w',
        PaymentService.process_webhook provider_code request w = (Raised e, w')
  | Some provider =>
      match Provider.validate_webhook_signature provider request with
      | Raised e =>
          exists w',
            PaymentService.process_webhook provider_code request w
            = (Raised e, w')
      | Returned valid =>
          exists d w',
            PaymentService.process_webhook provider_code request w
            = (Returned d, w') /\
            (success_response d \/ failure_response d)
      end
  end.
Proof.
  destruct (registry w !! provider_code) as [provider|] eqn:Hreg.
  2:{ unfold PaymentService.process_webhook.
      rewrite run_atomic, run_bind. unfold get_provider at 1.
      cbn [registry set_depth with_journal]. rewrite Hreg.
      eexists _, _. reflexivity. }
  destruct (Provider.validate_webhook_signature provider request)
    as [valid|e] eqn:Hsig.
  2:{ unfold PaymentService.process_webhook.
      rewrite run_atomic, run_bind. unfold get_provider at 1.
      cbn [registry set_depth with_journal]. rewrite Hreg.
      rewrite run_bind. unfold call_provider at 1. rewrite Hsig.
      eexists. reflexivity. }
  unfold PaymentService.process_webhook.
  rewrite run_atomic, run_bind. unfold get_provider at 1.
  cbn [registry set_depth with_journal]. rewrite Hreg.
  rewrite run_bind. unfold call_provider at 1. rewrite Hsig.
  destruct valid; cbn [negb].
  - unfold try_except.
    match goal with
    | |- context [bind ?m ?k ?w2] =>
        assert (Hret : returns_only (bind m k)
                         (fun d => success_response d
                                   \/ failure_response d));
        [|specialize (Hret w2); destruct (bind m k w2) as [[d|e] w3]]
    end.
    { repeat returns_only_step;
        first [ left; reflexivity
              | right; split; [reflexivity|eexists; reflexivity] ]. }
    + eexists d, _. split; [reflexivity|]. exact Hret.
    + eexists _, _. split; [reflexivity|].
      right; split; [reflexivity|eexists; reflexivity].
  - eexists _, _. split; [reflexivity|].
    right; split; [reflexivity|eexists; reflexivity].
Qed.

(** X18. The webhook endpoint never raises.  It answers 500 exactly when
    [process_webhook] raises, which is exactly when the provider code is
    unknown or the provider's signature check itself raises; it answers
    200 'OK' exactly when [process_webhook] returns a response that reports
    success, and 400 'Error' for every response that reports failure, an
    invalid signature included.  The rows are those [process_webhook]
    leaves. *)
Theorem webhook_endpoint_status
    (provider_code : string) (request : HttpRequest) (w : World) :
  exists r,
    PaymentWebhookView_post provider_code request w
    = (Returned r,
       (PaymentService.process_webhook provider_code request w).2) /\
    match (PaymentService.process_webhook provider_code request w).1 with
    | Raised _ => r = mkResponse "Error" 500
    | Returned d =>
        (success_response d /\ r = mkResponse "OK" 200)
        \/ (failure_response d /\ r = mkResponse "Error" 400)
    end /\
    (status_code r = 500 <->
     match registry w !! provider_code with
     | None => True
     | Some provider =>
         exists e,
           Provider.validate_webhook_signature provider request = Raised e
     end).
Proof.
  pose proof (process_webhook_cases provider_code request w) as Hcases.
  unfold PaymentWebhookView_post, try_except. rewrite run_bind.
  destruct (registry w !! provider_code) as [provider|].
  - destruct (Provider.validate_webhook_signature provider request)
      as [valid|e].
    + destruct Hcases as (d & w' & Hrun & Hd). rewrite Hrun. cbn [fst snd].
      destruct Hd as [Hd|[Hd He]].
      * unfold success_response in Hd. rewrite Hd. cbn [pyval_truthy].
        eexists. split; [reflexivity|].
        split; [left; split; [exact Hd|reflexivity]|].
        cbn [status_code]. split; [discriminate|].
        intros [e He]. discriminate.
      * rewrite Hd. cbn [pyval_truthy].
        eexists. split; [reflexivity|].
        split; [right; split; [split; assumption|reflexivity]|].
        cbn [status_code]. split; [discriminate|].
        intros [e He']. discriminate.
    + destruct Hcases as (w' & Hrun). rewrite Hrun. cbn [fst snd].
      eexists. split; [reflexivity|]. split; [reflexivity|].
      split; [intros _; eexists; reflexivity|reflexivity].
  - destruct Hcases as (e & w' & Hrun). rewrite Hrun. cbn [fst snd].
    eexists. split; [reflexivity|]. split; [reflexivity|].
    split; auto.
Qed.
(** ** The status classes of a payment *)

(** X19. The status properties of [Payment] partition the statuses: a
    payment is pending, or capturable, or successful, or failed, never two
    of these at once; it is none of them exactly when it is [refunded] or
    [partially_refunded]; and it can be refunded exactly when it is
    successful, so that a payment that has been refunded, in part or in
    full, can never be refunded again. *)
Theorem payment_status_classes (p : Payment.t) :
  let classes :=
    [is_pending p; Payment.can_be_captured p; Payment.is_successful p;
     is_failed p] in
  (length (List.filter id classes) <= 1)%nat /\
  (List.filter id classes = []
   <-> Payment.status p ∈ [PaymentStatus.refunded;
                           PaymentStatus.partially_refunded]) /\
  Payment.can_be_refunded p = Payment.is_successful p.
Proof.
  unfold is_pending, is_failed, Payment.can_be_captured,
    Payment.is_successful, Payment.can_be_refunded.
  destruct (Payment.status p); eval_bool_decide; cbn; (split; [lia|]);
    (split; [|reflexivity]);
    (split; [intros H; try discriminate H|intros H]);
    try (apply (bool_decide_eq_true_1 _); reflexivity);
    try (apply (bool_decide_eq_true_2 _) in H; discriminate H);
    reflexivity.
Qed.
(** ** Amounts in provider format *)

Lemma ndigits_fuel_bound (fuel : nat) (k : nat) (n : Z) :
  0 <= n < 10 ^ Z.of_nat (S k) ->
  1 <= Decimal.ndigits_fuel fuel n <= Z.of_nat (S k).
Proof.
  revert k n. induction fuel as [|fuel IH]; intros k n Hn.
  - cbn [Decimal.ndigits_fuel]. lia.
  - cbn [Decimal.ndigits_fuel]. destruct (Z.ltb_spec n 10); [lia|].
    destruct k as [|k].
    + change (10 ^ Z.of_nat 1) with 10 in Hn. lia.
    + assert (Hdiv : 0 <= n / 10 < 10 ^ Z.of_nat (S k)).
      { split; [apply Z.div_pos; lia|].
        apply Z.div_lt_upper_bound; [lia|].
        rewrite <- Z.pow_succ_r by lia.
        rewrite <- Nat2Z.inj_succ. lia. }
      specialize (IH k (n / 10) Hdiv). lia.
Qed.

Lemma strip_zeros_power (k fuel : nat) (m e ideal : Z) :
  e + Z.of_nat k <= ideal ->
  strip_zeros (k + fuel) (m * 10 ^ Z.of_nat k) e ideal
  = strip_zeros fuel m (e + Z.of_nat k) ideal.
Proof.
  revert e. induction k as [|k IH]; intros e Hk.
  - cbn [Nat.add]. rewrite Z.pow_0_r, Z.mul_1_r, Z.add_0_r. reflexivity.
  - cbn [Nat.add strip_zeros].
    rewrite Nat2Z.inj_succ, Z.pow_succ_r in * by lia.
    assert (He : (e <? ideal) = true) by (apply Z.ltb_lt; lia).
    rewrite He. cbn [andb].
    replace (m * (10 * 10 ^ Z.of_nat k)) with (m * 10 ^ Z.of_nat k * 10)
      by ring.
    rewrite Z.mod_mul by lia. cbn [Z.eqb].
    rewrite Z.div_mul by lia.
    rewrite IH by lia. f_equal. lia.
Qed.

Lemma strip_zeros_value (fuel : nat) (m e ideal : Z) :
  0 <= m -> e <= ideal ->
  exists j,
    0 <= j /\
    (strip_zeros fuel m e ideal).2 = e + j /\
    e + j <= ideal /\
    m = (strip_zeros fuel m e ideal).1 * 10 ^ j /\
    0 <= (strip_zeros fuel m e ideal).1 <= m.
Proof.
  revert m e. induction fuel as [|fuel IH]; intros m e Hm He.
  - exists 0. cbn. rewrite Z.mul_1_r. lia.
  - cbn [strip_zeros].
    destruct (Z.ltb_spec e ideal) as [Hlt|Hge]; cbn [andb].
    + destruct (Z.eqb_spec (m mod 10) 0) as [Hmod|Hmod].
      * assert (Hdiv : 0 <= m / 10) by (apply Z.div_pos; lia).
        destruct (IH (m / 10) (e + 1) Hdiv ltac:(lia))
          as (j & Hj & Hexp & Hle & Hval & Hbound).
        exists (j + 1). split; [lia|]. split; [rewrite Hexp; lia|].
        split; [lia|]. split.
        -- rewrite Z.pow_add_r by lia. rewrite Z.pow_1_r.
           rewrite Z.mul_assoc, <- Hval.
           pose proof (Z.div_mod m 10 ltac:(lia)). lia.
        -- pose proof (Z.div_mod m 10 ltac:(lia)). lia.
      * exists 0. cbn. rewrite Z.mul_1_r. lia.
    + exists 0. cbn. rewrite Z.mul_1_r. lia.
Qed.

Lemma div_by_100 (c : Z) :
  Z.abs c < 10 ^ 10 ->
  exists back,
    Decimal_div (Decimal.of_int c) (Decimal.of_int 100) = Some back /\
    Decimal.compare back (Decimal.cents c) = Eq.
Proof.
  intros Hc. unfold Decimal_div, Decimal.of_int.
  cbn [Decimal.coeff Decimal.exponent].
  change (100 =? 0) with false. cbv iota.
  destruct (Z.eqb_spec c 0) as [->|Hnz].
  - eexists. split; [reflexivity|]. reflexivity.
  - change (Decimal.ndigits 100) with 3. change (Z.sgn 100) with 1.
    change (Z.abs 100) with 100. rewrite Z.sub_diag, Z.mul_1_r.
    assert (Hnd : 1 <= Decimal.ndigits c <= 10).
    { unfold Decimal.ndigits.
      apply (ndigits_fuel_bound _ 9). change (Z.of_nat 10) with 10. lia. }
    set (shift := 3 - Decimal.ndigits c + Decimal.prec + 1).
    assert (Hshift : 22 <= shift <= 31) by (unfold shift, Decimal.prec; lia).
    destruct (Z.leb_spec 0 shift) as [_|]; [|lia].
    assert (Hnum : Z.abs c * 10 ^ shift
                   = Z.abs c * 10 ^ Z.of_nat (Z.to_nat (shift - 2)) * 100).
    { rewrite Z2Nat.id by lia.
      replace shift with (shift - 2 + 2) at 1 by lia.
      rewrite Z.pow_add_r by lia. change (10 ^ 2) with 100. ring. }
    rewrite Hnum. rewrite Z.mod_mul by lia. rewrite Z.div_mul by lia.
    change (0 =? 0) with true. cbv iota.
    replace (Z.to_nat (0 - (0 - shift)))
      with (Z.to_nat (shift - 2) + 2)%nat by lia.
    rewrite strip_zeros_power by lia.
    rewrite Z2Nat.id by lia.
    replace (0 - shift + (shift - 2)) with (-2) by lia.
    destruct (strip_zeros_value 2 (Z.abs c) (-2) 0 ltac:(lia) ltac:(lia))
      as (j & Hj & Hexp & Hle & Hval & Hbound).
    destruct (strip_zeros 2 (Z.abs c) (-2) 0) as [c' e'].
    cbn [fst snd] in *. subst e'.
    rewrite fix_small
      by (cbn [Decimal.coeff]; unfold Decimal.prec;
          rewrite Z.abs_mul; pose proof (Z.sgn_spec c); lia).
    eexists. split; [reflexivity|].
    unfold Decimal.compare, Decimal.coeff_at, Decimal.cents.
    cbn [Decimal.coeff Decimal.exponent].
    rewrite Z.min_r by lia.
    replace (-2 + j - -2) with j by lia.
    rewrite Z.sub_diag, Z.pow_0_r, Z.mul_1_r.
    rewrite <- Z.mul_assoc, <- Hval.
    rewrite Z.mul_comm, Z.abs_sgn. apply Z.compare_refl.
Qed.

(** X20. Amounts survive the trip to provider format and back.  For an
    amount stored as a two-place decimal column and a currency whose
    upper-cased code is EUR, USD or GBP, [format_amount] is exactly the
    amount in cents, with no rounding, and [parse_amount] of that integer
    raises nothing and compares equal to the amount.  For any other
    currency [format_amount] drops the fraction, truncating toward zero,
    and [parse_amount] gives that integer back. *)
Theorem parse_amount_inverts_format_amount
    (upper : string -> string) (amount : decimal) (currency : string) :
  money_field amount ->
  (upper currency ∈ ["EUR"; "USD"; "GBP"] ->
   format_amount upper amount currency = Decimal.coeff amount /\
   exists back,
     parse_amount upper (format_amount upper amount currency) currency
     = Some back /\
     Decimal.compare back amount = Eq) /\
  (upper currency ∉ ["EUR"; "USD"; "GBP"] ->
   format_amount upper amount currency
   = Z.quot (Decimal.coeff amount) 100 /\
   parse_amount upper (format_amount upper amount currency) currency
   = Some (Decimal.of_int (Z.quot (Decimal.coeff amount) 100))).
Proof.
  intros [Hexp Hbound]. destruct amount as [c e].
  cbn [Decimal.coeff Decimal.exponent] in *. subst e.
  unfold format_amount, parse_amount. split; intros Hcur.
  - rewrite (bool_decide_eq_true_2 _ Hcur).
    assert (Hfmt : Decimal_to_int
                     (Decimal.mul (Decimal.mk c (-2)) (Decimal.of_int 100))
                   = c).
    { unfold Decimal.of_int. rewrite mul_exact
        by (unfold Decimal.prec; lia).
      unfold Decimal_to_int. cbn [Decimal.coeff Decimal.exponent].
      change (0 <=? -2 + 0) with false. cbv iota.
      change (10 ^ (- (-2 + 0))) with 100.
      apply Z.quot_mul. lia. }
    rewrite Hfmt. split; [reflexivity|].
    exact (div_by_100 c Hbound).
  - rewrite (bool_decide_eq_false_2 _ Hcur).
    unfold Decimal_to_int. cbn [Decimal.coeff Decimal.exponent].
    split; reflexivity.
Qed.
(** ** The provider registry *)

Lemma load_providers_loaded
    (paths : list string) (import_class : string -> outcome Registry.ProviderClass)
    (self : Registry.t) :
  Registry._loaded self = true ->
  Registry.load_providers paths import_class self = self.
Proof. intros H. unfold Registry.load_providers. rewrite H. reflexivity. Qed.

Lemma load_providers_is_loaded
    (paths : list string) (import_class : string -> outcome Registry.ProviderClass)
    (self : Registry.t) :
  Registry._loaded (Registry.load_providers paths import_class self) = true.
Proof.
  unfold Registry.load_providers.
  destruct (Registry._loaded self) eqn:H; [exact H|reflexivity].
Qed.

Lemma prefix_app (p s : string) : String.prefix p (p +:+ s) = true.
Proof.
  induction p as [|c p IH]; [destruct s; reflexivity|].
  change (String.prefix (String c p) (String c (p +:+ s)) = true).
  cbn [String.prefix].
  destruct (Ascii.ascii_dec c c); [exact IH|contradiction].
Qed.

Lemma string_app_assoc (a b c : string) : a +:+ b +:+ c = (a +:+ b) +:+ c.
Proof.
  induction a as [|x a IH]; [reflexivity|].
  change (String x (a +:+ b +:+ c) = String x ((a +:+ b) +:+ c)).
  f_equal. exact IH.
Qed.

Lemma prefix_app_r (p s t : string) :
  String.prefix p s = true -> String.prefix p (s +:+ t) = true.
Proof.
  revert s. induction p as [|c p IH]; intros s H.
  - destruct (s +:+ t); reflexivity.
  - destruct s as [|c' s]; [discriminate|].
    change (String.prefix (String c p) (String c' (s +:+ t)) = true).
    cbn [String.prefix] in *.
    destruct (Ascii.ascii_dec c c'); [apply IH, H|discriminate].
Qed.

(** X21. [get_provider] serves the cached instance for as long as the cache
    holds it, whatever has since been registered: once a lookup has
    returned an instance for a code and configuration, registering another
    class under the same code succeeds and yet the same lookup keeps
    returning the first instance, leaving the registry as it is; only after
    [clear_cache] does the lookup construct an instance of the newly
    registered class (or give [None] when its constructor raises). *)
Theorem get_provider_serves_cached_instance
    (paths : list string)
    (import_class : string -> outcome Registry.ProviderClass)
    (config_hash : option json -> Z)
    (code : string) (config : option json)
    (self self1 : Registry.t) (instance : Provider.t)
    (replacement : Registry.ProviderClass) :
  Registry.get_provider paths import_class config_hash code config self
  = (Some instance, self1) ->
  Registry.class_code replacement = code ->
  code <> "" ->
  exists self2,
    Registry.register_provider replacement self1 = (Returned tt, self2) /\
    Registry.get_provider paths import_class config_hash code config self2
    = (Some instance, self2) /\
    (Registry.get_provider paths import_class config_hash code config
       (Registry.clear_cache self2)).1
    = match Registry.construct replacement config with
      | Returned fresh => Some fresh
      | Raised _ => None
      end.
Proof.
  intros Hget Hcode Hne.
  assert (Hself1 : Registry._loaded self1 = true /\
                   Registry._instances self1
                   !! Registry.cache_key config_hash code config
                   = Some instance).
  { unfold Registry.get_provider in Hget.
    pose proof (load_providers_is_loaded paths import_class self) as Hl.
    destruct (Registry._instances _ !! _) as [cached|] eqn:Hc.
    - injection Hget as <- <-. auto.
    - destruct (Registry._providers _ !! code) as [cls|]; [|discriminate].
      destruct (Registry.construct cls config) as [inst|e]; [|discriminate].
      injection Hget as <- <-. cbn. split; [exact Hl|].
      apply lookup_insert_eq. }
  destruct Hself1 as [Hloaded Hcached].
  unfold Registry.register_provider.
  rewrite Hcode, (bool_decide_eq_false_2 _ Hne).
  eexists. split; [reflexivity|]. split.
  - unfold Registry.get_provider.
    rewrite load_providers_loaded by exact Hloaded.
    cbn [Registry._instances]. rewrite Hcached.
    reflexivity.
  - unfold Registry.get_provider, Registry.clear_cache.
    rewrite load_providers_loaded by exact Hloaded.
    cbn [Registry._instances Registry._providers].
    rewrite lookup_empty, lookup_insert_eq.
    destruct (Registry.construct replacement config); reflexivity.
Qed.

(** X22. On a registry that has read the settings, [unregister_provider]
    removes the provider for good: [is_provider_available] answers [False]
    and [get_provider] gives [None] for every configuration, constructing
    nothing.  The cache eviction goes by key prefix, so it also drops the
    cached instances of every other provider whose code starts with the
    unregistered code followed by an underscore; cached instances under all
    other keys stay. *)
Theorem unregister_provider_forgets_provider
    (paths : list string)
    (import_class : string -> outcome Registry.ProviderClass)
    (config_hash : option json -> Z)
    (code : string) (self : Registry.t) :
  Registry._loaded self = true ->
  let self' := Registry.unregister_provider code self in
  Registry.is_provider_available paths import_class code self'
  = (false, self') /\
  (forall config,
     Registry.get_provider paths import_class config_hash code config self'
     = (None, self')) /\
  (forall other config,
     String.prefix (code +:+ "_") other = true ->
     Registry._instances self'
     !! Registry.cache_key config_hash other config = None) /\
  (forall key,
     String.prefix (code +:+ "_") key = false ->
     Registry._instances self' !! key = Registry._instances self !! key).
Proof.
  intros Hloaded self'.
  assert (Hl : Registry._loaded self' = true) by exact Hloaded.
  assert (Hevict : forall key,
             String.prefix (code +:+ "_") key = true ->
             Registry._instances self' !! key = None).
  { intros key Hp. apply map_lookup_filter_None. right.
    intros instance _. cbn. rewrite Hp. discriminate. }
  split; [|split; [|split]].
  - unfold Registry.is_provider_available.
    rewrite load_providers_loaded by exact Hl.
    cbn [Registry._providers Registry.unregister_provider self'].
    rewrite lookup_delete_eq.
    rewrite bool_decide_eq_false_2; [reflexivity|].
    intros [x Hx]. discriminate.
  - intros config. unfold Registry.get_provider.
    rewrite load_providers_loaded by exact Hl.
    rewrite Hevict
      by (unfold Registry.cache_key; rewrite string_app_assoc;
          apply prefix_app).
    cbn [Registry._providers Registry.unregister_provider self'].
    rewrite lookup_delete_eq. reflexivity.
  - intros other config Hp. apply Hevict.
    unfold Registry.cache_key. apply prefix_app_r, Hp.
  - intros key Hp.
    cbn [Registry._instances Registry.unregister_provider self'].
    destruct (Registry._instances self !! key) as [instance|] eqn:Hk.
    + apply map_lookup_filter_Some. split; [exact Hk|exact Hp].
    + apply map_lookup_filter_None. left. exact Hk.
Qed.
Lemma load_provider_class_keeps
    (import_class : string -> outcome Registry.ProviderClass)
    (path code : string) (self : Registry.t) :
  is_Some (Registry._providers self !! code) ->
  is_Some (Registry._providers
             (Registry._load_provider_class import_class path self).2
           !! code).
Proof.
  intros Hsome. unfold Registry._load_provider_class.
  destruct (import_class path) as [cls|e]; [|exact Hsome].
  destruct (bool_decide (Registry.class_code cls = "")); [exact Hsome|].
  cbn. destruct (decide (Registry.class_code cls = code)) as [->|Hne].
  - rewrite lookup_insert_eq. eexists. reflexivity.
  - rewrite lookup_insert_ne by exact Hne. exact Hsome.
Qed.

Lemma load_registers
    (import_class : string -> outcome Registry.ProviderClass)
    (code : string) (paths : list string) (self : Registry.t) :
  is_Some (Registry._providers self !! code)
  \/ (exists path cls,
        path ∈ paths /\ import_class path = Returned cls /\
        Registry.class_code cls = code /\ code <> "") ->
  is_Some (Registry._providers
             (fold_left (fun self provider_path =>
                           (Registry._load_provider_class import_class
                              provider_path self).2) paths self)
           !! code).
Proof.
  revert self. induction paths as [|p paths IH]; intros self H.
  - destruct H as [H|(path & cls & Hin & _)]; [exact H|inversion Hin].
  - cbn [fold_left]. apply IH.
    destruct H as [H|(path & cls & Hin & Himp & Hcode & Hne)].
    + left. apply load_provider_class_keeps, H.
    + apply elem_of_cons in Hin as [->|Hin].
      * left. unfold Registry._load_provider_class. rewrite Himp.
        rewrite Hcode, (bool_decide_eq_false_2 _ Hne). cbn.
        rewrite lookup_insert_eq. eexists. reflexivity.
      * right. exists path, cls. auto.
Qed.

(** X23. Unregistering a provider before the registry has read the settings
    does not last: the next query loads the settings, and a provider that
    the settings list under a path that imports is available again. *)
Theorem unregister_before_load_is_undone
    (paths : list string)
    (import_class : string -> outcome Registry.ProviderClass)
    (path : string) (cls : Registry.ProviderClass) (self : Registry.t) :
  Registry._loaded self = false ->
  path ∈ paths ->
  import_class path = Returned cls ->
  Registry.class_code cls <> "" ->
  (Registry.is_provider_available paths import_class
     (Registry.class_code cls)
     (Registry.unregister_provider (Registry.class_code cls) self)).1
  = true.
Proof.
  intros Hloaded Hin Himp Hne.
  unfold Registry.is_provider_available, Registry.load_providers.
  cbn [Registry._loaded Registry.unregister_provider]. rewrite Hloaded.
  cbn [fst Registry._providers].
  apply bool_decide_eq_true_2, load_registers.
  right. exists path, cls. auto.
Qed.
(** ** Checkout data and order summary *)

Lemma errors_fold_keys (prefix : string) (data : pydict)
    (fields : list string) (acc : gmap string string) (k : string) :
  is_Some (fold_left (fun errors field =>
                        if field_blank data field
                        then <[prefix +:+ field
                               := "Este campo es obligatorio"]> errors
                        else errors) fields acc !! k)
  <-> is_Some (acc !! k)
      \/ exists f, f ∈ fields /\ field_blank data f = true /\
                   k = prefix +:+ f.
Proof.
  revert acc. induction fields as [|f fields IH]; intros acc.
  - cbn [fold_left]. split; [auto|].
    intros [H|(f & Hin & _)]; [exact H|inversion Hin].
  - cbn [fold_left]. rewrite IH. clear IH.
    destruct (field_blank data f) eqn:Hblank.
    + split.
      * intros [H|(g & Hin & Hg & Hk)].
        -- destruct (decide (prefix +:+ f = k)) as [<-|Hne].
           ++ right. exists f. split; [apply list_elem_of_here|]. auto.
           ++ rewrite lookup_insert_ne in H by exact Hne. auto.
        -- right. exists g. split; [apply list_elem_of_further, Hin|]. auto.
      * intros [H|(g & Hin & Hg & Hk)].
        -- left. destruct (decide (prefix +:+ f = k)) as [<-|Hne].
           ++ rewrite lookup_insert_eq. eexists. reflexivity.
           ++ rewrite lookup_insert_ne by exact Hne. exact H.
        -- apply elem_of_cons in Hin as [->|Hin].
           ++ left. subst k. rewrite lookup_insert_eq. eexists. reflexivity.
           ++ right. exists g. auto.
    + split.
      * intros [H|(g & Hin & Hg & Hk)]; [auto|].
        right. exists g. split; [apply list_elem_of_further, Hin|]. auto.
      * intros [H|(g & Hin & Hg & Hk)]; [auto|].
        apply elem_of_cons in Hin as [->|Hin]; [congruence|].
        right. exists g. auto.
Qed.

Lemma errors_fold_values (prefix : string) (data : pydict)
    (fields : list string) (acc : gmap string string) :
  (forall k v, acc !! k = Some v -> v = "Este campo es obligatorio") ->
  forall k v,
    fold_left (fun errors field =>
                 if field_blank data field
                 then <[prefix +:+ field
                        := "Este campo es obligatorio"]> errors
                 else errors) fields acc !! k = Some v ->
    v = "Este campo es obligatorio".
Proof.
  revert acc. induction fields as [|f fields IH]; intros acc Hacc k v;
    [apply Hacc|].
  cbn [fold_left]. apply IH. destruct (field_blank data f); [|exact Hacc].
  intros k' v'. destruct (decide (prefix +:+ f = k')) as [<-|Hne].
  - rewrite lookup_insert_eq. intros [= <-]. reflexivity.
  - rewrite lookup_insert_ne by exact Hne. apply Hacc.
Qed.

(** X24. [validate_order_data] reports exactly the required fields that are
    missing or falsy: the result has the key ['billing_' + field] (with the
    fixed message) precisely for the required billing fields that the
    billing data lacks or holds as a falsy value, and likewise
    ['shipping_' + field]; no other key ever appears, so optional and
    unknown fields are never reported.  The result is empty exactly when
    all six required fields of both mappings are truthy. *)
Theorem validate_order_data_reports_blank_required_fields
    (billing_data shipping_data : pydict) :
  (forall k v,
     validate_order_data billing_data shipping_data !! k = Some v <->
     v = "Este campo es obligatorio" /\
     ((exists f, f ∈ required_billing_fields /\
                 field_blank billing_data f = true /\
                 k = "billing_" +:+ f)
      \/ (exists f, f ∈ required_shipping_fields /\
                    field_blank shipping_data f = true /\
                    k = "shipping_" +:+ f))) /\
  (validate_order_data billing_data shipping_data = ∅ <->
   (forall f, f ∈ required_billing_fields ->
              field_blank billing_data f = false) /\
   (forall f, f ∈ required_shipping_fields ->
              field_blank shipping_data f = false)).
Proof.
  assert (Hkeys : forall k,
            is_Some (validate_order_data billing_data shipping_data !! k) <->
            (exists f, f ∈ required_billing_fields /\
                       field_blank billing_data f = true /\
                       k = "billing_" +:+ f)
            \/ (exists f, f ∈ required_shipping_fields /\
                          field_blank shipping_data f = true /\
                          k = "shipping_" +:+ f)).
  { intros k. unfold validate_order_data.
    rewrite errors_fold_keys, errors_fold_keys.
    rewrite lookup_empty. split.
    - intros [[[x Hx]|H]|H]; [discriminate|auto|auto].
    - intros [H|H]; auto. }
  assert (Hvals : forall k v,
            validate_order_data billing_data shipping_data !! k = Some v ->
            v = "Este campo es obligatorio").
  { unfold validate_order_data. apply errors_fold_values.
    apply errors_fold_values. intros k v. rewrite lookup_empty.
    discriminate. }
  split.
  - intros k v. split.
    + intros H. split; [exact (Hvals k v H)|].
      apply Hkeys. eexists. exact H.
    + intros [-> H]. apply Hkeys in H as [v Hv].
      rewrite Hv. f_equal. exact (Hvals k v Hv).
  - split.
    + intros Hempty. split; intros f Hf;
        destruct (field_blank _ f) eqn:Hb; try reflexivity; exfalso.
      * assert (Hs : is_Some (validate_order_data billing_data shipping_data
                              !! ("billing_" +:+ f)))
          by (apply Hkeys; left; exists f; auto).
        rewrite Hempty, lookup_empty in Hs. destruct Hs. discriminate.
      * assert (Hs : is_Some (validate_order_data billing_data shipping_data
                              !! ("shipping_" +:+ f)))
          by (apply Hkeys; right; exists f; auto).
        rewrite Hempty, lookup_empty in Hs. destruct Hs. discriminate.
    + intros [Hb Hs]. apply map_empty. intros k.
      apply eq_None_not_Some. intros Hsome. apply Hkeys in Hsome.
      destruct Hsome as [(f & Hin & Hblank & _)|(f & Hin & Hblank & _)].
      * rewrite (Hb f Hin) in Hblank. discriminate.
      * rewrite (Hs f Hin) in Hblank. discriminate.
Qed.
Lemma cancel_order_returns (order : Order.t) (reason : string) (w : World) :
  Order.status order ∈ Transition.source Transition.cancel ->
  exists order' w',
    OrderService.cancel_order order reason w = (Returned order', w') /\
    Order.status order' = OrderStatus.canceled.
Proof.
  intros Hsrc.
  destruct (decide (Order.status order
                    ∈ [OrderStatus.paid; OrderStatus.processing]))
    as [Hpaid|Hno].
  - destruct (cancel_order_rows order reason w Hpaid)
      as (order' & w' & Hrun & Hst & _).
    exists order', w'. auto.
  - unfold OrderService.cancel_order. rewrite run_atomic.
    rewrite (bool_decide_eq_true_2 _ Hsrc). cbn [negb].
    rewrite run_bind.
    rewrite (bool_decide_eq_false_2 _ Hno).
    unfold ret at 1. cbv beta iota. rewrite run_bind.
    unfold cancel. rewrite (transition_inside_sources _ _ _ _ Hsrc).
    unfold ret, Order_save, bind, write. cbv beta iota zeta.
    eexists _, _. split; [reflexivity|].
    destruct (bool_decide _); reflexivity.
Qed.

Lemma fold_left_add (qs : list Z) (acc : Z) :
  fold_left Z.add qs acc = acc + fold_right Z.add 0 qs.
Proof.
  revert acc. induction qs as [|q qs IH]; intros acc.
  - cbn. lia.
  - cbn [fold_left fold_right]. rewrite IH. lia.
Qed.

Lemma fold_left_add_total (qs : list Z) :
  fold_left Z.add qs 0 = fold_right Z.add 0 qs.
Proof. rewrite fold_left_add. lia. Qed.

(** X25. [get_order_summary] only reads, counts the ordered units over the
    order's lines, and reports [can_be_paid] exactly for an order awaiting
    payment.  Its [can_be_canceled] is narrower than [cancel_order]:
    whenever it is true [cancel_order] does cancel the order, but for an
    order in [processing] it is false although [cancel_order] cancels that
    order too. *)
Theorem get_order_summary_cancel_flag_is_narrower
    (order : Order.t) (reason : string) (w : World) :
  exists summary,
    get_order_summary order w = (Returned summary, w) /\
    summary_total_items summary
    = fold_right Z.add 0
        (map (fun item => OrderItem.quantity item.1)
           (items_select_related_product (db w) order)) /\
    (summary_can_be_paid summary = true
     <-> Order.status order = OrderStatus.pending_payment) /\
    (summary_can_be_canceled summary = true ->
     exists order' w',
       OrderService.cancel_order order reason w = (Returned order', w') /\
       Order.status order' = OrderStatus.canceled) /\
    (Order.status order = OrderStatus.processing ->
     summary_can_be_canceled summary = false /\
     exists order' w',
       OrderService.cancel_order order reason w = (Returned order', w') /\
       Order.status order' = OrderStatus.canceled).
Proof.
  eexists. split; [reflexivity|]. cbn [summary_total_items
    summary_can_be_paid summary_can_be_canceled].
  split.
  { apply fold_left_add_total. }
  split; [apply bool_decide_eq_true|].
  split.
  - intros Hflag. apply bool_decide_eq_true_1 in Hflag.
    apply cancel_order_returns.
    apply (status_in_wider _ _ _) with (2 := Hflag). reflexivity.
  - intros Hst. rewrite Hst. split; [reflexivity|].
    apply cancel_order_returns. rewrite Hst.
    apply (bool_decide_eq_true_1 _). reflexivity.
Qed.

Lemma coeff_total_app (xs ys : list decimal) :
  coeff_total (xs ++ ys) = coeff_total xs + coeff_total ys.
Proof.
  unfold coeff_total. induction xs as [|x xs IH]; [reflexivity|].
  cbn [app fold_right]. rewrite IH. lia.
Qed.

(** X26. [OrderItem.objects.create] refuses a second line for a product
    the order already has: it raises [IntegrityError] and writes nothing.
    For a product the order does not have yet it stores the line total it
    computes, not the one it is given: for a unit price held as a two-place
    decimal and a quantity (not negative) whose product with it fits the
    column, the stored line total is exactly [quantity * unit_price], a
    two-place decimal again, whatever [line_total] argument was passed; the
    row is appended to the order's lines, which stay one per product, and
    nothing else changes.  [calculate_totals] then finds the subtotal grown
    by exactly that amount. *)
Theorem order_item_create_recomputes_line_total
    (order : Order.t) (product_id : pk) (quantity : Z)
    (unit_price line_total : decimal) (w : World) :
  money_field unit_price ->
  0 <= quantity ->
  quantity * Z.abs (Decimal.coeff unit_price) < 10 ^ 10 ->
  Forall money_field (map OrderItem.line_total (Order_items (db w) order)) ->
  Z.of_nat (length (Order_items (db w) order)) < 10 ^ 15 ->
  (product_id ∈ map OrderItem.product_id (Order_items (db w) order) ->
   exists msg,
     OrderItem_objects_create (Order.id order) product_id quantity unit_price
       line_total w = (Raised (IntegrityError msg), w)) /\
  (product_id ∉ map OrderItem.product_id (Order_items (db w) order) ->
   exists item w',
     OrderItem_objects_create (Order.id order) product_id quantity unit_price
       line_total w = (Returned item, w') /\
     OrderItem.line_total item
     = Decimal.mk (quantity * Decimal.coeff unit_price) (-2) /\
     money_field (OrderItem.line_total item) /\
     order_items (db w') = order_items (db w) ++ [item] /\
     Order_items (db w') order = Order_items (db w) order ++ [item] /\
     (NoDup (map OrderItem.product_id (Order_items (db w) order)) ->
      NoDup (map OrderItem.product_id (Order_items (db w') order))) /\
     orders (db w') = orders (db w) /\
     products (db w') = products (db w) /\
     Order.subtotal (calculate_totals (db w') order)
     = Decimal.mk
         (coeff_total (map OrderItem.line_total (Order_items (db w) order))
          + quantity * Decimal.coeff unit_price) (-2)).
Proof.
  intros [Hexp Hbound] Hq Hfit Hmoney Hlen.
  destruct unit_price as [c e]. cbn [Decimal.coeff Decimal.exponent] in *.
  subst e.
  assert (Hline : Decimal.mul (Decimal.of_int quantity) (Decimal.mk c (-2))
                  = Decimal.mk (quantity * c) (-2)).
  { unfold Decimal.of_int. rewrite mul_exact; [reflexivity|].
    rewrite Z.abs_mul. unfold Decimal.prec. lia. }
  assert (Hm : money_field (Decimal.mk (quantity * c) (-2))).
  { split; [reflexivity|]. cbn [Decimal.coeff]. rewrite Z.abs_mul. lia. }
  unfold OrderItem_objects_create.
  cbn [OrderItem.order_id OrderItem.product_id OrderItem.quantity
       OrderItem.unit_price].
  rewrite Hline. rewrite run_bind. unfold get_db. cbv beta iota.
  change (filter (fun it => OrderItem.order_id it = Order.id order)
            (order_items (db w)))
    with (Order_items (db w) order).
  split.
  - intros Hdup. rewrite (bool_decide_eq_true_2 _ Hdup).
    eexists. reflexivity.
  - intros Hnew. rewrite (bool_decide_eq_false_2 _ Hnew).
    eexists _, _. split; [reflexivity|].
    cbn [OrderItem.line_total].
    split; [reflexivity|]. split; [exact Hm|].
    split; [reflexivity|].
    assert (Hitems : Order_items
                       (db (with_db
                              (fun d =>
                                 set_order_items
                                   (order_items d
                                    ++ [OrderItem.mk (Order.id order) product_id
                                          quantity (Decimal.mk c (-2))
                                          (Decimal.mk (quantity * c) (-2))]) d)
                              w)) order
                     = Order_items (db w) order
                       ++ [OrderItem.mk (Order.id order) product_id quantity
                             (Decimal.mk c (-2))
                             (Decimal.mk (quantity * c) (-2))]).
    { unfold Order_items. cbn [db with_db order_items set_order_items].
      rewrite filter_app. f_equal.
      rewrite filter_cons_True by reflexivity. reflexivity. }
    split; [exact Hitems|].
    split.
    { intros Hnd. rewrite Hitems, map_app. cbn [map OrderItem.product_id].
      apply NoDup_app. split; [exact Hnd|].
      split; [|apply NoDup_singleton].
      intros x Hx Hx'. apply list_elem_of_singleton in Hx'. subst x.
      exact (Hnew Hx). }
    split; [reflexivity|]. split; [reflexivity|].
    unfold calculate_totals. cbn [Order.subtotal Order.set_totals].
    rewrite Hitems, map_app. cbn [map OrderItem.line_total].
    rewrite sum_money.
    + rewrite coeff_total_app. cbn [coeff_total fold_right Decimal.coeff].
      destruct (map _ _ ++ _) eqn:Happ.
      * apply app_eq_nil in Happ as [_ Happ]. discriminate.
      * f_equal. lia.
    + apply Forall_app. split; [exact Hmoney|].
      constructor; [exact Hm|constructor].
    + rewrite length_app, length_map. cbn [length].
      rewrite Nat2Z.inj_add. change (Z.of_nat 1) with 1. lia.
Qed.

(** X27. A verified, successfully parsed notification for which the lookup
    finds no payment writes nothing and is answered with
    [{'success': False, 'error': ...}]: the error is 'Payment not found'
    when neither the external id nor the order's open payments give one,
    and the text of the exception when the lookup itself raises, as it does
    when several payments carry the notified external id. *)
Theorem process_webhook_without_payment
    (code : string) (request : HttpRequest) (provider : Provider.t)
    (result : PaymentWebhookResult) (w : World) :
  registry w !! code = Some provider ->
  Provider.validate_webhook_signature provider request = Returned true ->
  Provider.handle_webhook provider request = Returned result ->
  wh_success result = true ->
  (forall p, fst (locate_payment result code w) <> Returned (Some p)) ->
  exists w',
    PaymentService.process_webhook code request w
    = (Returned
         (dict [("success", PyBool false);
                ("error",
                 PyStr (match fst (locate_payment result code w) with
                        | Returned _ => "Payment not found"
                        | Raised e => str_exn e
                        end))]), w') /\
    db w' = db w /\
    (atomic_depth w = O -> committed w' = db w) /\
    (str_truthy (wh_payment_id result) = true ->
     (1 < length (filter (fun q => Payment.external_id q
                                   = str_or (wh_payment_id result) "")
                    (payments (db w))))%nat ->
     fst (locate_payment result code w)
     = Raised (MultipleObjectsReturned "Payment")).
Proof.
  intros Hreg Hsig Hhook Hok Hnone.
  unfold PaymentService.process_webhook.
  rewrite run_atomic, run_bind. unfold get_provider at 1.
  world_simpl. rewrite Hreg.
  rewrite run_bind. unfold call_provider at 1. rewrite Hsig.
  cbn [negb]. unfold try_except. rewrite run_bind.
  unfold call_provider at 1. rewrite Hhook, Hok. cbn [negb]. world_simpl.
  rewrite run_bind, locate_payment_run.
  match goal with
  | |- context [locate_payment result code ?w2] =>
      rewrite (locate_payment_same_rows result code w2 w)
        by reflexivity
  end.
  assert (Hmany : str_truthy (wh_payment_id result) = true ->
                  (1 < length (filter (fun q => Payment.external_id q
                                                = str_or (wh_payment_id result)
                                                    "")
                                 (payments (db w))))%nat ->
                  fst (locate_payment result code w)
                  = Raised (MultipleObjectsReturned "Payment")).
  { intros Htruthy Hlen. unfold locate_payment. rewrite run_bind, Htruthy.
    unfold Payment_get_by_external_id. rewrite run_bind.
    unfold get_db at 1. cbv beta iota.
    destruct (filter _ (payments (db w))) as [|q [|q' rest]];
      cbn [length] in Hlen; try lia.
    reflexivity. }
  destruct (fst (locate_payment result code w)) as [[p|]|e] eqn:Hloc.
  - exfalso. exact (Hnone p eq_refl).
  - unfold ret. cbv beta iota.
    eexists. split; [reflexivity|].
    destruct (atomic_depth w); world_simpl;
      repeat split; try reflexivity; try exact Hmany; intros; discriminate.
  - unfold ret. cbv beta iota.
    eexists. split; [reflexivity|].
    destruct (atomic_depth w); world_simpl;
      repeat split; try reflexivity; try exact Hmany; intros; discriminate.
Qed.

(** ** Webhook processing, case by case *)

(** C9, as the code has it.  [process_webhook] raises to its caller in two
    cases: the provider code is unknown ([ValueError]), or the provider's
    signature check itself raises; in both nothing is written.  In every
    other case it returns a dictionary that reports success or has the form
    [{'success': False, 'error': ...}], and which one is settled by the
    input: an invalid signature gives the error 'Invalid signature'; an
    exception raised by [handle_webhook] gives its text; a notification the
    provider parsed as unsuccessful gives the provider's error message; a
    payment lookup that raises gives the text of the exception; an
    unmatched payment gives 'Payment not found'; in all of these no row is
    written.  When a payment is found, one webhook transaction is recorded;
    a status other than 'completed' is answered with success; on 'completed'
    a missing order row and an order that is not awaiting payment are
    answered with the text of the exception raised while the status is
    applied, and an order awaiting payment with success. *)
Theorem process_webhook_outcome
    (provider_code : string) (request : HttpRequest) (w : World) :
  match registry w !! provider_code with
  | None =>
      exists w',
        PaymentService.process_webhook provider_code request w
        = (Raised (ValueError ("Payment provider " +:+ provider_code
                               +:+ " not available")), w')
        /\ db w' = db w
        /\ provider_calls w' = provider_calls w
  | Some provider =>
      match Provider.validate_webhook_signature provider request with
      | Raised e =>
          exists w',
            PaymentService.process_webhook provider_code request w
            = (Raised e, w')
            /\ db w' = db w
      | Returned false =>
          exists w',
            PaymentService.process_webhook provider_code request w
            = (Returned (dict [("success", PyBool false);
                               ("error", PyStr "Invalid signature")]), w')
            /\ db w' = db w
      | Returned true =>
          exists d w',
            PaymentService.process_webhook provider_code request w
            = (Returned d, w') /\
            (success_response d \/ failure_response d) /\
            match Provider.handle_webhook provider request with
            | Raised e =>
                d = dict [("success", PyBool false);
                          ("error", PyStr (str_exn e))]
                /\ db w' = db w
            | Returned result =>
                if wh_success result then
                  match fst (locate_payment result provider_code w) with
                  | Raised e =>
                      d = dict [("success", PyBool false);
                                ("error", PyStr (str_exn e))]
                      /\ db w' = db w
                  | Returned None =>
                      d = dict [("success", PyBool false);
                                ("error", PyStr "Payment not found")]
                      /\ db w' = db w
                  | Returned (Some payment) =>
                      transactions (db w')
                      = Transaction.mk (Payment.id payment)
                          TransactionType.webhook
                          (str_or (wh_transaction_id result) "")
                          (wh_amount result) (Payment.currency payment)
                          true "" (wh_raw_data result)
                        :: transactions (db w) /\
                      d = (if bool_decide (wh_status result = "completed")
                           then
                             match orders (db w) !! Payment.order_id payment
                             with
                             | None =>
                                 dict [("success", PyBool false);
                                       ("error",
                                        PyStr (str_exn
                                                 (DoesNotExist "Order")))]
                             | Some order =>
                                 if bool_decide (Order.status order
                                                 = OrderStatus.pending_payment)
                                 then
                                   dict [("success", PyBool true);
                                         ("payment_id",
                                          PyStr (Payment.id payment));
                                         ("status",
                                          PyStr (wh_status result))]
                                 else
                                   dict [("success", PyBool false);
                                         ("error",
                                          PyStr ("Order "
                                                 +:+ Order.number order
                                                 +:+ " is not in "
                                                 +:+ "pending_payment status"))]
                             end
                           else
                             dict [("success", PyBool true);
                                   ("payment_id", PyStr (Payment.id payment));
                                   ("status", PyStr (wh_status result))])
                  end
                else
                  d = dict [("success", PyBool false);
                            ("error", py_opt_str (wh_error_message result))]
                  /\ db w' = db w
            end
      end
  end.
Proof.
  destruct (registry w !! provider_code) as [provider|] eqn:Hreg.
  2:{ unfold PaymentService.process_webhook.
      rewrite run_atomic, run_bind. unfold get_provider at 1.
      world_simpl. rewrite Hreg.
      eexists; repeat split; reflexivity. }
  destruct (Provider.validate_webhook_signature provider request)
    as [valid|e] eqn:Hsig.
  2:{ unfold PaymentService.process_webhook.
      rewrite run_atomic, run_bind. unfold get_provider at 1.
      world_simpl. rewrite Hreg.
      rewrite run_bind. unfold call_provider at 1. rewrite Hsig.
      eexists; split; reflexivity. }
  destruct valid.
  2:{ unfold PaymentService.process_webhook.
      rewrite run_atomic, run_bind. unfold get_provider at 1.
      world_simpl. rewrite Hreg.
      rewrite run_bind. unfold call_provider at 1. rewrite Hsig.
      cbn [negb]. unfold ret. cbv beta iota.
      eexists. split; [reflexivity|].
      destruct (atomic_depth w); reflexivity. }
  unfold PaymentService.process_webhook.
  rewrite run_atomic, run_bind. unfold get_provider at 1.
  world_simpl. rewrite Hreg.
  rewrite run_bind. unfold call_provider at 1. rewrite Hsig.
  cbn [negb].
  unfold try_except. rewrite run_bind. unfold call_provider at 1.
  destruct (Provider.handle_webhook provider request) as [result|e].
  2:{ unfold ret. cbv beta iota.
      eexists _, _. split; [reflexivity|].
      split; [right; split; [reflexivity|eexists; reflexivity]|].
      split; [reflexivity|]. destruct (atomic_depth w); reflexivity. }
  destruct (wh_success result) eqn:Hok; cbn [negb].
  2:{ unfold ret. cbv beta iota.
      eexists _, _. split; [reflexivity|].
      split; [right; split; [reflexivity|eexists; reflexivity]|].
      split; [reflexivity|]. destruct (atomic_depth w); reflexivity. }
  world_simpl.
  rewrite run_bind, locate_payment_run.
  match goal with
  | |- context [locate_payment result provider_code ?w2] =>
      rewrite (locate_payment_same_rows result provider_code w2 w)
        by reflexivity
  end.
  destruct (fst (locate_payment result provider_code w)) as [[p|]|e] eqn:Hloc.
  - rewrite run_bind. unfold create_transaction at 1, write at 1.
    world_simpl. rewrite run_bind.
    destruct (bool_decide (wh_status result = "completed")) eqn:Hstatus.
    + rewrite run_bind. unfold mark_as_completed at 1.
      rewrite run_bind. unfold timezone_now at 1. world_simpl.
      rewrite run_bind. unfold Payment_save at 1, write at 1. world_simpl.
      unfold ret at 1. cbv beta iota.
      rewrite run_bind. unfold Payment_order at 1.
      rewrite run_bind. unfold get_db at 1. world_simpl.
      rewrite apply_optional_order_id. cbn [Payment.order_id
        Payment.set_captured_at Payment.set_status].
      destruct (orders (db w) !! Payment.order_id p) as [o|] eqn:Ho.
      * unfold ret at 1. cbv beta iota. rewrite run_bind.
        destruct (decide (Order.status o = OrderStatus.pending_payment))
          as [Hpend|Hpend].
        -- rewrite (bool_decide_eq_true_2 _ Hpend).
           match goal with
           | |- context [OrderService.process_payment_success o ?wx] =>
               destruct (process_payment_success_rows o wx Hpend)
                 as (o' & w' & Hps & _ & _ & _ & _ & _ & _ & Htx & _);
               rewrite Hps
           end.
           world_simpl_in Htx.
           unfold ret. cbv beta iota.
           eexists _, _. split; [reflexivity|].
           split; [left; reflexivity|].
           destruct (atomic_depth w); world_simpl; rewrite Htx;
             split; reflexivity.
        -- rewrite (bool_decide_eq_false_2 _ Hpend).
           rewrite (process_payment_success_not_pending o _ Hpend).
           unfold ret. cbv beta iota.
           eexists _, _. split; [reflexivity|].
           split; [right; split; [reflexivity|eexists; reflexivity]|].
           destruct (atomic_depth w); world_simpl; split; reflexivity.
      * unfold raise at 1. cbv beta iota. unfold ret. cbv beta iota.
        eexists _, _. split; [reflexivity|].
        split; [right; split; [reflexivity|eexists; reflexivity]|].
        destruct (atomic_depth w); world_simpl; split; reflexivity.
    + destruct (bool_decide (wh_status result = "failed")).
      * rewrite run_bind. unfold mark_as_failed at 1.
        rewrite run_bind. unfold timezone_now at 1. world_simpl.
        rewrite run_bind. unfold Payment_save at 1, write at 1. world_simpl.
        unfold ret. cbv beta iota.
        eexists _, _. split; [reflexivity|].
        split; [left; reflexivity|].
        destruct (atomic_depth w); world_simpl; split; reflexivity.
      * destruct (bool_decide (wh_status result = "authorized")).
        -- rewrite run_bind. unfold mark_as_authorized at 1.
           rewrite run_bind. unfold timezone_now at 1. world_simpl.
           rewrite run_bind. unfold Payment_save at 1, write at 1.
           world_simpl. unfold ret. cbv beta iota.
           eexists _, _. split; [reflexivity|].
           split; [left; reflexivity|].
           destruct (atomic_depth w); world_simpl; split; reflexivity.
        -- unfold ret. cbv beta iota.
           eexists _, _. split; [reflexivity|].
           split; [left; reflexivity|].
           destruct (atomic_depth w); world_simpl; split; reflexivity.
  - unfold ret. cbv beta iota.
    eexists _, _. split; [reflexivity|].
    split; [right; split; [reflexivity|eexists; reflexivity]|].
    split; [reflexivity|]. destruct (atomic_depth w); reflexivity.
  - unfold ret. cbv beta iota.
    eexists _, _. split; [reflexivity|].
    split; [right; split; [reflexivity|eexists; reflexivity]|].
    split; [reflexivity|]. destruct (atomic_depth w); reflexivity.
Qed.

(** ** A refund of zero *)

(** C10. For a payment that can be refunded and whose refundable amount is
    positive, an explicit amount of zero is read as no amount at all: the
    call behaves exactly as with [None], which is exactly as with the full
    refundable amount, and it does not raise the must-be-greater-than-zero
    [ValueError].  With the provider registered and the order row present,
    the call returns, and it is the refundable amount that is handed to the
    provider: the provider's [refund] is called once, with the refundable
    amount, before anything is written; an exception it raises becomes the
    error of the response and nothing is written; its answer is recorded as
    a refund transaction and repeated in the response; and when the answer
    reports success the payment is stored as [refunded] if the refundable
    amount reaches the payment's amount (the order, if [paid], is then
    stored as [refunded], and otherwise the response carries the
    invalid-transition error) and as [partially_refunded] if it does
    not. *)
Theorem refund_zero_amount_defaults_to_refundable
    (payment : Payment.t) (zero R : decimal) (reason : string) (w : World) :
  Payment.can_be_refunded payment = true ->
  fst (refundable_amount payment w) = Returned R ->
  Decimal.ltb (Decimal.of_int 0) R = true ->
  Decimal.coeff zero = 0 ->
  PaymentService.refund_payment payment (Some zero) reason w
  = PaymentService.refund_payment payment None reason w /\
  PaymentService.refund_payment payment (Some zero) reason w
  = PaymentService.refund_payment payment (Some R) reason w /\
  fst (PaymentService.refund_payment payment (Some zero) reason w)
  <> Raised (ValueError "Refund amount must be greater than zero") /\
  forall (provider : Provider.t) (order : Order.t),
    registry w !! Payment.provider_code payment = Some provider ->
    orders (db w) !! Payment.order_id payment = Some order ->
    exists d w',
      PaymentService.refund_payment payment (Some zero) reason w
      = (Returned d, w') /\
      provider_calls w'
      = provider_calls w
        ++ [mkCall (Payment.provider_code payment) "refund" (committed w)
              (db w)] /\
      match Provider.refund provider order R reason with
      | Raised e =>
          d = dict [("success", PyBool false); ("error", PyStr (str_exn e))]
          /\ db w' = db w
      | Returned result =>
          let answer :=
            dict [("success", PyBool (op_success result));
                  ("error", py_opt_str (op_error_message result));
                  ("transaction_id", py_opt_str (op_transaction_id result));
                  ("amount", py_opt_decimal (op_amount result))] in
          transactions (db w')
          = Transaction.mk (Payment.id payment) TransactionType.refund
              (str_or (op_transaction_id result) "") (op_amount result)
              (Payment.currency payment) (op_success result)
              (str_or (op_error_message result) "") (op_raw_response result)
            :: transactions (db w) /\
          if op_success result then
            if Decimal.geb R (Payment.amount payment) then
              payments (db w')
              = upsert_payment
                  (Payment.set_status PaymentStatus.refunded payment)
                  (payments (db w)) /\
              if bool_decide (Order.status order = OrderStatus.paid) then
                d = answer /\
                Order.status <$> orders (db w') !! Order.id order
                = Some OrderStatus.refunded
              else
                d = dict [("success", PyBool false);
                          ("error",
                           PyStr (str_exn
                                    (InvalidTransition (Order.status order)
                                       "refund" [OrderStatus.paid])))] /\
                orders (db w') = orders (db w)
            else
              d = answer /\
              payments (db w')
              = upsert_payment
                  (Payment.set_status PaymentStatus.partially_refunded
                     payment)
                  (payments (db w)) /\
              orders (db w') = orders (db w)
          else
            d = answer /\
            payments (db w') = payments (db w) /\
            orders (db w') = orders (db w)
      end.
Proof.
  intros Hcan HR Hpos Hzero.
  assert (Hsame : PaymentService.refund_payment payment (Some zero) reason w
                  = PaymentService.refund_payment payment None reason w).
  { unfold PaymentService.refund_payment.
    rewrite (zero_is_falsy zero Hzero). reflexivity. }
  assert (Hle : Decimal.leb R (Decimal.of_int 0) = false).
  { unfold Decimal.leb. rewrite compare_antisym.
    unfold Decimal.ltb in Hpos.
    destruct (Decimal.compare (Decimal.of_int 0) R); try discriminate.
    reflexivity. }
  assert (Hlt : Decimal.ltb R R = false)
    by (unfold Decimal.ltb; rewrite compare_refl; reflexivity).
  set (w1 := set_depth (S (atomic_depth w)) (with_journal AtomicEnter w)).
  assert (HR1 : refundable_amount payment w1 = (Returned R, w1)).
  { rewrite refundable_amount_run.
    rewrite (refundable_amount_same_rows payment w1 w) by reflexivity.
    rewrite HR. reflexivity. }
  assert (HsameR : PaymentService.refund_payment payment None reason w
                   = PaymentService.refund_payment payment (Some R) reason w).
  { unfold PaymentService.refund_payment.
    rewrite (positive_is_truthy R Hpos).
    rewrite !run_atomic. rewrite Hcan. cbn [negb]. fold w1.
    rewrite !run_bind. rewrite HR1. unfold ret at 1. cbv beta iota.
    reflexivity. }
  split; [exact Hsame|]. rewrite Hsame, HsameR. clear Hsame HsameR.
  split; [reflexivity|].
  split.
  { unfold PaymentService.refund_payment.
    rewrite (positive_is_truthy R Hpos).
    rewrite run_atomic. rewrite Hcan. cbn [negb]. fold w1.
    rewrite run_bind. unfold ret at 1. cbv beta iota.
    rewrite Hle. rewrite run_bind, HR1. cbv beta iota. rewrite Hlt.
    rewrite run_bind. unfold get_provider at 1. cbv beta iota.
    destruct (registry w1 !! Payment.provider_code payment) as [provider|].
    - unfold try_except.
      match goal with
      | |- context [bind ?m ?k w1] => destruct (bind m k w1) as [[d|e] w2]
      end; cbn; discriminate.
    - cbn. discriminate. }
  intros provider order Hreg Ho.
  unfold PaymentService.refund_payment.
  rewrite (positive_is_truthy R Hpos).
  rewrite run_atomic. rewrite Hcan. cbn [negb]. fold w1.
  rewrite run_bind. unfold ret at 1. cbv beta iota.
  rewrite Hle. rewrite run_bind, HR1. cbv beta iota. rewrite Hlt.
  rewrite run_bind. unfold get_provider at 1. cbv beta iota.
  change (registry w1) with (registry w). rewrite Hreg.
  unfold try_except at 1.
  rewrite run_bind. unfold Payment_order at 1. rewrite run_bind.
  unfold get_db at 1. cbv beta iota.
  change (orders (db w1)) with (orders (db w)). rewrite Ho.
  unfold ret at 1. cbv beta iota.
  rewrite run_bind. unfold call_provider at 1.
  subst w1. clear HR1.
  destruct (Provider.refund provider order R reason) as [result|e].
  - rewrite run_bind. unfold create_transaction at 1, write at 1.
    cbv beta iota. rewrite run_bind.
    destruct (op_success result).
    + rewrite run_bind. unfold Payment_save at 1, write at 1. cbv beta iota.
      destruct (Decimal.geb R (Payment.amount payment)).
      * rewrite (bool_decide_eq_true_2
                   (Payment.status
                      (Payment.set_status PaymentStatus.refunded payment)
                    = PaymentStatus.refunded)) by reflexivity.
        rewrite run_bind. unfold refund.
        destruct (decide (Order.status order = OrderStatus.paid)) as [Hp|Hp].
        -- assert (Hin : Order.status order
                          ∈ Transition.source Transition.refund)
             by (rewrite Hp; apply list_elem_of_here).
           rewrite (transition_inside_sources _ _ _ _ Hin).
           rewrite (bool_decide_eq_true_2 _ Hp).
           unfold ret at 1. cbv beta iota.
           rewrite run_bind. unfold Order_save at 1. rewrite run_bind.
           unfold write at 1. unfold ret. cbv beta iota.
           eexists _, _. split; [reflexivity|].
           destruct (atomic_depth w); world_simpl;
             (split; [reflexivity|]); (split; [reflexivity|]);
             (split; [reflexivity|]); (split; [reflexivity|]);
             destruct (bool_decide (Order.number _ = ""));
             cbn [Order.id Order.set_number Order.set_status];
             rewrite lookup_insert_eq; reflexivity.
        -- assert (Hout : Order.status order
                           ∉ Transition.source Transition.refund).
           { cbn. intros Hin. apply list_elem_of_singleton in Hin.
             contradiction. }
           rewrite (transition_outside_sources _ _ _ _ Hout).
           rewrite (bool_decide_eq_false_2 _ Hp).
           unfold ret. cbv beta iota.
           eexists _, _. split; [reflexivity|].
           destruct (atomic_depth w); world_simpl; repeat split; reflexivity.
      * rewrite (bool_decide_eq_false_2
                   (Payment.status
                      (Payment.set_status PaymentStatus.partially_refunded
                         payment)
                    = PaymentStatus.refunded)) by discriminate.
        unfold ret. cbv beta iota.
        eexists _, _. split; [reflexivity|].
        destruct (atomic_depth w); world_simpl; repeat split; reflexivity.
    + unfold ret. cbv beta iota.
      eexists _, _. split; [reflexivity|].
      destruct (atomic_depth w); world_simpl; repeat split; reflexivity.
  - unfold ret. cbv beta iota.
    eexists _, _. split; [reflexivity|].
    destruct (atomic_depth w); world_simpl; repeat split; reflexivity.
Qed.
(** ** Capture, whatever the provider answers *)

(** X11. Past its two guards [capture_payment] never raises: it returns a
    response that reports success or has the form
    [{'success': False, 'error': ...}], whatever the provider does.  When
    the order row is missing or the provider raises, the response is
    [{'success': False, 'error': str(e)}] and no row is written.  When the
    provider answers, one capture transaction carrying its answer is
    recorded, and the response repeats that answer, except that a
    successful capture for an order that is neither paid nor awaiting
    payment is answered with the order-not-pending error.  A capture that
    does not succeed changes nothing but the ledger: the payment stays
    authorized as stored and the order, its history and the stock are
    untouched.  A capture that succeeds stores the payment as [captured];
    when the order is already paid, the order and the stock are left as they
    are. *)
Theorem capture_payment_failure_keeps_authorization
    (payment : Payment.t) (amount : option decimal) (provider : Provider.t)
    (w : World) :
  Payment.status payment = PaymentStatus.authorized ->
  registry w !! Payment.provider_code payment = Some provider ->
  exists d w',
    capture_payment payment amount w = (Returned d, w') /\
    (success_response d \/ failure_response d) /\
    status_history (db w') = status_history (db w) /\
    match orders (db w) !! Payment.order_id payment with
    | None =>
        d = dict [("success", PyBool false);
                  ("error", PyStr (str_exn (DoesNotExist "Order")))] /\
        db w' = db w /\
        provider_calls w' = provider_calls w
    | Some order =>
        match Provider.capture provider order amount with
        | Raised e =>
            d = dict [("success", PyBool false);
                      ("error", PyStr (str_exn e))] /\
            db w' = db w
        | Returned result =>
            transactions (db w')
            = Transaction.mk (Payment.id payment) TransactionType.capture
                (str_or (op_transaction_id result) "") (op_amount result)
                (Payment.currency payment) (op_success result)
                (str_or (op_error_message result) "")
                (op_raw_response result)
              :: transactions (db w) /\
            d = (if op_success result
                    && negb (bool_decide (Order.status order
                                          = OrderStatus.paid))
                    && negb (bool_decide (Order.status order
                                          = OrderStatus.pending_payment))
                 then
                   dict [("success", PyBool false);
                         ("error",
                          PyStr ("Order " +:+ Order.number order
                                 +:+ " is not in pending_payment status"))]
                 else
                   dict [("success", PyBool (op_success result));
                         ("error", py_opt_str (op_error_message result));
                         ("transaction_id",
                          py_opt_str (op_transaction_id result));
                         ("amount", py_opt_decimal (op_amount result))]) /\
            (op_success result = false ->
             payments (db w') = payments (db w) /\
             orders (db w') = orders (db w) /\
             products (db w') = products (db w)) /\
            (op_success result = true ->
             payments (db w')
             = upsert_payment
                 (apply_optional "" (op_raw_response result)
                    (Payment.set_captured_at (clock w)
                       (Payment.set_status PaymentStatus.captured payment)))
                 (payments (db w)) /\
             (Order.status order <> OrderStatus.pending_payment ->
              orders (db w') = orders (db w) /\
              products (db w') = products (db w)))
        end
    end.
Proof.
  intros Hst Hreg.
  unfold capture_payment. rewrite run_atomic. unfold Payment.can_be_captured.
  rewrite (bool_decide_eq_true_2 _ Hst). cbn [negb].
  rewrite run_bind. unfold get_provider at 1. world_simpl. rewrite Hreg.
  unfold try_except. rewrite run_bind.
  unfold Payment_order at 1. rewrite run_bind. unfold get_db at 1.
  world_simpl.
  destruct (orders (db w) !! Payment.order_id payment) as [order|] eqn:Ho.
  - unfold ret at 1. cbv beta iota. rewrite run_bind.
    unfold call_provider at 1.
    destruct (Provider.capture provider order amount) as [result|e] eqn:Hcap.
    + destruct (op_success result) eqn:Hok.
      * (* the provider reports success *)
        match goal with
        | |- context [bind (create_transaction _ _ _ _ _ _ _) _ ?w0] =>
            destruct (capture_payment_captured payment amount provider order
                        result w0
                        (fun _ =>
                           if negb (bool_decide (Order.status order
                                                 = OrderStatus.paid))
                           then
                             o <- OrderService.process_payment_success order ;;
                             ret tt
                           else ret tt)
                        (fun _ =>
                           ret (dict [("success", PyBool true);
                                      ("error",
                                       py_opt_str (op_error_message result));
                                      ("transaction_id",
                                       py_opt_str (op_transaction_id result));
                                      ("amount",
                                       py_opt_decimal (op_amount result))])))
              as (w3 & captured & Hcaptured & Hrun & Hpay & Htx & Hord & Hit
                  & Hprod & Hhist & Hdepth & Hclock & Hregs)
        end.
        rewrite Hrun. clear Hrun.
        world_simpl_in Hpay. world_simpl_in Htx. world_simpl_in Hord.
        world_simpl_in Hprod. world_simpl_in Hhist. world_simpl_in Hcaptured.
        subst captured.
        destruct (decide (Order.status order = OrderStatus.paid)) as [Hp|Hp].
        -- rewrite (bool_decide_eq_true_2 _ Hp). cbn [negb andb].
           rewrite run_bind. unfold ret. cbv beta iota.
           eexists _, _. split; [reflexivity|].
           split; [left; reflexivity|].
           destruct (atomic_depth w); world_simpl;
             rewrite Hpay, Htx, Hord, Hprod, Hhist;
             repeat split; try reflexivity; intros; discriminate.
        -- rewrite (bool_decide_eq_false_2 _ Hp). cbn [negb andb].
           rewrite !run_bind.
           destruct (decide (Order.status order = OrderStatus.pending_payment))
             as [Hpend|Hpend].
           ++ rewrite (bool_decide_eq_true_2 _ Hpend). cbn [negb].
              destruct (process_payment_success_rows order w3 Hpend)
                as (order' & w4 & Hrun & _ & _ & _ & _ & _ & Hpay' & Htx'
                    & _ & _ & _ & Hhist').
              rewrite Hrun. unfold ret. cbv beta iota.
              eexists _, _. split; [reflexivity|].
              split; [left; reflexivity|].
              destruct (atomic_depth w); world_simpl;
                rewrite Hpay', Htx', Hhist', Hpay, Htx, Hhist;
                repeat split; try reflexivity; intros;
                first [discriminate|contradiction].
           ++ rewrite (bool_decide_eq_false_2 _ Hpend). cbn [negb].
              rewrite (process_payment_success_not_pending order w3 Hpend).
              unfold ret. cbv beta iota.
              eexists _, _. split; [reflexivity|].
              split; [right; split; [reflexivity|eexists; reflexivity]|].
              destruct (atomic_depth w); world_simpl;
                rewrite Hpay, Htx, Hord, Hprod, Hhist;
                repeat split; try reflexivity; intros; discriminate.
      * (* the provider answers without success *)
        rewrite run_bind. unfold create_transaction at 1, write at 1.
        world_simpl. rewrite run_bind. unfold ret. cbv beta iota.
        cbn [andb].
        eexists _, _. split; [reflexivity|].
        split; [right; split; [reflexivity|eexists; reflexivity]|].
        destruct (atomic_depth w); world_simpl;
          repeat split; try reflexivity; intros; discriminate.
    + unfold ret. cbv beta iota.
      eexists _, _. split; [reflexivity|].
      split; [right; split; [reflexivity|eexists; reflexivity]|].
      destruct (atomic_depth w); world_simpl; repeat split; reflexivity.
  - unfold raise at 1. cbv beta iota. unfold ret. cbv beta iota.
    eexists _, _. split; [reflexivity|].
    split; [right; split; [reflexivity|eexists; reflexivity]|].
    destruct (atomic_depth w); world_simpl; repeat split; reflexivity.
Qed.

(** Refunding nothing of the example payment is refunding all of it: the
    provider is asked for 36.20 and the refund of 36.20 is recorded. *)
Lemma refund_zero_amount_witness :
  exists d w',
    PaymentService.refund_payment (example_payment PaymentStatus.completed)
      (Some (Decimal.cents 0)) "customer request"
      (example_world OrderStatus.paid
         [example_payment PaymentStatus.completed] (Returned completed_hook))
    = (Returned d, w') /\
    PaymentService.refund_payment (example_payment PaymentStatus.completed)
      (Some (Decimal.cents 0)) "customer request"
      (example_world OrderStatus.paid
         [example_payment PaymentStatus.completed] (Returned completed_hook))
    = PaymentService.refund_payment (example_payment PaymentStatus.completed)
        (Some (Decimal.cents 3620)) "customer request"
        (example_world OrderStatus.paid
           [example_payment PaymentStatus.completed] (Returned completed_hook))
    /\
    d !! "success" = Some (PyBool true) /\
    d !! "amount" = Some (PyDecimal (Decimal.cents 3620)) /\
    map call_operation (provider_calls w') = ["refund"] /\
    transactions (db w')
    = [Transaction.mk "pay-1" TransactionType.refund "refund_1"
         (Some (Decimal.cents 3620)) "EUR" true "" None] /\
    payments (db w') = [example_payment PaymentStatus.refunded] /\
    Order.status <$> orders (db w') !! "o-1" = Some OrderStatus.refunded.
Proof.
  destruct (refund_zero_amount_defaults_to_refundable
              (example_payment PaymentStatus.completed)
              (Decimal.cents 0) (Decimal.cents 3620) "customer request"
              (example_world OrderStatus.paid
                 [example_payment PaymentStatus.completed]
                 (Returned completed_hook)))
    as (_ & Hsame & _ & Hrun); try reflexivity.
  destruct (Hrun (example_provider (Returned completed_hook))
              (example_order OrderStatus.paid) eq_refl eq_refl)
    as (d & w' & Hd & Hcalls & Hcase).
  cbn in Hcase.
  destruct Hcase as (Htx & Hpay & Hans & Hord).
  exists d, w'. split; [exact Hd|]. split; [exact Hsame|].
  split; [rewrite Hans; reflexivity|].
  split; [rewrite Hans; reflexivity|].
  split; [rewrite Hcalls; reflexivity|].
  split; [exact Htx|]. split; [exact Hpay|exact Hord].
Defined.

(** ** The further statements at the fixtures *)

(** Marking the example order paid moves it forward. *)
Lemma transitions_only_move_forward_witness :
  exists o' w',
    method Transition.mark_as_paid
      (example_order OrderStatus.pending_payment)
      (example_world OrderStatus.pending_payment [] (Returned completed_hook))
    = (Returned o', w') /\
    (lifecycle_rank OrderStatus.pending_payment
     < lifecycle_rank (Order.status o'))%nat.
Proof.
  destruct (transition_from_source_returns Transition.mark_as_paid
              (example_order OrderStatus.pending_payment)
              (example_world OrderStatus.pending_payment []
                 (Returned completed_hook)))
    as (o' & w' & Hrun).
  - apply (bool_decide_eq_true_1 _). reflexivity.
  - discriminate.
  - destruct (transitions_only_move_forward _ _ _ _ _ Hrun) as [Hrank _].
    exists o', w'. split; [exact Hrun|exact Hrank].
Defined.

(** Submitting the example order while its terms are not accepted. *)
Lemma submit_rejects_unready_draft_witness :
  submit unaccepted_draft
    (example_world OrderStatus.draft [] (Returned completed_hook))
  = (Raised (ValueError "Terms must be accepted"),
     example_world OrderStatus.draft [] (Returned completed_hook)).
Proof.
  exact (submit_rejects_unready_draft unaccepted_draft
           (example_world OrderStatus.draft [] (Returned completed_hook))
           eq_refl (or_introl eq_refl)).
Defined.

(** Shipping the example order leaves its stored row in [processing]. *)
Lemma transition_leaves_order_row_unsaved_witness :
  exists o' w',
    method Transition.ship (example_order OrderStatus.processing)
      (example_world OrderStatus.processing [] (Returned completed_hook))
    = (Returned o', w') /\
    Order.status o' = OrderStatus.shipped /\
    (Order.status <$> (orders (db w') !! "o-1"))
    = Some OrderStatus.processing.
Proof.
  destruct (transition_from_source_returns Transition.ship
              (example_order OrderStatus.processing)
              (example_world OrderStatus.processing []
                 (Returned completed_hook)))
    as (o' & w' & Hrun).
  - apply (bool_decide_eq_true_1 _). reflexivity.
  - discriminate.
  - destruct (transition_leaves_order_row_unsaved _ _ _ _ _ Hrun)
      as (_ & Hord & _).
    destruct (method_returned_status _ _ _ _ _ Hrun) as [_ Hst].
    exists o', w'. split; [exact Hrun|]. split; [exact Hst|].
    rewrite Hord. reflexivity.
Defined.

(** Canceling the example order once it is shipped. *)
Lemma cancel_order_rejects_closed_order_witness :
  exists w',
    OrderService.cancel_order (example_order OrderStatus.shipped)
      "changed mind"
      (example_world OrderStatus.shipped [] (Returned completed_hook))
    = (Raised (ValueError
                 "Order ORD-202401-0001 cannot be canceled from status shipped"),
       w') /\
    db w' = example_db OrderStatus.shipped [].
Proof.
  destruct (cancel_order_rejects_closed_order
              (example_order OrderStatus.shipped) "changed mind"
              (example_world OrderStatus.shipped []
                 (Returned completed_hook)))
    as (w' & Hrun & Hdb & _).
  - apply (bool_decide_eq_true_1 _). reflexivity.
  - exists w'. split; [exact Hrun|exact Hdb].
Defined.

(** Settling the example order a second time, once it is paid. *)
Lemma process_payment_success_rejects_unless_pending_witness :
  exists w',
    OrderService.process_payment_success (example_order OrderStatus.paid)
      (example_world OrderStatus.paid [] (Returned completed_hook))
    = (Raised (ValueError
                 "Order ORD-202401-0001 is not in pending_payment status"),
       w') /\
    db w' = example_db OrderStatus.paid [].
Proof.
  destruct (process_payment_success_rejects_unless_pending
              (example_order OrderStatus.paid)
              (example_world OrderStatus.paid [] (Returned completed_hook)))
    as (w' & Hrun & Hdb & _).
  - discriminate.
  - exists w'. split; [exact Hrun|exact Hdb].
Defined.

(** Settling the example order: product A keeps a stock that is not
    negative. *)
Lemma process_payment_success_never_oversells_witness :
  exists order' w' p',
    OrderService.process_payment_success
      (example_order OrderStatus.pending_payment)
      (example_world OrderStatus.pending_payment [] (Returned completed_hook))
    = (Returned order', w') /\
    Order.status order' = OrderStatus.paid /\
    products (db w') !! "p-A" = Some p' /\
    0 <= Product.stock_quantity p'.
Proof.
  destruct (process_payment_success_never_oversells
              (example_order OrderStatus.pending_payment)
              (example_world OrderStatus.pending_payment []
                 (Returned completed_hook)) eq_refl)
    as (order' & w' & Hrun & Hst & _ & _ & Hstock).
  destruct (Hstock "p-A" (Product.mk 10 true) eq_refl)
    as (p' & Hp' & _ & Hnn & _).
  exists order', w', p'. split; [exact Hrun|]. split; [exact Hst|].
  split; [exact Hp'|]. apply Hnn. cbn. lia.
Defined.
(** Paying the example order and then canceling it: the stock covered both
    lines, so products A and B are back at 10 and 3. *)
Lemma cancel_after_payment_witness :
  exists paid w1 canceled w2,
    OrderService.process_payment_success
      (example_order OrderStatus.pending_payment)
      (example_world OrderStatus.pending_payment [] (Returned completed_hook))
    = (Returned paid, w1) /\
    OrderService.cancel_order paid "changed mind" w1
    = (Returned canceled, w2) /\
    products (db w2) !! "p-A" = Some (Product.mk 10 true) /\
    products (db w2) !! "p-C" = Some (Product.mk 7 true).
Proof.
  assert (Hl : items_select_related_product
                 (db (example_world OrderStatus.pending_payment []
                        (Returned completed_hook)))
                 (example_order OrderStatus.pending_payment)
               = [(OrderItem.mk "o-1" "p-A" 2 (Decimal.cents 1000)
                     (Decimal.cents 2000), Product.mk 10 true);
                  (OrderItem.mk "o-1" "p-B" 1 (Decimal.cents 500)
                     (Decimal.cents 500), Product.mk 3 true)])
    by reflexivity.
  destruct (cancel_after_payment_credits_unsold_lines
              (example_order OrderStatus.pending_payment) "changed mind"
              (example_world OrderStatus.pending_payment []
                 (Returned completed_hook)) eq_refl)
    as (paid & w1 & canceled & w2 & Hrun1 & Hrun2 & _ & Hlines & Hother).
  - rewrite Hl. apply (bool_decide_eq_true_1 _). reflexivity.
  - exists paid, w1, canceled, w2.
    split; [exact Hrun1|]. split; [exact Hrun2|]. split.
    + apply (Hlines (OrderItem.mk "o-1" "p-A" 2 (Decimal.cents 1000)
                       (Decimal.cents 2000), Product.mk 10 true)).
      rewrite Hl. apply list_elem_of_here.
    + rewrite (Hother "p-C"); [reflexivity|].
      rewrite Hl. apply (bool_decide_eq_false_1 _). reflexivity.
Defined.

(** The refunds of the example payment: 10.00 and 5.00 add up to 15.00; a
    successful refund recorded without an amount makes the sum raise. *)
Lemma refunded_amount_witness :
  refunded_amount (example_payment PaymentStatus.completed)
    (example_world_with (example_provider (Returned completed_hook))
       OrderStatus.paid [example_payment PaymentStatus.completed]
       [example_refund (Some (Decimal.cents 500));
        example_refund (Some (Decimal.cents 1000))])
  = (Returned (Decimal.cents 1500),
     example_world_with (example_provider (Returned completed_hook))
       OrderStatus.paid [example_payment PaymentStatus.completed]
       [example_refund (Some (Decimal.cents 500));
        example_refund (Some (Decimal.cents 1000))]) /\
  refunded_amount (example_payment PaymentStatus.completed)
    (example_world_with (example_provider (Returned completed_hook))
       OrderStatus.paid [example_payment PaymentStatus.completed]
       [example_refund None; example_refund (Some (Decimal.cents 1000))])
  = (Raised (TypeError "unsupported operand type(s) for +"),
     example_world_with (example_provider (Returned completed_hook))
       OrderStatus.paid [example_payment PaymentStatus.completed]
       [example_refund None; example_refund (Some (Decimal.cents 1000))]).
Proof.
  split.
  - destruct (refunded_amount_sums_or_raises
                (example_payment PaymentStatus.completed)
                (example_world_with (example_provider (Returned completed_hook))
                   OrderStatus.paid [example_payment PaymentStatus.completed]
                   [example_refund (Some (Decimal.cents 500));
                    example_refund (Some (Decimal.cents 1000))]))
      as [Hsum _].
    rewrite Hsum; [reflexivity|].
    change (None ∉ [Some (Decimal.cents 500); Some (Decimal.cents 1000)]).
    intros Hin.
    repeat (apply elem_of_cons in Hin as [Hin|Hin]; [discriminate|]).
    inversion Hin.
  - destruct (refunded_amount_sums_or_raises
                (example_payment PaymentStatus.completed)
                (example_world_with (example_provider (Returned completed_hook))
                   OrderStatus.paid [example_payment PaymentStatus.completed]
                   [example_refund None;
                    example_refund (Some (Decimal.cents 1000))]))
      as [_ Hraise].
    apply Hraise. apply list_elem_of_here.
Defined.

(** With 10.00 and 5.00 refunded, 21.20 of the 36.20 can still be
    refunded. *)
Lemma refundable_amount_witness :
  refundable_amount (example_payment PaymentStatus.completed)
    (example_world_with (example_provider (Returned completed_hook))
       OrderStatus.paid [example_payment PaymentStatus.completed]
       [example_refund (Some (Decimal.cents 500));
        example_refund (Some (Decimal.cents 1000))])
  = (Returned (Decimal.cents 2120),
     example_world_with (example_provider (Returned completed_hook))
       OrderStatus.paid [example_payment PaymentStatus.completed]
       [example_refund (Some (Decimal.cents 500));
        example_refund (Some (Decimal.cents 1000))]).
Proof.
  destruct (refundable_amount_exact
              (example_payment PaymentStatus.completed)
              (example_world_with (example_provider (Returned completed_hook))
                 OrderStatus.paid [example_payment PaymentStatus.completed]
                 [example_refund (Some (Decimal.cents 500));
                  example_refund (Some (Decimal.cents 1000))]))
    as [_ Hexact].
  rewrite (Hexact [Decimal.cents 500; Decimal.cents 1000]).
  - reflexivity.
  - reflexivity.
  - split; [reflexivity|]. cbn. lia.
  - reflexivity.
  - repeat constructor; cbn; lia.
  - cbn. lia.
Defined.
(** Capturing the example payment while it is still pending. *)
Lemma capture_payment_rejected_witness :
  exists w',
    capture_payment (example_payment PaymentStatus.pending) None
      (example_world OrderStatus.pending_payment
         [example_payment PaymentStatus.pending] (Returned completed_hook))
    = (Raised (ValueError "Payment pay-1 cannot be captured"), w') /\
    provider_calls w' = [].
Proof.
  destruct (capture_payment_rejected (example_payment PaymentStatus.pending)
              None
              (example_world OrderStatus.pending_payment
                 [example_payment PaymentStatus.pending]
                 (Returned completed_hook)))
    as (w' & Hrun & _ & _ & Hcalls & _).
  - left. discriminate.
  - exists w'. split; [exact Hrun|exact Hcalls].
Defined.

(** Capturing the authorized example payment through a provider that
    inherits the base class's [capture]. *)
Lemma capture_payment_failure_witness :
  exists d w',
    capture_payment (example_payment PaymentStatus.authorized) None
      (example_world_with (declining_provider (Returned completed_hook))
         OrderStatus.pending_payment
         [example_payment PaymentStatus.authorized] [])
    = (Returned d, w') /\
    d !! "success" = Some (PyBool false) /\
    d !! "error" = Some (PyStr "Capture not implemented") /\
    payments (db w') = [example_payment PaymentStatus.authorized] /\
    map Transaction.success (transactions (db w')) = [false].
Proof.
  destruct (capture_payment_failure_keeps_authorization
              (example_payment PaymentStatus.authorized) None
              (declining_provider (Returned completed_hook))
              (example_world_with (declining_provider (Returned completed_hook))
                 OrderStatus.pending_payment
                 [example_payment PaymentStatus.authorized] [])
              eq_refl eq_refl)
    as (d & w' & Hrun & _ & _ & Hcase).
  cbn in Hcase. destruct Hcase as (Htx & Hd & Hfail & _).
  destruct (Hfail eq_refl) as (Hpay & _).
  exists d, w'. split; [exact Hrun|].
  split; [rewrite Hd; reflexivity|].
  split; [rewrite Hd; reflexivity|]. split; [exact Hpay|].
  rewrite Htx. reflexivity.
Defined.

(** Capturing the authorized example payment while the order awaits
    payment: the order is paid and product A goes from 10 to 8. *)
Lemma capture_payment_settles_order_witness :
  exists w' captured order',
    capture_payment (example_payment PaymentStatus.authorized) None
      (example_world OrderStatus.pending_payment
         [example_payment PaymentStatus.authorized] (Returned completed_hook))
    = (Returned
         (dict [("success", PyBool true);
                ("error", PyNone);
                ("transaction_id", PyStr "capture_1");
                ("amount", PyDecimal (Decimal.mk 362000 (-4)))]), w') /\
    payments (db w')
    = upsert_payment captured [example_payment PaymentStatus.authorized] /\
    Payment.status captured = PaymentStatus.captured /\
    orders (db w') !! "o-1" = Some order' /\
    Order.status order' = OrderStatus.paid /\
    products (db w') !! "p-A" = Some (Product.mk 8 true).
Proof.
  destruct (capture_payment_settles_order
              (example_payment PaymentStatus.authorized) None
              (example_provider (Returned completed_hook))
              (example_order OrderStatus.pending_payment)
              (mkOperation true (Some "capture_1")
                 (Some (Decimal.mk 362000 (-4))) (Some "EUR") None None)
              (example_world OrderStatus.pending_payment
                 [example_payment PaymentStatus.authorized]
                 (Returned completed_hook))
              eq_refl eq_refl eq_refl eq_refl eq_refl eq_refl)
    as (w' & captured & order' & Hrun & Hpay & _ & Hst & _ & _ & _ & _
        & Hord & Hpaid & _ & Hprod).
  exists w', captured, order'.
  split; [exact Hrun|]. split; [exact Hpay|]. split; [exact Hst|].
  split; [rewrite Hord; apply lookup_insert_eq|].
  split; [exact Hpaid|]. rewrite Hprod. vm_compute. reflexivity.
Defined.

(** Capturing the authorized example payment after the order was canceled:
    the call reports failure and the payment is stored as captured. *)
Lemma capture_payment_canceled_order_witness :
  exists w' captured,
    capture_payment (example_payment PaymentStatus.authorized) None
      (example_world OrderStatus.canceled
         [example_payment PaymentStatus.authorized] (Returned completed_hook))
    = (Returned
         (dict [("success", PyBool false);
                ("error",
                 PyStr "Order ORD-202401-0001 is not in pending_payment status")]),
       w') /\
    payments (db w')
    = upsert_payment captured [example_payment PaymentStatus.authorized] /\
    Payment.status captured = PaymentStatus.captured /\
    committed w' = db w'.
Proof.
  destruct (capture_payment_keeps_capture_when_order_cannot_be_settled
              (example_payment PaymentStatus.authorized) None
              (example_provider (Returned completed_hook))
              (example_order OrderStatus.canceled)
              (mkOperation true (Some "capture_1")
                 (Some (Decimal.mk 362000 (-4))) (Some "EUR") None None)
              (example_world OrderStatus.canceled
                 [example_payment PaymentStatus.authorized]
                 (Returned completed_hook))
              eq_refl eq_refl eq_refl)
    as (w' & captured & Hrun & Hpay & _ & Hst & _ & _ & _ & _ & Hdur).
  - discriminate.
  - discriminate.
  - reflexivity.
  - reflexivity.
  - exists w', captured.
    split; [exact Hrun|]. split; [exact Hpay|]. split; [exact Hst|].
    apply Hdur. reflexivity.
Defined.

(** Initiating a payment for the example order, read back from its table,
    with a provider that declines. *)
Lemma initiate_payment_failure_witness :
  money_field (Order.grand_total (example_order_row OrderStatus.pending_payment))
  /\
  exists w',
    PaymentService.initiate_payment
      (example_order_row OrderStatus.pending_payment) "dummy"
      "https://shop.example/return/" "https://shop.example/notify/"
      (example_world_with (declining_provider (Returned completed_hook))
         OrderStatus.pending_payment [] [])
    = (Returned (dict [("success", PyBool false);
                       ("error", PyStr "Card declined");
                       ("payment_id", PyStr "uuid-1")]), w') /\
    map Payment.status (payments (db w')) = [PaymentStatus.failed] /\
    map Payment.amount (payments (db w')) = [Decimal.cents 3620] /\
    map Payment.failure_reason (payments (db w')) = ["Card declined"] /\
    map Transaction.success (transactions (db w')) = [false] /\
    map Transaction.amount (transactions (db w')) = [Some (Decimal.cents 3620)]
    /\
    committed w' = db w'.
Proof.
  assert (Hmoney : money_field
                     (Order.grand_total
                        (example_order_row OrderStatus.pending_payment)))
    by (split; [reflexivity|cbn; lia]).
  split; [exact Hmoney|].
  destruct (initiate_payment_failure_is_recorded
              (example_order_row OrderStatus.pending_payment) "dummy"
              "https://shop.example/return/" "https://shop.example/notify/"
              (declining_provider (Returned completed_hook))
              (example_world_with (declining_provider (Returned completed_hook))
                 OrderStatus.pending_payment [] [])
              eq_refl eq_refl Hmoney eq_refl)
    as (w' & Hrun & Hpay & Htx & _ & Hdur).
  - constructor.
  - reflexivity.
  - exists w'. split; [exact Hrun|].
    rewrite Hpay, Htx. auto 10.
Defined.
(** A 'failed' notification for the example order: the pending payment is
    stored as failed and the order still awaits payment. *)
Lemma process_webhook_failed_witness :
  exists w' p',
    PaymentService.process_webhook "dummy" "{}"
      (example_world OrderStatus.pending_payment
         [example_payment PaymentStatus.pending] (Returned failed_hook))
    = (Returned (dict [("success", PyBool true);
                       ("payment_id", PyStr "pay-1");
                       ("status", PyStr "failed")]), w') /\
    payments (db w')
    = upsert_payment p' [example_payment PaymentStatus.pending] /\
    Payment.status p' = PaymentStatus.failed /\
    Payment.failure_reason p' = "Card declined" /\
    orders (db w') = {[ "o-1" := example_order OrderStatus.pending_payment ]}.
Proof.
  destruct (process_webhook_without_completion "dummy" "{}"
              (example_provider (Returned failed_hook)) failed_hook
              (example_payment PaymentStatus.pending)
              (example_world OrderStatus.pending_payment
                 [example_payment PaymentStatus.pending]
                 (Returned failed_hook))
              eq_refl eq_refl eq_refl eq_refl eq_refl)
    as (w' & Hrun & _ & Hord & _ & _ & Hpay).
  - discriminate.
  - cbn in Hpay. destruct Hpay as (p' & Hpay & _ & Hst & _ & Hreason).
    exists w', p'. split; [exact Hrun|]. split; [exact Hpay|].
    split; [exact Hst|]. split; [exact Hreason|]. exact Hord.
Defined.

(** Refunding 10.00 of the completed example payment of 36.20: the payment
    becomes partially refunded and refuses the remaining 26.20. *)
Lemma partial_refund_witness :
  exists w' v',
    PaymentService.refund_payment (example_payment PaymentStatus.completed)
      (Some (Decimal.cents 1000)) "damaged item"
      (example_world OrderStatus.paid
         [example_payment PaymentStatus.completed] (Returned completed_hook))
    = (Returned
         (dict [("success", PyBool true);
                ("error", PyNone);
                ("transaction_id", PyStr "refund_1");
                ("amount", PyDecimal (Decimal.cents 1000))]), w') /\
    payments (db w') = [example_payment PaymentStatus.partially_refunded] /\
    orders (db w') = {[ "o-1" := example_order OrderStatus.paid ]} /\
    PaymentService.refund_payment
      (example_payment PaymentStatus.partially_refunded)
      (Some (Decimal.cents 2620)) "the rest" w'
    = (Raised (ValueError "Payment pay-1 cannot be refunded"), v').
Proof.
  destruct (partial_refund_closes_payment
              (example_payment PaymentStatus.completed)
              (Decimal.cents 1000) (Decimal.cents 3620) "damaged item"
              (example_provider (Returned completed_hook))
              (example_order OrderStatus.paid)
              (mkOperation true (Some "refund_1")
                 (Some (Decimal.cents 1000)) (Some "EUR") None None)
              (example_world OrderStatus.paid
                 [example_payment PaymentStatus.completed]
                 (Returned completed_hook))
              eq_refl eq_refl eq_refl eq_refl eq_refl eq_refl eq_refl eq_refl
              eq_refl eq_refl)
    as (w' & Hrun & Hpay & _ & Hord & _ & _ & Hclosed).
  destruct (Hclosed (Some (Decimal.cents 2620)) "the rest" w')
    as (v' & Hrun2 & _).
  exists w', v'. split; [exact Hrun|]. split; [exact Hpay|].
  split; [exact Hord|exact Hrun2].
Defined.

(** Refunding the whole of the completed example payment once the order is
    being processed: the call reports failure, the payment is refunded and
    the order stays in processing. *)
Lemma full_refund_processing_order_witness :
  exists w',
    PaymentService.refund_payment (example_payment PaymentStatus.completed)
      (Some (Decimal.cents 3620)) "returned"
      (example_world OrderStatus.processing
         [example_payment PaymentStatus.completed] (Returned completed_hook))
    = (Returned
         (dict [("success", PyBool false);
                ("error",
                 PyStr "Can't switch from state 'processing' using method 'refund'")]),
       w') /\
    payments (db w') = [example_payment PaymentStatus.refunded] /\
    orders (db w') = {[ "o-1" := example_order OrderStatus.processing ]} /\
    committed w' = db w'.
Proof.
  destruct (full_refund_stands_when_order_cannot_be_refunded
              (example_payment PaymentStatus.completed)
              (Decimal.cents 3620) (Decimal.cents 3620) "returned"
              (example_provider (Returned completed_hook))
              (example_order OrderStatus.processing)
              (mkOperation true (Some "refund_1")
                 (Some (Decimal.cents 3620)) (Some "EUR") None None)
              (example_world OrderStatus.processing
                 [example_payment PaymentStatus.completed]
                 (Returned completed_hook))
              eq_refl eq_refl eq_refl eq_refl eq_refl eq_refl eq_refl eq_refl)
    as (w' & Hrun & Hpay & _ & Hord & _ & Hdur).
  - discriminate.
  - reflexivity.
  - reflexivity.
  - exists w'. split; [exact Hrun|]. split; [exact Hpay|].
    split; [exact Hord|]. apply Hdur. reflexivity.
Defined.

(** 12.99 EUR is 1299 in provider format and comes back as 12.99; in a
    currency outside the three it becomes 12. *)
Lemma parse_amount_inverts_format_amount_witness :
  format_amount ascii_upper (Decimal.cents 1299) "eur" = 1299 /\
  (exists back,
     parse_amount ascii_upper 1299 "eur" = Some back /\
     Decimal.compare back (Decimal.cents 1299) = Eq) /\
  format_amount ascii_upper (Decimal.cents 1299) "jpy" = 12.
Proof.
  assert (Hm : money_field (Decimal.cents 1299))
    by (split; [reflexivity|cbn; lia]).
  destruct (parse_amount_inverts_format_amount ascii_upper
              (Decimal.cents 1299) "eur" Hm) as [Hminor _].
  destruct (parse_amount_inverts_format_amount ascii_upper
              (Decimal.cents 1299) "jpy" Hm) as [_ Hother].
  destruct Hminor as [Hfmt (back & Hparse & Hcmp)].
  { apply (bool_decide_eq_true_1 _). reflexivity. }
  destruct Hother as [Hfmt' _].
  { apply (bool_decide_eq_false_1 _). reflexivity. }
  split; [exact Hfmt|]. split.
  - exists back. rewrite Hfmt in Hparse. split; [exact Hparse|exact Hcmp].
  - exact Hfmt'.
Defined.
(** A fresh registry: the first lookup loads the settings and builds the
    dummy provider; after another class is registered as 'dummy' the lookup
    still returns that first instance. *)
Lemma get_provider_cached_witness :
  exists self1 self2,
    Registry.get_provider example_settings example_import (fun _ => 0)
      "dummy" None Registry.init
    = (Some (example_provider (Returned completed_hook)), self1) /\
    Registry.register_provider example_replacement_class self1
    = (Returned tt, self2) /\
    Registry.get_provider example_settings example_import (fun _ => 0)
      "dummy" None self2
    = (Some (example_provider (Returned completed_hook)), self2).
Proof.
  destruct (Registry.get_provider example_settings example_import
              (fun _ => 0) "dummy" None Registry.init)
    as [found self1] eqn:Hget.
  assert (Hfound : found = Some (example_provider (Returned completed_hook))).
  { change found with (found, self1).1. rewrite <- Hget. reflexivity. }
  subst found.
  destruct (get_provider_serves_cached_instance example_settings
              example_import (fun _ => 0) "dummy" None Registry.init self1
              (example_provider (Returned completed_hook))
              example_replacement_class Hget eq_refl)
    as (self2 & Hreg & Hcached & _).
  - discriminate.
  - exists self1, self2. auto.
Defined.

(** Unregistering 'dummy' from a loaded registry that holds it. *)
Lemma unregister_provider_witness :
  Registry.is_provider_available example_settings example_import "dummy"
    (Registry.unregister_provider "dummy"
       (Registry.mk {[ "dummy" := example_class ]} ∅ true))
  = (false,
     Registry.unregister_provider "dummy"
       (Registry.mk {[ "dummy" := example_class ]} ∅ true)).
Proof.
  destruct (unregister_provider_forgets_provider example_settings
              example_import (fun _ => 0) "dummy"
              (Registry.mk {[ "dummy" := example_class ]} ∅ true) eq_refl)
    as [Havail _].
  exact Havail.
Defined.

(** Unregistering 'dummy' from a registry that has not loaded yet: the next
    query finds it again. *)
Lemma unregister_before_load_witness :
  (Registry.is_provider_available example_settings example_import "dummy"
     (Registry.unregister_provider "dummy" Registry.init)).1
  = true.
Proof.
  apply (unregister_before_load_is_undone example_settings example_import
           "apps.payments.providers.dummy.DummyProvider" example_class
           Registry.init eq_refl).
  - apply list_elem_of_here.
  - reflexivity.
  - discriminate.
Defined.

(** Adding three units of product C at 4.00 to the example order, with a
    line total of 0.00 passed in: 12.00 is stored and the subtotal becomes
    37.00.  Adding product A, which the order already has, is refused. *)
Lemma order_item_create_witness :
  (exists item w',
     OrderItem_objects_create "o-1" "p-C" 3 (Decimal.cents 400)
       (Decimal.cents 0)
       (example_world OrderStatus.draft [] (Returned completed_hook))
     = (Returned item, w') /\
     OrderItem.line_total item = Decimal.cents 1200 /\
     Order.subtotal
       (calculate_totals (db w') (example_order OrderStatus.draft))
     = Decimal.cents 3700) /\
  (exists msg,
     OrderItem_objects_create "o-1" "p-A" 3 (Decimal.cents 400)
       (Decimal.cents 0)
       (example_world OrderStatus.draft [] (Returned completed_hook))
     = (Raised (IntegrityError msg),
        example_world OrderStatus.draft [] (Returned completed_hook))).
Proof.
  assert (Hitems : map OrderItem.product_id
                     (Order_items
                        (db (example_world OrderStatus.draft []
                               (Returned completed_hook)))
                        (example_order OrderStatus.draft))
                   = ["p-A"; "p-B"]) by reflexivity.
  split.
  - destruct (order_item_create_recomputes_line_total
                (example_order OrderStatus.draft) "p-C" 3 (Decimal.cents 400)
                (Decimal.cents 0)
                (example_world OrderStatus.draft [] (Returned completed_hook)))
      as (_ & Hnew).
    + split; [reflexivity|cbn; lia].
    + lia.
    + cbn. lia.
    + change (Forall money_field [Decimal.cents 2000; Decimal.cents 500]).
      repeat constructor; cbn; lia.
    + change (Z.of_nat 2 < 10 ^ 15). lia.
    + destruct Hnew as (item & w' & Hrun & Hline & _ & _ & _ & _ & _ & _
                        & Hsub).
      { rewrite Hitems. apply (bool_decide_eq_false_1 _). reflexivity. }
      exists item, w'. split; [exact Hrun|]. split; [exact Hline|exact Hsub].
  - destruct (order_item_create_recomputes_line_total
                (example_order OrderStatus.draft) "p-A" 3 (Decimal.cents 400)
                (Decimal.cents 0)
                (example_world OrderStatus.draft [] (Returned completed_hook)))
      as (Hdup & _).
    + split; [reflexivity|cbn; lia].
    + lia.
    + cbn. lia.
    + change (Forall money_field [Decimal.cents 2000; Decimal.cents 500]).
      repeat constructor; cbn; lia.
    + change (Z.of_nat 2 < 10 ^ 15). lia.
    + apply Hdup. rewrite Hitems. apply list_elem_of_here.
Defined.

(** The completed notification for the example order when the table holds
    no payment at all. *)
Lemma process_webhook_without_payment_witness :
  exists w',
    PaymentService.process_webhook "dummy" "{}"
      (example_world OrderStatus.pending_payment [] (Returned completed_hook))
    = (Returned (dict [("success", PyBool false);
                       ("error", PyStr "Payment not found")]), w') /\
    db w' = example_db OrderStatus.pending_payment [].
Proof.
  destruct (process_webhook_without_payment "dummy" "{}"
              (example_provider (Returned completed_hook)) completed_hook
              (example_world OrderStatus.pending_payment []
                 (Returned completed_hook))
              eq_refl eq_refl eq_refl eq_refl)
    as (w' & Hrun & Hdb & _).
  - intros p. discriminate.
  - exists w'. split; [exact Hrun|exact Hdb].
Defined.

